(** * The address book of [adressbook_new.py], embedded in Rocq

    The development follows the Python module top to bottom: the field
    classes ([Field], [Name], [Phone], [Birthday]), the [Record] class with
    its phone list, the [AddressBook] with its insertion-ordered dictionary,
    and the weekly birthday report [get_birthdays_per_week].

    Python values are modelled as follows.
    - A [str] is a list of Unicode code points ([pystr]); the regular
      expression class [\d] and the built-in [int] are Unicode aware, so
      bytes would not do.
    - An exception is a value of [exn]; code that can raise returns a
      [res].  Methods that mutate an object are computations in a small
      state-and-exception monad [M] whose state survives a raise, as a
      Python object keeps the mutations made before an exception.
    - [Record] objects live in a store and the book's dictionary holds
      references to them, so that two names may share one object.
    - The parts of the Python library the module calls ([re.match],
      [datetime.strptime], [date.replace], date arithmetic and
      [strftime("%A")]) are modelled after CPython 3.11 ([Lib/_strptime.py],
      [Lib/datetime.py], Unicode 14.0). *)

From Stdlib Require Import ZArith NArith Ascii String List Bool Lia.
From stdpp Require Import base option numbers list.
Import ListNotations.

Local Open Scope Z_scope.

(** ** Python strings *)

Definition pystr : Type := list N.

Definition ch (a : ascii) : N := N_of_ascii a.

(** An ASCII literal as a Python string. *)
Definition py (s : string) : pystr := List.map N_of_ascii (list_ascii_of_string s).

Definition str_eqb (a b : pystr) : bool := bool_decide (a = b).

(** Truth value of a string: the empty string is falsy. *)
Definition truthy (s : pystr) : bool :=
  match s with
  | [] => false
  | _ :: _ => true
  end.

(** First code points of the blocks of ten characters that have the Unicode
    property Decimal (general category Nd), Unicode 14.0.  Within a block
    the digit value is the offset from its first code point. *)
Definition decimal_blocks : list N :=
  [48; 1632; 1776; 1984; 2406; 2534; 2662; 2790; 2918; 3046; 3174; 3302;
   3430; 3558; 3664; 3792; 3872; 4160; 4240; 6112; 6160; 6470; 6608; 6784;
   6800; 6992; 7088; 7232; 7248; 42528; 43216; 43264; 43472; 43504; 43600;
   44016; 65296; 66720; 68912; 69734; 69872; 69942; 70096; 70384; 70736;
   70864; 71248; 71360; 71472; 71904; 72016; 72784; 73040; 73120; 92768;
   92864; 93008; 120782; 120792; 120802; 120812; 120822; 123200; 123632;
   125264; 130032]%N.

Definition in_block (c start : N) : bool := ((start <=? c) && (c <? start + 10))%N.

(** [\d] of a [str] pattern, and [str.isdecimal] of one character. *)
Definition is_decimal (c : N) : bool := existsb (in_block c) decimal_blocks.

(** The digit value of a decimal character ([unicodedata.decimal]). *)
Definition decimal_value (c : N) : option Z :=
  match List.find (in_block c) decimal_blocks with
  | Some start => Some (Z.of_N (c - start))
  | None => None
  end.

(** A character class [[lo-hi]] over ASCII characters. *)
Definition in_range (lo hi : ascii) (c : N) : bool := ((ch lo <=? c) && (c <=? ch hi))%N.

(** ** Exceptions and results *)

Inductive exn : Type :=
| ValueError (msg : string)
| KeyError (msg : string) (key : pystr)
| TypeError (msg : string)
| OverflowError (msg : string).

Inductive res (A : Type) : Type :=
| Ok (a : A)
| Raise (e : exn).
Arguments Ok {A} a.
Arguments Raise {A} e.

#[global] Instance res_ret : MRet res := fun A a => Ok a.
#[global] Instance res_bind : MBind res := fun A B k r =>
  match r with
  | Ok a => k a
  | Raise e => Raise e
  end.

(** Computations over a mutable state [S]: the state is threaded through and
    returned also when the computation raises. *)
Definition M (S A : Type) : Type := S -> res A * S.

#[global] Instance M_ret {S : Type} : MRet (M S) := fun A a s => (Ok a, s).
#[global] Instance M_bind {S : Type} : MBind (M S) := fun A B k m s =>
  match m s with
  | (Ok a, s') => k a s'
  | (Raise e, s') => (Raise e, s')
  end.

Definition raise {S A : Type} (e : exn) : M S A := fun s => (Raise e, s).
Definition get {S : Type} : M S S := fun s => (Ok s, s).
Definition put {S : Type} (s : S) : M S unit := fun _ => (Ok tt, s).
Definition modify {S : Type} (f : S -> S) : M S unit := fun s => (Ok tt, f s).
Definition lift {S A : Type} (r : res A) : M S A := fun s => (r, s).

(** ** The field classes *)

(** [class Field]: a wrapper around one value; [str(field)] is the value. *)
Record Field : Type := mkField { value : pystr }.

Definition Field_str (f : Field) : pystr := value f.

(** [class Name(Field)]: no validation. *)
Definition Name (v : pystr) : Field := mkField v.

(** The pattern [^\d{10}$] under [re.match]: [^] holds at position 0, then
    ten [\d], then [$], which holds at the end of the string and also just
    before a newline that is the last character. *)
Fixpoint match_digits (n : nat) (s : pystr) : option pystr :=
  match n with
  | O => Some s
  | S n' =>
      match s with
      | c :: rest => if is_decimal c then match_digits n' rest else None
      | [] => None
      end
  end.

Definition at_dollar (rest : pystr) : bool :=
  match rest with
  | [] => true
  | [c] => (c =? ch "010")%N
  | _ => false
  end.

Definition re_match_phone (v : pystr) : bool :=
  match match_digits 10 v with
  | Some rest => at_dollar rest
  | None => false
  end.

(** [class Phone(Field)], [__init__]. *)
Definition Phone (v : pystr) : res Field :=
  if negb (re_match_phone v)
  then Raise (ValueError "Invalid phone number format")
  else Ok (mkField v).

(** ** Dates ([datetime.date]) *)

Record date : Type := mkdate { year : Z; month : Z; day : Z }.

Definition MINYEAR : Z := 1.
Definition MAXYEAR : Z := 9999.
Definition MAXORDINAL : Z := 3652059.

Definition is_leap (y : Z) : bool :=
  (y mod 4 =? 0) && (negb (y mod 100 =? 0) || (y mod 400 =? 0)).

Definition DAYS_IN_MONTH (m : Z) : Z :=
  match m with
  | 1 => 31 | 2 => 28 | 3 => 31 | 4 => 30 | 5 => 31 | 6 => 30
  | 7 => 31 | 8 => 31 | 9 => 30 | 10 => 31 | 11 => 30 | 12 => 31
  | _ => -1
  end.

Definition DAYS_BEFORE_MONTH (m : Z) : Z :=
  match m with
  | 1 => 0 | 2 => 31 | 3 => 59 | 4 => 90 | 5 => 120 | 6 => 151
  | 7 => 181 | 8 => 212 | 9 => 243 | 10 => 273 | 11 => 304 | 12 => 334
  | _ => -1
  end.

Definition days_before_year (y : Z) : Z :=
  let y' := y - 1 in
  y' * 365 + y' / 4 - y' / 100 + y' / 400.

Definition days_in_month (y m : Z) : Z :=
  if (m =? 2) && is_leap y then 29 else DAYS_IN_MONTH m.

Definition days_before_month (y m : Z) : Z :=
  DAYS_BEFORE_MONTH m + (if (2 <? m) && is_leap y then 1 else 0).

Definition ymd2ord (y m d : Z) : Z :=
  days_before_year y + days_before_month y m + d.

Definition DI400Y : Z := 146097.
Definition DI100Y : Z := 36524.
Definition DI4Y : Z := 1461.

Definition ord2ymd (n : Z) : date :=
  let n := n - 1 in
  let n400 := n / DI400Y in
  let n := n mod DI400Y in
  let y := n400 * 400 + 1 in
  let n100 := n / DI100Y in
  let n := n mod DI100Y in
  let n4 := n / DI4Y in
  let n := n mod DI4Y in
  let n1 := n / 365 in
  let n := n mod 365 in
  let y := y + n100 * 100 + n4 * 4 + n1 in
  if (n1 =? 4) || (n100 =? 4) then mkdate (y - 1) 12 31
  else
    let leapyear := (n1 =? 3) && (negb (n4 =? 24) || (n100 =? 3)) in
    let m := Z.shiftr (n + 50) 5 in
    let preceding := DAYS_BEFORE_MONTH m + (if (2 <? m) && leapyear then 1 else 0) in
    if n <? preceding then
      let m := m - 1 in
      let preceding :=
        preceding - (DAYS_IN_MONTH m + (if (m =? 2) && leapyear then 1 else 0)) in
      mkdate y m (n - preceding + 1)
    else mkdate y m (n - preceding + 1).

(** [date(year, month, day)]: the constructor checks its fields. *)
Definition date_new (y m d : Z) : res date :=
  if negb ((MINYEAR <=? y) && (y <=? MAXYEAR))
  then Raise (ValueError "year is out of range")
  else if negb ((1 <=? m) && (m <=? 12))
  then Raise (ValueError "month must be in 1..12")
  else if negb ((1 <=? d) && (d <=? days_in_month y m))
  then Raise (ValueError "day is out of range for month")
  else Ok (mkdate y m d).

(** [d.replace(year=y)] builds a new date, and so checks it. *)
Definition replace_year (d : date) (y : Z) : res date :=
  date_new y (month d) (day d).

Definition toordinal (d : date) : Z := ymd2ord (year d) (month d) (day d).

(** [a < b]: dates compare as the triples (year, month, day). *)
Definition date_lt (a b : date) : bool :=
  (year a <? year b)
  || ((year a =? year b)
      && ((month a <? month b) || ((month a =? month b) && (day a <? day b)))).

(** [(a - b).days] *)
Definition sub_days (a b : date) : Z := toordinal a - toordinal b.

(** [d + timedelta(days=n)] *)
Definition add_days (d : date) (n : Z) : res date :=
  let o := toordinal d + n in
  if (0 <? o) && (o <=? MAXORDINAL)
  then Ok (ord2ymd o)
  else Raise (OverflowError "date value out of range").

(** [d.weekday()]: Monday is 0. *)
Definition weekday (d : date) : Z := (toordinal d + 6) mod 7.

(** [d.strftime("%A")] in the C locale. *)
Definition strftime_A (d : date) : pystr :=
  match weekday d with
  | 0 => py "Monday"
  | 1 => py "Tuesday"
  | 2 => py "Wednesday"
  | 3 => py "Thursday"
  | 4 => py "Friday"
  | 5 => py "Saturday"
  | _ => py "Sunday"
  end.

(** ** [datetime.strptime(value, "%d-%m-%Y")]

    [_strptime] turns the format into the regular expression
    [(?P<d>3[0-1]|[1-2]\d|0[1-9]|[1-9]| [1-9])-(?P<m>1[0-2]|0[1-9]|[1-9])-(?P<Y>\d\d\d\d)],
    matches it at the start of the string, refuses a match that leaves
    characters over, converts the three groups with [int] and builds the
    date.  A group is modelled as the list of its ways to match a prefix, in
    the order the alternatives are tried, each with the text that follows;
    the match found is the first of the combined list. *)

Definition alt1 (p : N -> bool) (s : pystr) : list (pystr * pystr) :=
  match s with
  | a :: r => if p a then [([a], r)] else []
  | [] => []
  end.

Definition alt2 (p q : N -> bool) (s : pystr) : list (pystr * pystr) :=
  match s with
  | a :: b :: r => if p a && q b then [([a; b], r)] else []
  | _ => []
  end.

Definition is_char (a : ascii) (c : N) : bool := (c =? ch a)%N.

Definition re_d (s : pystr) : list (pystr * pystr) :=
  alt2 (is_char "3") (in_range "0" "1") s
  ++ alt2 (in_range "1" "2") is_decimal s
  ++ alt2 (is_char "0") (in_range "1" "9") s
  ++ alt1 (in_range "1" "9") s
  ++ alt2 (is_char " ") (in_range "1" "9") s.

Definition re_m (s : pystr) : list (pystr * pystr) :=
  alt2 (is_char "1") (in_range "0" "2") s
  ++ alt2 (is_char "0") (in_range "1" "9") s
  ++ alt1 (in_range "1" "9") s.

Definition re_Y (s : pystr) : list (pystr * pystr) :=
  match s with
  | a :: b :: c :: d :: r =>
      if is_decimal a && is_decimal b && is_decimal c && is_decimal d
      then [([a; b; c; d], r)] else []
  | _ => []
  end.

Definition re_lit (a : ascii) (s : pystr) : list pystr :=
  match s with
  | c :: r => if is_char a c then [r] else []
  | [] => []
  end.

(** The ways the whole expression matches a prefix of [s]: the groups d, m
    and Y and the text after the match. *)
Definition format_regex_matches (s : pystr) : list (pystr * pystr * pystr * pystr) :=
  '(d, s1) ← re_d s;
  s2 ← re_lit "-" s1;
  '(m, s3) ← re_m s2;
  s4 ← re_lit "-" s3;
  '(y, s5) ← re_Y s4;
  [(d, m, y, s5)].

(** [format_regex.match(data_string)]: the first of them. *)
Definition format_regex_match (s : pystr) : option (pystr * pystr * pystr * pystr) :=
  head (format_regex_matches s).

(** [int(s)] on the text of a group: blanks around the number are dropped,
    the decimal characters give the digits. *)
Fixpoint int_digits (acc : Z) (s : pystr) : option Z :=
  match s with
  | [] => Some acc
  | c :: r =>
      match decimal_value c with
      | Some v => int_digits (acc * 10 + v) r
      | None => None
      end
  end.

Fixpoint lstrip (s : pystr) : pystr :=
  match s with
  | c :: r => if is_char " " c then lstrip r else s
  | [] => []
  end.

Definition py_int (s : pystr) : res Z :=
  match lstrip s with
  | [] => Raise (ValueError "invalid literal for int() with base 10")
  | t =>
      match int_digits 0 t with
      | Some z => Ok z
      | None => Raise (ValueError "invalid literal for int() with base 10")
      end
  end.

Definition strptime (s : pystr) : res date :=
  match format_regex_match s with
  | None => Raise (ValueError "time data does not match format")
  | Some (d, m, y, rest) =>
      if truthy rest then Raise (ValueError "unconverted data remains")
      else
        y' ← py_int y;
        m' ← py_int m;
        d' ← py_int d;
        date_new y' m' d'
  end.

(** [class Birthday(Field)], [__init__]: the string is kept, not the date. *)
Definition Birthday (v : pystr) : res Field :=
  match strptime v with
  | Raise (ValueError _) => Raise (ValueError "Invalid birthday format. Use 'DD-MM-YYYY'.")
  | Raise e => Raise e
  | Ok _ => Ok (mkField v)
  end.

(** ** [class Record] *)

Record Record_ : Type := mkRecord {
  name : Field;
  phones : list Field;
  birthday : option Field
}.

(** [Record.__init__(self, name, birthday=None)].  The birthday is built
    only from a truthy argument: [None] and the empty string give no
    birthday. *)
Definition Record_init (nm : pystr) (bday : option pystr) : res Record_ :=
  b ← match bday with
      | Some v => if truthy v then b ← Birthday v; Ok (Some b) else Ok None
      | None => Ok None
      end;
  Ok (mkRecord (Name nm) [] b).

Definition set_phones (ps : list Field) (self : Record_) : Record_ :=
  mkRecord (name self) ps (birthday self).

Definition set_birthday (b : option Field) (self : Record_) : Record_ :=
  mkRecord (name self) (phones self) b.

Definition add_phone (phone : pystr) : M Record_ unit :=
  p ← lift (Phone phone);
  modify (fun self => set_phones (phones self ++ [p]) self).

Definition remove_phone (phone : pystr) : M Record_ unit :=
  modify (fun self =>
    set_phones (List.filter (fun p => negb (str_eqb (Field_str p) phone)) (phones self)) self).

Definition edit_phone (old_phone new_phone : pystr) : M Record_ unit :=
  remove_phone old_phone;;
  add_phone new_phone.

(** [find_phone] reads the record and returns the phone object or [None]. *)
Definition find_phone (phone : pystr) (self : Record_) : option Field :=
  List.find (fun p => str_eqb (Field_str p) phone) (phones self).

(** What a caller can hand to [add_birthday]: a [Birthday] object or a raw
    string. *)
Inductive pyarg : Type :=
| ArgBirthday (b : Field)
| ArgStr (s : pystr).

Definition add_birthday (arg : pyarg) : M Record_ unit :=
  match arg with
  | ArgBirthday b => modify (set_birthday (Some b))
  | ArgStr _ => raise (ValueError "Invalid birthday format. Use 'Birthday' object.")
  end.

(** ** Dictionaries

    A [dict] keeps its keys in insertion order; assigning to a key that is
    present keeps its place. *)

Definition dict (V : Type) : Type := list (pystr * V).

Fixpoint dict_get {V : Type} (k : pystr) (d : dict V) : option V :=
  match d with
  | [] => None
  | (k', v) :: d' => if str_eqb k' k then Some v else dict_get k d'
  end.

Definition dict_mem {V : Type} (k : pystr) (d : dict V) : bool :=
  match dict_get k d with
  | Some _ => true
  | None => false
  end.

Fixpoint dict_set {V : Type} (k : pystr) (v : V) (d : dict V) : dict V :=
  match d with
  | [] => [(k, v)]
  | (k', v') :: d' =>
      if str_eqb k' k then (k', v) :: d' else (k', v') :: dict_set k v d'
  end.

Definition dict_del {V : Type} (k : pystr) (d : dict V) : dict V :=
  List.filter (fun kv => negb (str_eqb (fst kv) k)) d.

Definition keys {V : Type} (d : dict V) : list pystr := List.map fst d.

(** ** [class AddressBook]

    The program state: the [Record] objects allocated so far, addressed by
    their position, and the book's [data], from names to objects. *)

Definition loc : Type := nat.

Record World : Type := mkWorld {
  store : list Record_;
  data : dict loc
}.

(** [AddressBook.__init__] *)
Definition empty_world : World := mkWorld [] [].

Definition set_data (d : dict loc) (w : World) : World := mkWorld (store w) d.

Definition alloc (r : Record_) : M World loc :=
  fun w => (Ok (length (store w)), mkWorld (store w ++ [r]) (data w)).

(** [Record(name, birthday)]: a new object, when [__init__] returns. *)
Definition new_record (nm : pystr) (bday : option pystr) : M World loc :=
  r ← lift (Record_init nm bday);
  alloc r.

(** A method call on the object at [l]; its mutations stay in the store,
    also when it raises. *)
Definition call {A : Type} (l : loc) (m : M Record_ A) : M World A :=
  fun w =>
    match store w !! l with
    | Some r => let '(a, r') := m r in (a, mkWorld (<[l := r']> (store w)) (data w))
    | None => (Raise (TypeError "no such object"), w)
    end.

Definition add_record (nm phone : pystr) (bday : option pystr) : M World unit :=
  record ← new_record nm bday;
  call record (add_phone phone);;
  modify (fun w => set_data (dict_set nm record (data w)) w).

Definition find (nm : pystr) (w : World) : option loc := dict_get nm (data w).

Definition update_record (nm : pystr) (new_record : loc) : M World unit :=
  w ← get;
  if dict_mem nm (data w)
  then modify (set_data (dict_set nm new_record (data w)))
  else raise (KeyError "Contact not found: " nm).

Definition delete (nm : pystr) : M World unit :=
  w ← get;
  if dict_mem nm (data w)
  then modify (set_data (dict_del nm (data w)))
  else mret tt.

(** [self.data.items()] with each object read from the store. *)
Definition items (w : World) : list (pystr * Record_) :=
  omap (fun kl => (fun r => (fst kl, r)) <$> store w !! snd kl) (data w).

(** *** [get_birthdays_per_week] *)

Definition str_in (s : pystr) (l : list pystr) : bool := existsb (str_eqb s) l.

(** Lines 100 to 107: the day count from today to the birthday.  A falsy
    value would leave [None] in [birthday_this_year], and the comparison
    with [today] would raise [TypeError]. *)
Definition delta_days (today : date) (today_day : pystr) (b : Field) : res Z :=
  bd ← strptime (value b);
  birthday_this_year ←
    (if truthy (value b) then replace_year bd (year today)
     else Raise (TypeError "'<' not supported between 'NoneType' and 'datetime.date'"));
  birthday_this_year ←
    (if date_lt birthday_this_year today then
       if (-3 <? sub_days birthday_this_year today)
          && negb (str_in today_day [py "Monday"; py "Sunday"; py "Saturday"])
       then replace_year birthday_this_year (year today + 1)
       else Ok birthday_this_year
     else Ok birthday_this_year);
  Ok (sub_days birthday_this_year today).

(** Lines 109 to 123: the weekday the name is filed under, [None] where the
    loop goes on to the next record. *)
Definition celebration (today : date) (today_day : pystr) (delta_days : Z) : res (option pystr) :=
  if (delta_days <? 7) && (-2 <=? delta_days) then
    d ← add_days today delta_days;
    let birthday_weekday := strftime_A d in
    if (delta_days <? 7) && (0 <=? delta_days)
       && negb (str_in today_day [py "Monday"; py "Sunday"; py "Saturday"])
    then
      if str_in birthday_weekday [py "Sunday"; py "Saturday"]
      then Ok (Some (py "Monday"))
      else Ok (Some birthday_weekday)
    else if (delta_days <? 7) && (5 <? delta_days) && str_eqb today_day (py "Monday")
    then Ok None
    else if (-2 <=? delta_days) && (delta_days <=? 0) && str_eqb today_day (py "Monday")
    then Ok (Some (py "Monday"))
    else if (-1 <=? delta_days) && (delta_days =? 0) && str_eqb today_day (py "Sunday")
    then Ok (Some (py "Monday"))
    else if (delta_days =? 0) && str_eqb today_day (py "Sunday")
    then Ok (Some (py "Monday"))
    else Ok (Some birthday_weekday)
  else Ok None.

(** [birthdays_by_day[k].append(nm)] on a [defaultdict(list)]. *)
Fixpoint bucket_append (k nm : pystr) (d : dict (list pystr)) : dict (list pystr) :=
  match d with
  | [] => [(k, [nm])]
  | (k', names) :: d' =>
      if str_eqb k' k then (k', names ++ [nm]) :: d'
      else (k', names) :: bucket_append k nm d'
  end.

(** The loop over the records, from the buckets filled so far. *)
Fixpoint birthdays_loop (today : date) (today_day : pystr)
    (its : list (pystr * Record_)) (birthdays_by_day : dict (list pystr))
    : res (dict (list pystr)) :=
  match its with
  | [] => Ok birthdays_by_day
  | (nm, record) :: rest =>
      match birthday record with
      | None => birthdays_loop today today_day rest birthdays_by_day
      | Some b =>
          delta ← delta_days today today_day b;
          wd ← celebration today today_day delta;
          match wd with
          | Some k =>
              birthdays_loop today today_day rest (bucket_append k nm birthdays_by_day)
          | None => birthdays_loop today today_day rest birthdays_by_day
          end
      end
  end.

(** The method, with the clock made a parameter; it returns the mapping it
    prints. *)
Definition get_birthdays_per_week (today : date) (w : World) : res (dict (list pystr)) :=
  birthdays_loop today (strftime_A today) (items w) [].

(** [sep.join(l)] *)
Fixpoint join (sep : pystr) (l : list pystr) : pystr :=
  match l with
  | [] => []
  | [x] => x
  | x :: r => x ++ sep ++ join sep r
  end.

(** Lines 127 and 128: the lines printed for the mapping, one per day in
    the order the days were first filled. *)
Definition printed_lines (birthdays_by_day : dict (list pystr)) : list pystr :=
  List.map (fun kv => fst kv ++ py ": " ++ join (py ", ") (snd kv)) birthdays_by_day.

(** The name [nm] is in the bucket of day [k]. *)
Definition in_bucket (k nm : pystr) (d : dict (list pystr)) : Prop :=
  exists names, In (k, names) d /\ In nm names.

(** ** Sequences of operations *)

Inductive op : Type :=
| OpAddRecord (nm phone : pystr) (bday : option pystr)
| OpNewRecord (nm : pystr) (bday : option pystr)
| OpAddPhone (l : loc) (phone : pystr)
| OpRemovePhone (l : loc) (phone : pystr)
| OpEditPhone (l : loc) (old_phone new_phone : pystr)
| OpAddBirthday (l : loc) (v : pystr)
| OpUpdateRecord (nm : pystr) (l : loc)
| OpDelete (nm : pystr).

Definition run_op (o : op) : M World unit :=
  match o with
  | OpAddRecord nm phone bday => add_record nm phone bday
  | OpNewRecord nm bday => _ ← new_record nm bday; mret tt
  | OpAddPhone l phone => call l (add_phone phone)
  | OpRemovePhone l phone => call l (remove_phone phone)
  | OpEditPhone l old_phone new_phone => call l (edit_phone old_phone new_phone)
  | OpAddBirthday l v => b ← lift (Birthday v); call l (add_birthday (ArgBirthday b))
  | OpUpdateRecord nm l =>
      w ← get;
      if bool_decide (l < length (store w))%nat then update_record nm l
      else raise (TypeError "no such object")
  | OpDelete nm => delete nm
  end.

(** The state after a sequence of operations; an operation that raises
    leaves the state it reached. *)
Definition exec (ops : list op) (w : World) : World :=
  fold_left (fun w o => snd (run_op o w)) ops w.

(** What the loop body does with one record: the bucket it files the name
    under, if any. *)
Definition filed (today : date) (today_day : pystr) (r : Record_) : res (option pystr) :=
  match birthday r with
  | None => Ok None
  | Some b =>
      delta ← delta_days today today_day b;
      celebration today today_day delta
  end.

(** A triple that the [date] constructor accepts. *)
Definition is_date (d : date) : Prop :=
  date_new (year d) (month d) (day d) = Ok d.

(** The next occurrence of a birthday, in the words of the specification:
    its day and month in today's year, or in the year after when that day
    has passed. *)
Definition next_occurrence (today bd : date) : res date :=
  this_year ← replace_year bd (year today);
  if date_lt this_year today then replace_year bd (year today + 1)
  else Ok this_year.

(** The record of [nm] has the birthday [bstr], the next occurrence of it
    is [occ], within the seven days from [today], and the report for
    [today] names [nm] nowhere. *)
Definition missed (today : date) (w : World) (nm bstr : pystr) (occ : date) : Prop :=
  (exists r, In (nm, r) (items w) /\ birthday r = Some (mkField bstr))
  /\ (exists bd, strptime bstr = Ok bd /\ next_occurrence today bd = Ok occ)
  /\ 0 <= sub_days occ today < 7
  /\ exists m, get_birthdays_per_week today w = Ok m
               /\ forall k, ~ in_bucket k nm m.

(** *** The format of a birthday, as a grammar

    The texts the groups of the expression accept, without the order of the
    alternatives: a day is [1] to [9], alone or after a zero or a blank, or
    [10] to [31] (the second digit of 10 to 29 may be any decimal
    character); a month is [1] to [9], alone or after a zero, or [10] to
    [12]; a year is four decimal characters. *)

Definition day_token (t : pystr) : bool :=
  match t with
  | [a] => in_range "1" "9" a
  | [a; b] =>
      (is_char "3" a && in_range "0" "1" b)
      || (in_range "1" "2" a && is_decimal b)
      || (is_char "0" a && in_range "1" "9" b)
      || (is_char " " a && in_range "1" "9" b)
  | _ => false
  end.

Definition month_token (t : pystr) : bool :=
  match t with
  | [a] => in_range "1" "9" a
  | [a; b] =>
      (is_char "1" a && in_range "0" "2" b)
      || (is_char "0" a && in_range "1" "9" b)
  | _ => false
  end.

Definition year_token (t : pystr) : bool :=
  match t with
  | [a; b; c; d] => is_decimal a && is_decimal b && is_decimal c && is_decimal d
  | _ => false
  end.

(** A day of the calendar [datetime] covers: years 1 to 9999. *)
Definition real_date (y m d : Z) : Prop :=
  1 <= y <= 9999 /\ 1 <= m <= 12 /\ 1 <= d <= days_in_month y m.

(** The form DD-MM-YYYY of the specification: two digits, two digits and
    four digits, padded with zeros. *)
Definition digit (k : Z) : N := (48 + Z.to_N k)%N.

Definition DD (n : Z) : pystr := [digit (n / 10); digit (n mod 10)].

Definition YYYY (n : Z) : pystr :=
  [digit (n / 1000); digit (n / 100 mod 10); digit (n / 10 mod 10); digit (n mod 10)].

Definition DD_MM_YYYY (d m y : Z) : pystr :=
  DD d ++ ch "-" :: DD m ++ ch "-" :: YYYY y.

(** The strings of the grammar whose numbers make a date. *)
Definition birthday_text (v : pystr) : Prop :=
  exists d m y dv mv yv,
    v = d ++ ch "-" :: m ++ ch "-" :: y
    /\ day_token d = true /\ month_token m = true /\ year_token y = true
    /\ py_int d = Ok dv /\ py_int m = Ok mv /\ py_int y = Ok yv
    /\ real_date yv mv dv.

(** [int(s)] is [z]. *)
Definition int_is (s : pystr) (z : Z) : bool :=
  match py_int s with
  | Ok v => v =? z
  | Raise _ => false
  end.

(** The integers from [lo], [n] of them. *)
Definition Z_range (lo n : Z) : list Z :=
  List.map (fun i => lo + Z.of_nat i) (seq 0 (Z.to_nat n)).

(** Every phone of the record is one the [Phone] constructor returns. *)
Definition phones_ok (r : Record_) : Prop :=
  Forall (fun p => Phone (value p) = Ok p) (phones r).

Definition store_ok (w : World) : Prop := Forall phones_ok (store w).

(** A contact for the examples. *)
Definition ann : Record_ :=
  mkRecord (Name (py "Ann")) [mkField (py "0501234567")] None.

(** A book with a contact born on 29 February. *)
Definition leap_book : World :=
  exec [OpAddRecord (py "Ann") (py "0501234567") (Some (py "07-11-1990"));
        OpAddRecord (py "Leo") (py "0631234567") (Some (py "29-02-2000"))]
       empty_world.

(** A record with no birthday, or with one that is not 29 February. *)
Definition plain_birthday (r : Record_) : Prop :=
  match birthday r with
  | None => True
  | Some b => exists bd, strptime (value b) = Ok bd /\ ~ (month bd = 2 /\ day bd = 29)
  end.

(** A book for the examples: four contacts, added in this order. *)
Definition example_book : World :=
  exec [OpAddRecord (py "Ann") (py "0501234567") (Some (py "07-11-1990"));
        OpAddRecord (py "Bob") (py "0671234567") (Some (py "02-01-1985"));
        OpAddRecord (py "Dan") (py "0931234567") (Some (py "14-11-2001"));
        OpAddRecord (py "Eve") (py "0991234567") (Some (py "08-11-1979"))]
       empty_world.

(** ** [Record.__str__] *)

Definition Record_str (self : Record_) : pystr :=
  let phones_str := join (py "; ") (List.map Field_str (phones self)) in
  let birthday_str :=
    match birthday self with
    | Some b => py ", birthday: " ++ Field_str b
    | None => []
    end in
  py "Contact name: " ++ value (name self) ++ py ", phones: " ++ phones_str ++ birthday_str.

(** ** The command handlers *)

(** What the body of a handler can raise: the exceptions above, and the
    [IndexError] of [record.phones[0]] on an empty list. *)
Inductive handler_exn : Type :=
| Core (e : exn)
| IndexError (msg : string).

(** How a body ends: it returns a string or [None], or it raises. *)
Inductive outcome : Type :=
| Returns (v : option pystr)
| Throws (e : handler_exn).

Definition handler (S : Type) : Type := S -> outcome * S.

(** The decorator [input_error]: [ValueError], [KeyError] and [IndexError]
    become the string returned; any other exception goes on. *)
Definition input_error {S : Type} (func : handler S) : M S (option pystr) :=
  fun s =>
    match func s with
    | (Returns v, s') => (Ok v, s')
    | (Throws (Core (ValueError msg)), s') => (Ok (Some (py msg)), s')
    | (Throws (Core (KeyError msg key)), s') =>
        (Ok (Some (py "Contact not found: " ++ py msg ++ key)), s')
    | (Throws (IndexError _), s') =>
        (Ok (Some (py "Invalid command. Please provide the required arguments.")), s')
    | (Throws (Core e), s') => (Raise e, s')
    end.

(** A call into the classes from the body of a handler. *)
Definition core {S A : Type} (m : M S A) (k : A -> handler S) : handler S :=
  fun s =>
    match m s with
    | (Ok a, s') => k a s'
    | (Raise e, s') => (Throws (Core e), s')
    end.

Definition returns {S : Type} (msg : pystr) : handler S :=
  fun s => (Returns (Some msg), s).

(** [book.find(name)] followed by the test [if record:], which holds for
    every [Record] object. *)
Definition find_record (nm : pystr) (w : World) : option (loc * Record_) :=
  match find nm w with
  | Some l =>
      match store w !! l with
      | Some record => Some (l, record)
      | None => None
      end
  | None => None
  end.

Definition add_contact_body (args : list pystr) : handler World :=
  match args with
  | [nm; phone] =>
      core (add_record nm phone None) (fun _ =>
        returns (py "Contact " ++ nm ++ py " with phone " ++ phone
                 ++ py " added successfully."))
  | _ => returns (py "Invalid command. Please provide a name and a phone number.")
  end.

Definition add_contact (args : list pystr) : M World (option pystr) :=
  input_error (add_contact_body args).

Definition change_contact_body (args : list pystr) : handler World :=
  match args with
  | [nm; new_phone] =>
      fun w =>
        match find_record nm w with
        | Some (l, record) =>
            match phones record with
            | p0 :: _ =>
                core (call l (remove_phone (value p0))) (fun _ =>
                core (call l (add_phone new_phone)) (fun _ =>
                  returns (py "Contact updated."))) w
            | [] => (Throws (IndexError "list index out of range"), w)
            end
        | None => returns (py "Contact not found: " ++ nm) w
        end
  | _ => returns (py "Invalid command. Please provide a name and a new phone number.")
  end.

Definition change_contact (args : list pystr) : M World (option pystr) :=
  input_error (change_contact_body args).

Definition show_phone_body (args : list pystr) : handler World :=
  match args with
  | [nm] =>
      fun w =>
        match find_record nm w with
        | Some (_, record) =>
            returns (value (name record) ++ py ": "
                     ++ join (py ", ") (List.map value (phones record))) w
        | None => returns (py "Contact not found: " ++ nm) w
        end
  | _ => returns (py "Invalid command. Please provide a name.")
  end.

Definition show_phone (args : list pystr) : M World (option pystr) :=
  input_error (show_phone_body args).

(** The handler [add_birthday(args, book)]; the method of [Record] has the
    plain name. *)
Definition add_birthday_handler_body (args : list pystr) : handler World :=
  match args with
  | [nm; bday] =>
      fun w =>
        match find_record nm w with
        | Some (l, _) =>
            core (lift (Birthday bday)) (fun b =>
            core (call l (add_birthday (ArgBirthday b))) (fun _ =>
              returns (py "Birthday added for " ++ nm ++ py "."))) w
        | None => returns (py "Contact not found: " ++ nm) w
        end
  | _ =>
      returns
        (py "Invalid command. Please provide a name and a birthday (format: DD-MM-YYYY).")
  end.

Definition add_birthday_handler (args : list pystr) : M World (option pystr) :=
  input_error (add_birthday_handler_body args).

Definition show_birthday_body (args : list pystr) : handler World :=
  match args with
  | [nm] =>
      fun w =>
        match find_record nm w with
        | Some (_, record) =>
            match birthday record with
            | Some b => returns (nm ++ py "'s birthday: " ++ Field_str b) w
            | None => returns (nm ++ py " has no recorded birthday.") w
            end
        | None => returns (py "Contact not found: " ++ nm) w
        end
  | _ => returns (py "Invalid command. Please provide a name.")
  end.

Definition show_birthday (args : list pystr) : M World (option pystr) :=
  input_error (show_birthday_body args).

(** *** The console

    What the program hands to [print] and [console.print], in order: a
    string, or the table of [display_table] as the rows given to
    [add_row]. *)
Inductive printed : Type :=
| Line (s : pystr)
| TableOf (rows : list (pystr * pystr * pystr)).

Record Session : Type := mkSession {
  book : World;
  console : list printed
}.

Definition print_line (s : pystr) (ss : Session) : Session :=
  mkSession (book ss) (console ss ++ [Line s]).

Definition on_book {A : Type} (m : M World A) : M Session A :=
  fun ss => let '(a, w) := m (book ss) in (a, mkSession w (console ss)).

(** [show_birthdays(args, book)]: the report prints its lines itself and
    the handler returns [None]. *)
Definition show_birthdays_body (today : date) (args : list pystr) : handler Session :=
  match args with
  | [] =>
      fun ss =>
        match get_birthdays_per_week today (book ss) with
        | Ok m =>
            (Returns None,
             mkSession (book ss) (console ss ++ List.map Line (printed_lines m)))
        | Raise e => (Throws (Core e), ss)
        end
  | _ =>
      returns
        (py "Invalid command. 'birthdays' command doesn't require additional arguments.")
  end.

Definition show_birthdays (today : date) (args : list pystr) : M Session (option pystr) :=
  input_error (show_birthdays_body today args).

(** [display_table]: one row per record, in the order of the book. *)
Definition table_rows (w : World) : list (pystr * pystr * pystr) :=
  List.map
    (fun kr =>
       (fst kr,
        join (py ", ") (List.map value (phones (snd kr))),
        match birthday (snd kr) with
        | Some b => Field_str b
        | None => py "None"
        end))
    (items w).

Definition show_all_body (args : list pystr) : handler Session :=
  match args with
  | [] =>
      fun ss =>
        match data (book ss) with
        | [] => returns (py "No contacts found.") ss
        | _ :: _ =>
            (Returns None,
             mkSession (book ss) (console ss ++ [TableOf (table_rows (book ss))]))
        end
  | _ => returns (py "Invalid command. 'all' command doesn't require additional arguments.")
  end.

Definition show_all (args : list pystr) : M Session (option pystr) :=
  input_error (show_all_body args).

(** *** [parse_input] *)

(** The characters [str.split] and [str.strip] take for blanks
    ([str.isspace], Unicode 14.0). *)
Definition whitespace : list N :=
  [9; 10; 11; 12; 13; 28; 29; 30; 31; 32; 133; 160; 5760; 8192; 8193; 8194;
   8195; 8196; 8197; 8198; 8199; 8200; 8201; 8202; 8232; 8233; 8239; 8287;
   12288]%N.

Definition isspace (c : N) : bool := existsb (N.eqb c) whitespace.

(** [s.split()]: the maximal runs of characters that are not blanks;
    [cur] is the run being read. *)
Fixpoint split_from (cur s : pystr) : list pystr :=
  match s with
  | [] => if truthy cur then [cur] else []
  | c :: r =>
      if isspace c
      then (if truthy cur then cur :: split_from [] r else split_from [] r)
      else split_from (cur ++ [c]) r
  end.

Definition split (s : pystr) : list pystr := split_from [] s.

Fixpoint lstrip_ws (s : pystr) : pystr :=
  match s with
  | c :: r => if isspace c then lstrip_ws r else s
  | [] => []
  end.

(** [s.strip()] *)
Definition strip (s : pystr) : pystr := rev (lstrip_ws (rev (lstrip_ws s))).

(** What [parse_input] returns: the tuple of the command and its
    arguments, or, from the decorator, a string. *)
Inductive parsed : Type :=
| Tuple (cmd : pystr) (args : list pystr)
| Message (s : pystr).

(** [parse_input(user_input)].  [lower] stands for [str.lower], whose
    Unicode tables are not part of this development. *)
Definition parse_input (lower : pystr -> pystr) (user_input : pystr) : parsed :=
  match split user_input with
  | cmd :: args => Tuple (lower (strip cmd)) args
  | [] => Message (py "not enough values to unpack (expected at least 1, got 0)")
  end.

(** [command, *args = parse_input(user_input)] in [main]: a tuple gives
    its parts, a string gives its characters. *)
Definition unpack (p : parsed) : res (pystr * list pystr) :=
  match p with
  | Tuple cmd args => Ok (cmd, args)
  | Message (c :: r) => Ok ([c], List.map (fun x => [x]) r)
  | Message [] => Raise (ValueError "not enough values to unpack (expected at least 1, got 0)")
  end.

(** [console.print(v)] *)
Definition console_print (v : option pystr) (ss : Session) : Session :=
  match v with
  | Some s => print_line s ss
  | None => print_line (py "None") ss
  end.

Definition print_result (m : M World (option pystr)) : M Session bool :=
  fun ss =>
    match m (book ss) with
    | (Ok v, w) => (Ok true, console_print v (mkSession w (console ss)))
    | (Raise e, w) => (Raise e, mkSession w (console ss))
    end.

Definition drop_result (m : M Session (option pystr)) : M Session bool :=
  fun ss =>
    match m ss with
    | (Ok _, ss') => (Ok true, ss')
    | (Raise e, ss') => (Raise e, ss')
    end.

(** One turn of the loop of [main] on the line read; [false] is [break]. *)
Definition main_step (lower : pystr -> pystr) (today : date) (user_input : pystr)
    : M Session bool :=
  fun ss =>
    match unpack (parse_input lower user_input) with
    | Raise e => (Raise e, ss)
    | Ok (command, args) =>
        if str_in command [py "close"; py "exit"]
        then (Ok false, print_line (py "[red]Goodbye![/red]") ss)
        else if str_eqb command (py "hello")
        then (Ok true, print_line (py "[yellow]How can I help you?[/yellow]") ss)
        else if str_eqb command (py "add") then print_result (add_contact args) ss
        else if str_eqb command (py "change") then print_result (change_contact args) ss
        else if str_eqb command (py "phone") then print_result (show_phone args) ss
        else if str_eqb command (py "all") then drop_result (show_all args) ss
        else if str_eqb command (py "add-birthday")
        then print_result (add_birthday_handler args) ss
        else if str_eqb command (py "show-birthday")
        then print_result (show_birthday args) ss
        else if str_eqb command (py "birthdays")
        then drop_result (show_birthdays today args) ss
        else (Ok true, print_line (py "[blue]Invalid command.[/blue]") ss)
    end.

(** The loop of [main] on the lines typed, each with the date of its turn,
    from the session reached; it stops at [break], at an exception that
    nothing catches, and when the lines run out. *)
Fixpoint main_loop (lower : pystr -> pystr) (lines : list (date * pystr)) (ss : Session)
    : Session :=
  match lines with
  | [] => ss
  | (today, user_input) :: rest =>
      match main_step lower today user_input ss with
      | (Ok true, ss') => main_loop lower rest ss'
      | (_, ss') => ss'
      end
  end.

(** [main] up to its loop: the console, the empty book and the greeting. *)
Definition main_start : Session :=
  print_line (py "[red]Welcome to the assistant bot![/red]") (mkSession empty_world []).

(** [str.lower] on ASCII letters, for the examples. *)
Definition ascii_lower (s : pystr) : pystr :=
  List.map (fun c => if ((65 <=? c) && (c <=? 90))%N then (c + 32)%N else c) s.

(** ** Predicates of the further properties *)

(** The birthday of the record, when it has one, is a string [strptime]
    reads. *)
Definition birthday_ok (r : Record_) : Prop :=
  match birthday r with
  | Some b => exists dt, strptime (value b) = Ok dt
  | None => True
  end.

(** Every reference of the book is to an object of the store. *)
Definition refs_ok (w : World) : Prop :=
  Forall (fun kl => (snd kl < length (store w))%nat) (data w).

(** The seven names [strftime("%A")] gives. *)
Definition day_names : list pystr :=
  [py "Monday"; py "Tuesday"; py "Wednesday"; py "Thursday"; py "Friday";
   py "Saturday"; py "Sunday"].

(** Ten decimal characters and nothing else. *)
Definition ten_decimals (v : pystr) : Prop :=
  length v = 10%nat /\ forallb is_decimal v = true.

(** A string without blanks. *)
Definition no_blank (v : pystr) : Prop := Forall (fun c => isspace c = false) v.

(** The operations the command handlers perform, with the strings of a
    command line for phones: they add a record without a birthday, add and
    remove a phone, and set a birthday. *)
Definition typed_op (o : op) : Prop :=
  match o with
  | OpAddRecord _ phone None => no_blank phone
  | OpAddPhone _ phone => no_blank phone
  | OpRemovePhone _ _ => True
  | OpAddBirthday _ _ => True
  | _ => False
  end.

Definition ten_decimal_phones (r : Record_) : Prop :=
  Forall (fun p => ten_decimals (value p)) (phones r).

(** How often the name is in the buckets of the mapping. *)
Fixpoint occurrences (nm : pystr) (d : dict (list pystr)) : nat :=
  match d with
  | [] => 0
  | (_, names) :: d' => (length (List.filter (str_eqb nm) names) + occurrences nm d')%nat
  end.

(** Bob with one number and a birthday on 29 February, in a store of his
    own. *)
Definition bob_world : World :=
  exec [OpAddRecord (py "Bob") (py "0671234567") (Some (py "29-02-2000"))] empty_world.

(** * Properties *)

(** ** Strings and dictionaries *)

Lemma str_eqb_eq (a b : pystr) : str_eqb a b = true <-> a = b.
Proof. unfold str_eqb. apply bool_decide_eq_true. Qed.

Lemma str_eqb_neq (a b : pystr) : str_eqb a b = false <-> a <> b.
Proof. unfold str_eqb. apply bool_decide_eq_false. Qed.

Lemma str_eqb_refl (a : pystr) : str_eqb a a = true.
Proof. now apply str_eqb_eq. Qed.

Lemma str_in_In (s : pystr) (l : list pystr) : str_in s l = true <-> In s l.
Proof.
  unfold str_in. rewrite existsb_exists. split.
  - intros (x & Hx & Heq). apply str_eqb_eq in Heq. now subst.
  - intros H. exists s. split; [assumption | apply str_eqb_refl].
Qed.

(** ** The weekly report *)

Lemma in_bucket_append (k nm k' nm' : pystr) (d : dict (list pystr)) :
  in_bucket k nm (bucket_append k' nm' d) <-> in_bucket k nm d \/ (k = k' /\ nm = nm').
Proof.
  unfold in_bucket. induction d as [|[k0 names0] d IH]; simpl.
  - split.
    + intros (names & [Heq | []] & Hin). inversion Heq; subst.
      destruct Hin as [-> | []]. now right.
    + intros [(names & [] & _) | [-> ->]]. exists [nm']. simpl. auto.
  - destruct (str_eqb k0 k') eqn:E.
    + apply str_eqb_eq in E. subst k0. split.
      * intros (names & [Heq | Hin'] & Hin).
        -- inversion Heq; subst. apply in_app_or in Hin as [Hin | [-> | []]].
           ++ left. exists names0. simpl. auto.
           ++ now right.
        -- left. exists names. simpl. auto.
      * intros [(names & [Heq | Hin'] & Hin) | [-> ->]].
        -- inversion Heq; subst. exists (names ++ [nm']). split; [now left |].
           apply in_or_app. now left.
        -- exists names. simpl. auto.
        -- exists (names0 ++ [nm']). split; [now left |].
           apply in_or_app. right. now left.
    + split.
      * intros (names & [Heq | Hin'] & Hin).
        -- left. exists names. simpl. auto.
        -- destruct (proj1 IH) as [(names' & H1 & H2) | Hr]; [now exists names | | now right].
           left. exists names'. simpl. auto.
      * intros [(names & [Heq | Hin'] & Hin) | Hr].
        -- exists names. simpl. auto.
        -- destruct (proj2 IH) as (names' & H1 & H2); [left; now exists names |].
           exists names'. simpl. auto.
        -- destruct (proj2 IH) as (names' & H1 & H2); [now right |].
           exists names'. simpl. auto.
Qed.

Lemma loop_unfold today td nm r rest acc :
  birthdays_loop today td ((nm, r) :: rest) acc =
  match filed today td r with
  | Ok (Some k) => birthdays_loop today td rest (bucket_append k nm acc)
  | Ok None => birthdays_loop today td rest acc
  | Raise e => Raise e
  end.
Proof.
  simpl. unfold filed. destruct (birthday r) as [b|]; [| reflexivity].
  unfold mbind, res_bind.
  destruct (delta_days today td b) as [delta|e]; [| reflexivity].
  destruct (celebration today td delta) as [[k|]|e]; reflexivity.
Qed.

(** The names in the buckets after the loop are the names that were there
    and the names of the records the body filed. *)
Lemma loop_spec today td its : forall acc m,
  birthdays_loop today td its acc = Ok m ->
  forall k nm,
    in_bucket k nm m <->
    in_bucket k nm acc \/ exists r, In (nm, r) its /\ filed today td r = Ok (Some k).
Proof.
  induction its as [|[nm0 r0] rest IH]; intros acc m Hrun k nm.
  - simpl in Hrun. inversion Hrun; subst. split; [auto |].
    intros [H | (r & [] & _)]. exact H.
  - rewrite loop_unfold in Hrun.
    destruct (filed today td r0) as [[k0|]|e] eqn:Hf; [| | discriminate].
    + rewrite (IH _ _ Hrun k nm), in_bucket_append. split.
      * intros [[H | [-> ->]] | (r & Hin & Hr)]; [now left | |].
        -- right. exists r0. split; [now left | assumption].
        -- right. exists r. split; [now right | assumption].
      * intros [H | (r & [Heq | Hin] & Hr)]; [now left; left | |].
        -- inversion Heq; subst. left; right. split; congruence.
        -- right. now exists r.
    + rewrite (IH _ _ Hrun k nm). split.
      * intros [H | (r & Hin & Hr)]; [now left |].
        right. exists r. split; [now right | assumption].
      * intros [H | (r & [Heq | Hin] & Hr)]; [now left | |].
        -- inversion Heq; subst. congruence.
        -- right. now exists r.
Qed.

(** A loop that returns has run its body on every record without a raise. *)
Lemma loop_ok_each today td its : forall acc m,
  birthdays_loop today td its acc = Ok m ->
  forall nm r, In (nm, r) its -> exists x, filed today td r = Ok x.
Proof.
  induction its as [|[nm0 r0] rest IH]; intros acc m Hrun nm r Hin; [destruct Hin |].
  rewrite loop_unfold in Hrun.
  destruct (filed today td r0) as [[k0|]|e] eqn:Hf; [| | discriminate];
    (destruct Hin as [Heq | Hin]; [inversion Heq; subst; eauto | eapply IH; eauto]).
Qed.

(** A record whose body raises makes the loop raise. *)
Lemma loop_raises today td its : forall acc nm r e,
  In (nm, r) its -> filed today td r = Raise e ->
  exists e', birthdays_loop today td its acc = Raise e'.
Proof.
  intros acc nm r e Hin Hf.
  destruct (birthdays_loop today td its acc) as [m|e'] eqn:Hrun; [| eauto].
  destruct (loop_ok_each _ _ _ _ _ Hrun _ _ Hin) as [x Hx]. congruence.
Qed.

Lemma celebration_range today td delta k :
  celebration today td delta = Ok (Some k) -> -2 <= delta < 7.
Proof.
  unfold celebration.
  destruct ((delta <? 7) && (-2 <=? delta)) eqn:E; [| discriminate].
  intros _. apply andb_true_iff in E as [E1 E2]. lia.
Qed.

Lemma celebration_weekend_shift today td delta dt :
  0 <= delta < 7 ->
  str_in td [py "Monday"; py "Sunday"; py "Saturday"] = false ->
  add_days today delta = Ok dt ->
  str_in (strftime_A dt) [py "Sunday"; py "Saturday"] = true ->
  celebration today td delta = Ok (Some (py "Monday")).
Proof.
  intros Hd Htd Hadd Hwd. unfold celebration.
  replace (delta <? 7) with true by lia.
  replace (-2 <=? delta) with true by lia.
  replace (0 <=? delta) with true by lia.
  rewrite Hadd, Htd. unfold mbind, res_bind. cbn [andb negb]. now rewrite Hwd.
Qed.

Lemma not_in_str_in (s : pystr) (l : list pystr) : ~ In s l -> str_in s l = false.
Proof.
  intros H. destruct (str_in s l) eqn:E; [| reflexivity].
  apply str_in_In in E. contradiction.
Qed.

Lemma In_items (w : World) (nm : pystr) (r : Record_) :
  In (nm, r) (items w) <-> exists l, In (nm, l) (data w) /\ store w !! l = Some r.
Proof.
  unfold items. rewrite <- list_elem_of_In, list_elem_of_omap. split.
  - intros ([k l] & Hin & Hf). simpl in Hf.
    destruct (store w !! l) as [r'|] eqn:E; [| discriminate].
    inversion Hf; subst. exists l. split; [now apply list_elem_of_In | assumption].
  - intros (l & Hin & Hl). exists (nm, l). split; [now apply list_elem_of_In |].
    simpl. now rewrite Hl.
Qed.

Lemma NoDup_keys_functional {V : Type} (d : dict V) (k : pystr) (v v' : V) :
  NoDup (keys d) -> In (k, v) d -> In (k, v') d -> v = v'.
Proof.
  unfold keys. induction d as [|[k0 v0] d IH]; simpl; [intros _ [] |].
  intros Hnd H1 H2. apply NoDup_cons in Hnd as [Hnotin Hnd].
  assert (Hkey : forall x, In (k0, x) d -> False).
  { intros x Hx. apply Hnotin, list_elem_of_In, in_map_iff. now exists (k0, x). }
  destruct H1 as [H1 | H1], H2 as [H2 | H2].
  - congruence.
  - inversion H1; subst. now destruct (Hkey v').
  - inversion H2; subst. now destruct (Hkey v).
  - now apply IH.
Qed.

(** With the keys of a dictionary distinct, a name has one record. *)
Lemma items_functional (w : World) (nm : pystr) (r r' : Record_) :
  NoDup (keys (data w)) -> In (nm, r) (items w) -> In (nm, r') (items w) -> r = r'.
Proof.
  intros Hnd H1 H2.
  apply In_items in H1 as (l & Hl & Hr). apply In_items in H2 as (l' & Hl' & Hr').
  assert (l = l') by (eapply NoDup_keys_functional; eauto). congruence.
Qed.

(** C2. When today is not a Monday, Saturday or Sunday, a record whose day
    count is between 0 and 6 and whose birthday falls on a Saturday or a
    Sunday is filed under Monday. *)
Theorem weekend_birthday_filed_under_Monday
    (today : date) (w : World) (m : dict (list pystr))
    (nm : pystr) (r : Record_) (b : Field) (delta : Z) (dt : date) :
  get_birthdays_per_week today w = Ok m ->
  In (nm, r) (items w) ->
  birthday r = Some b ->
  ~ In (strftime_A today) [py "Monday"; py "Saturday"; py "Sunday"] ->
  delta_days today (strftime_A today) b = Ok delta ->
  0 <= delta < 7 ->
  add_days today delta = Ok dt ->
  In (strftime_A dt) [py "Saturday"; py "Sunday"] ->
  in_bucket (py "Monday") nm m.
Proof.
  intros Hrun Hin Hb Htd Hdelta Hrange Hadd Hwd.
  unfold get_birthdays_per_week in Hrun.
  apply (loop_spec _ _ _ _ _ Hrun). right. exists r. split; [assumption |].
  unfold filed. rewrite Hb. unfold mbind, res_bind. rewrite Hdelta.
  apply celebration_weekend_shift with (dt := dt); try assumption.
  - apply not_in_str_in. intros H. apply Htd. simpl in *. tauto.
  - apply str_in_In. simpl in *. tauto.
Qed.

(** Today is Wednesday 4 November 2026 and Ann's birthday, 7 November, is
    the coming Saturday: she is listed under Monday. *)
Lemma weekend_birthday_filed_under_Monday_witness :
  exists m, get_birthdays_per_week (mkdate 2026 11 4) example_book = Ok m
            /\ in_bucket (py "Monday") (py "Ann") m.
Proof.
  eexists. split; [vm_compute; reflexivity |].
  apply (weekend_birthday_filed_under_Monday (mkdate 2026 11 4) example_book _
           (py "Ann")
           (mkRecord (Name (py "Ann")) [mkField (py "0501234567")]
                     (Some (mkField (py "07-11-1990"))))
           (mkField (py "07-11-1990")) 3 (mkdate 2026 11 7)).
  - vm_compute; reflexivity.
  - vm_compute. left; reflexivity.
  - reflexivity.
  - vm_compute. intros [H | [H | [H | []]]]; discriminate H.
  - vm_compute; reflexivity.
  - lia.
  - vm_compute; reflexivity.
  - vm_compute. left; reflexivity.
Defined.

(** C3. A name is in a bucket only for a record whose day count is between
    -2 and 6; a record whose day count is outside that range is in no
    bucket. *)
Theorem only_upcoming_are_filed
    (today : date) (w : World) (m : dict (list pystr)) :
  NoDup (keys (data w)) ->
  get_birthdays_per_week today w = Ok m ->
  (forall k nm, in_bucket k nm m ->
     exists r b delta,
       In (nm, r) (items w) /\ birthday r = Some b
       /\ delta_days today (strftime_A today) b = Ok delta /\ -2 <= delta < 7)
  /\ (forall nm r b delta,
        In (nm, r) (items w) -> birthday r = Some b ->
        delta_days today (strftime_A today) b = Ok delta ->
        ~ (-2 <= delta < 7) ->
        forall k, ~ in_bucket k nm m).
Proof.
  intros Hnd Hrun. unfold get_birthdays_per_week in Hrun.
  assert (Hfirst : forall k nm, in_bucket k nm m ->
     exists r b delta,
       In (nm, r) (items w) /\ birthday r = Some b
       /\ delta_days today (strftime_A today) b = Ok delta /\ -2 <= delta < 7).
  { intros k nm Hk. apply (loop_spec _ _ _ _ _ Hrun) in Hk.
    destruct Hk as [(names & [] & _) | (r & Hin & Hf)].
    unfold filed in Hf. destruct (birthday r) as [b|] eqn:Hb; [| discriminate].
    unfold mbind, res_bind in Hf.
    destruct (delta_days today (strftime_A today) b) as [delta|e] eqn:Hd; [| discriminate].
    exists r, b, delta. repeat split; try assumption;
      apply (celebration_range _ _ _ _ Hf). }
  split; [exact Hfirst |].
  intros nm r b delta Hin Hb Hd Hout k Hk.
  destruct (Hfirst k nm Hk) as (r' & b' & delta' & Hin' & Hb' & Hd' & Hrange).
  assert (r' = r) by (eapply items_functional; eauto). subst r'.
  rewrite Hb in Hb'. inversion Hb'; subst b'.
  rewrite Hd in Hd'. inversion Hd'; subst delta'. contradiction.
Qed.

(** On 4 November 2026 Dan's birthday, 14 November, is ten days away: he is
    in no bucket. *)
Lemma only_upcoming_are_filed_witness :
  exists m, get_birthdays_per_week (mkdate 2026 11 4) example_book = Ok m
            /\ delta_days (mkdate 2026 11 4) (strftime_A (mkdate 2026 11 4))
                          (mkField (py "14-11-2001")) = Ok 10
            /\ forall k, ~ in_bucket k (py "Dan") m.
Proof.
  eexists. split; [vm_compute; reflexivity |]. split; [vm_compute; reflexivity |].
  refine (proj2 (only_upcoming_are_filed (mkdate 2026 11 4) example_book _ _ _)
            (py "Dan")
            (mkRecord (Name (py "Dan")) [mkField (py "0931234567")]
                      (Some (mkField (py "14-11-2001"))))
            (mkField (py "14-11-2001")) 10 _ _ _ _).
  - apply (bool_decide_unpack _). vm_compute. exact I.
  - vm_compute; reflexivity.
  - vm_compute. right; right; left; reflexivity.
  - reflexivity.
  - vm_compute; reflexivity.
  - lia.
Defined.

(** ** Dates *)

Lemma date_new_ok (y m d : Z) (dt : date) :
  date_new y m d = Ok dt ->
  dt = mkdate y m d /\ 1 <= y <= 9999 /\ 1 <= m <= 12 /\ 1 <= d <= days_in_month y m.
Proof.
  unfold date_new, MINYEAR, MAXYEAR.
  destruct ((1 <=? y) && (y <=? 9999)) eqn:Ey; simpl; [| discriminate].
  destruct ((1 <=? m) && (m <=? 12)) eqn:Em; simpl; [| discriminate].
  destruct ((1 <=? d) && (d <=? days_in_month y m)) eqn:Ed; simpl; [| discriminate].
  intros H. inversion H; subst.
  apply andb_true_iff in Ey as [? ?], Em as [? ?], Ed as [? ?]. repeat split; lia.
Qed.

Lemma month_cases (m : Z) :
  1 <= m <= 12 ->
  m = 1 \/ m = 2 \/ m = 3 \/ m = 4 \/ m = 5 \/ m = 6 \/
  m = 7 \/ m = 8 \/ m = 9 \/ m = 10 \/ m = 11 \/ m = 12.
Proof. lia. Qed.

(** The days of month [m] end before month [m'] begins. *)
Lemma days_before_month_lt (y m m' : Z) :
  1 <= m -> m < m' -> m' <= 12 ->
  days_before_month y m + days_in_month y m <= days_before_month y m'.
Proof.
  intros H1 H2 H3. unfold days_before_month, days_in_month.
  assert (Hm : 1 <= m <= 12) by lia. assert (Hm' : 1 <= m' <= 12) by lia.
  apply month_cases in Hm, Hm'.
  destruct (is_leap y);
    repeat (destruct Hm as [Hm | Hm]; [subst m |]); try subst m;
    repeat (destruct Hm' as [Hm' | Hm']; [subst m' |]); try subst m';
    simpl; lia.
Qed.

(** Within one year the order of the triples is the order of the ordinals. *)
Lemma same_year_lt_ord (a b : date) :
  year a = year b ->
  1 <= month a -> month b <= 12 ->
  day a <= days_in_month (year a) (month a) -> 1 <= day b ->
  date_lt a b = true -> toordinal a < toordinal b.
Proof.
  intros Hy Hma Hmb Hda Hdb Hlt. unfold date_lt in Hlt. unfold toordinal, ymd2ord.
  rewrite <- Hy in *. rewrite Z.ltb_irrefl, Z.eqb_refl in Hlt. simpl in Hlt.
  apply orb_true_iff in Hlt as [Hm | Hmd].
  - apply Z.ltb_lt in Hm.
    pose proof (days_before_month_lt (year a) (month a) (month b) Hma Hm Hmb). lia.
  - apply andb_true_iff in Hmd as [Hm Hd].
    apply Z.eqb_eq in Hm. apply Z.ltb_lt in Hd. rewrite Hm. lia.
Qed.

Lemma strptime_truthy (v : pystr) (bd : date) : strptime v = Ok bd -> truthy v = true.
Proof. destruct v; [discriminate | reflexivity]. Qed.

(** A birthday whose day in today's year is today or later is counted from
    that day. *)
Lemma delta_days_this_year (today : date) (td : pystr) (b : Field) (bd occ : date) :
  is_date today ->
  strptime (value b) = Ok bd ->
  replace_year bd (year today) = Ok occ ->
  0 <= sub_days occ today ->
  delta_days today td b = Ok (sub_days occ today).
Proof.
  intros Htoday Hbd Hocc Hge. unfold delta_days.
  rewrite Hbd, (strptime_truthy _ _ Hbd). unfold mbind, res_bind. rewrite Hocc.
  destruct (date_lt occ today) eqn:Hlt; [| reflexivity].
  exfalso. unfold replace_year in Hocc.
  apply date_new_ok in Hocc as (-> & _ & Hm & Hd).
  apply date_new_ok in Htoday as (_ & _ & Hm' & Hd').
  apply same_year_lt_ord in Hlt; simpl in *; try lia.
  unfold sub_days in Hge. lia.
Qed.

Lemma celebration_this_week (today : date) (td : pystr) (delta : Z) (x : option pystr) :
  celebration today td delta = Ok x ->
  0 <= delta < 7 ->
  ~ (td = py "Monday" /\ delta = 6) ->
  exists k, x = Some k.
Proof.
  unfold celebration. intros H Hrange Hnot.
  replace (delta <? 7) with true in H by lia.
  replace (-2 <=? delta) with true in H by lia.
  cbn [andb] in H.
  destruct (add_days today delta) as [dt|e]; [| discriminate].
  unfold mbind, res_bind in H.
  destruct ((5 <? delta) && str_eqb td (py "Monday")) eqn:Eskip.
  { apply andb_true_iff in Eskip as [E1 E2]. apply str_eqb_eq in E2.
    exfalso. apply Hnot. split; [assumption | lia]. }
  repeat match type of H with
         | (if ?c then _ else _) = _ => destruct c
         end; inversion H; eauto.
Qed.

(** C1, amended. A record whose birthday, in today's year, is today or one
    of the six days after it is named in the report, unless today is a
    Monday and the birthday is six days away. *)
Theorem birthday_this_week_is_filed
    (today : date) (w : World) (m : dict (list pystr))
    (nm : pystr) (r : Record_) (b : Field) (bd occ : date) :
  is_date today ->
  get_birthdays_per_week today w = Ok m ->
  In (nm, r) (items w) ->
  birthday r = Some b ->
  strptime (value b) = Ok bd ->
  replace_year bd (year today) = Ok occ ->
  0 <= sub_days occ today < 7 ->
  ~ (strftime_A today = py "Monday" /\ sub_days occ today = 6) ->
  exists k, in_bucket k nm m.
Proof.
  intros Htoday Hrun Hin Hb Hbd Hocc Hrange Hnot.
  unfold get_birthdays_per_week in Hrun.
  destruct (loop_ok_each _ _ _ _ _ Hrun _ _ Hin) as [x Hx].
  assert (Hd := delta_days_this_year today (strftime_A today) b bd occ
                  Htoday Hbd Hocc (proj1 Hrange)).
  assert (Hk : exists k, x = Some k).
  { unfold filed in Hx. rewrite Hb in Hx. unfold mbind, res_bind in Hx.
    rewrite Hd in Hx. eapply celebration_this_week; eauto. }
  destruct Hk as [k ->]. exists k.
  apply (loop_spec _ _ _ _ _ Hrun). right. now exists r.
Qed.

(** On Wednesday 4 November 2026 Eve's birthday, 8 November, is four days
    away: she is in the report. *)
Lemma birthday_this_week_is_filed_witness :
  exists m, get_birthdays_per_week (mkdate 2026 11 4) example_book = Ok m
            /\ exists k, in_bucket k (py "Eve") m.
Proof.
  eexists. split; [vm_compute; reflexivity |].
  apply (birthday_this_week_is_filed (mkdate 2026 11 4) example_book _
           (py "Eve")
           (mkRecord (Name (py "Eve")) [mkField (py "0991234567")]
                     (Some (mkField (py "08-11-1979"))))
           (mkField (py "08-11-1979")) (mkdate 1979 11 8) (mkdate 2026 11 8)).
  - reflexivity.
  - vm_compute; reflexivity.
  - vm_compute. right; right; right; left; reflexivity.
  - reflexivity.
  - vm_compute; reflexivity.
  - vm_compute; reflexivity.
  - vm_compute. split; [discriminate | reflexivity].
  - intros [H _]. vm_compute in H. discriminate H.
Defined.

(** C1 as stated fails twice on the example book.  On Tuesday 30 December
    2025 Bob's next birthday, 2 January 2026, is three days away, and on
    Monday 2 November 2026 Eve's, Sunday 8 November, is six days away;
    neither report names them. *)
Lemma birthdays_within_the_week_missed :
  missed (mkdate 2025 12 30) example_book (py "Bob") (py "02-01-1985") (mkdate 2026 1 2)
  /\ missed (mkdate 2026 11 2) example_book (py "Eve") (py "08-11-1979") (mkdate 2026 11 8).
Proof.
  split.
  - split; [| split; [| split]].
    + eexists. split; [vm_compute; right; left; reflexivity | reflexivity].
    + eexists. split; vm_compute; reflexivity.
    + vm_compute. split; [discriminate | reflexivity].
    + eexists. split; [vm_compute; reflexivity |].
      intros k (names & [] & _).
  - split; [| split; [| split]].
    + eexists. split; [vm_compute; right; right; right; left; reflexivity | reflexivity].
    + eexists. split; vm_compute; reflexivity.
    + vm_compute. split; [discriminate | reflexivity].
    + eexists. split; [vm_compute; reflexivity |].
      intros k (names & [Heq | []] & Hin). inversion Heq; subst.
      destruct Hin as [H | []]. discriminate H.
Qed.

(** ** Records *)

Ltac run_m :=
  unfold mbind, mret, M_bind, M_ret, res_bind, res_ret, lift, modify, raise, get, put;
  cbn beta iota.

Lemma Phone_ok (v : pystr) : re_match_phone v = true -> Phone v = Ok (mkField v).
Proof. unfold Phone. now intros ->. Qed.

Lemma Phone_inv (v : pystr) (p : Field) : Phone v = Ok p -> p = mkField v /\ re_match_phone v = true.
Proof.
  unfold Phone. destruct (re_match_phone v); simpl; [| discriminate].
  intros H. inversion H. auto.
Qed.

Lemma Phone_raises (v : pystr) (e : exn) :
  Phone v = Raise e -> e = ValueError "Invalid phone number format".
Proof.
  unfold Phone. destruct (re_match_phone v); simpl; [discriminate |].
  intros H. now inversion H.
Qed.

Lemma add_phone_ok (phone : pystr) (self : Record_) :
  re_match_phone phone = true ->
  add_phone phone self = (Ok tt, set_phones (phones self ++ [mkField phone]) self).
Proof. intros H. unfold add_phone. run_m. now rewrite (Phone_ok _ H). Qed.

Lemma add_phone_raise (phone : pystr) (self : Record_) (e : exn) :
  Phone phone = Raise e -> add_phone phone self = (Raise e, self).
Proof. intros H. unfold add_phone. run_m. now rewrite H. Qed.

Lemma find_app {A : Type} (f : A -> bool) (l1 l2 : list A) :
  List.find f (l1 ++ l2) =
  match List.find f l1 with
  | Some x => Some x
  | None => List.find f l2
  end.
Proof.
  induction l1 as [|a l1 IH]; simpl; [reflexivity |].
  destruct (f a); [reflexivity | exact IH].
Qed.

Lemma find_removed (phone : pystr) (ps : list Field) :
  List.find (fun p => str_eqb (Field_str p) phone)
            (List.filter (fun p => negb (str_eqb (Field_str p) phone)) ps) = None.
Proof.
  induction ps as [|p ps IH]; simpl; [reflexivity |].
  destruct (str_eqb (Field_str p) phone) eqn:E; simpl; [assumption |].
  now rewrite E.
Qed.

(** C4, amended. When the new number is valid and differs from the old one,
    [edit_phone] returns, the old number is no longer found and the new one
    is. *)
Theorem edit_phone_replaces (self : Record_) (old_phone new_phone : pystr) :
  old_phone <> new_phone ->
  re_match_phone new_phone = true ->
  exists self',
    edit_phone old_phone new_phone self = (Ok tt, self')
    /\ find_phone old_phone self' = None
    /\ find_phone new_phone self' = Some (mkField new_phone).
Proof.
  intros Hne Hvalid. unfold edit_phone, remove_phone.
  unfold mbind at 1, M_bind, modify. cbn beta iota.
  rewrite (add_phone_ok _ _ Hvalid). eexists. split; [reflexivity |].
  unfold find_phone, set_phones. cbn [phones]. split.
  - rewrite find_app, find_removed. simpl.
    destruct (str_eqb new_phone old_phone) eqn:E; [| reflexivity].
    apply str_eqb_eq in E. congruence.
  - rewrite find_app.
    destruct (List.find _ (List.filter _ (phones self))) as [[v]|] eqn:E.
    + apply find_some in E as [_ E]. apply str_eqb_eq in E. simpl in E. now subst.
    + simpl. unfold Field_str. simpl. now rewrite str_eqb_refl.
Qed.

(** Ann's number is replaced by another one. *)
Lemma edit_phone_replaces_witness :
  exists self',
    edit_phone (py "0501234567") (py "0671234567") ann = (Ok tt, self')
    /\ find_phone (py "0501234567") self' = None
    /\ find_phone (py "0671234567") self' = Some (mkField (py "0671234567")).
Proof.
  apply (edit_phone_replaces ann (py "0501234567") (py "0671234567")).
  - vm_compute. discriminate.
  - vm_compute; reflexivity.
Defined.

(** C4 as stated fails for [old = new]: Ann has the number, the number is
    valid, and after the edit the old number is found. *)
Lemma edit_phone_same_number_still_found :
  In (mkField (py "0501234567")) (phones ann)
  /\ Phone (py "0501234567") = Ok (mkField (py "0501234567"))
  /\ exists self',
       edit_phone (py "0501234567") (py "0501234567") ann = (Ok tt, self')
       /\ find_phone (py "0501234567") self' = Some (mkField (py "0501234567")).
Proof.
  split; [left; reflexivity |]. split; [vm_compute; reflexivity |].
  eexists. split; vm_compute; reflexivity.
Qed.

(** ** The address book *)

Lemma py_int_raises (s : pystr) (e : exn) :
  py_int s = Raise e -> exists msg, e = ValueError msg.
Proof.
  unfold py_int. destruct (lstrip s) as [|c t]; [intros H; inversion H; eauto |].
  destruct (int_digits 0 (c :: t)); intros H; inversion H; eauto.
Qed.

Lemma date_new_raises (y m d : Z) (e : exn) :
  date_new y m d = Raise e -> exists msg, e = ValueError msg.
Proof.
  unfold date_new.
  repeat match goal with
         | |- (if ?c then _ else _) = _ -> _ => destruct c
         end; intros H; inversion H; eauto.
Qed.

(** [strptime] raises nothing but [ValueError]. *)
Lemma strptime_raises (v : pystr) (e : exn) :
  strptime v = Raise e -> exists msg, e = ValueError msg.
Proof.
  unfold strptime.
  destruct (format_regex_match v) as [[[[d m] y] rest]|]; [| intros H; inversion H; eauto].
  destruct (truthy rest); [intros H; inversion H; eauto |].
  unfold mbind, res_bind.
  destruct (py_int y) as [y'|e1] eqn:Ey;
    [| intros H; inversion H; subst; eapply py_int_raises; eauto].
  destruct (py_int m) as [m'|e2] eqn:Em;
    [| intros H; inversion H; subst; eapply py_int_raises; eauto].
  destruct (py_int d) as [d'|e3] eqn:Ed;
    [| intros H; inversion H; subst; eapply py_int_raises; eauto].
  apply date_new_raises.
Qed.

Lemma Birthday_raises (v : pystr) (e : exn) :
  Birthday v = Raise e -> e = ValueError "Invalid birthday format. Use 'DD-MM-YYYY'.".
Proof.
  unfold Birthday. destruct (strptime v) as [dt|e'] eqn:E; [discriminate |].
  destruct (strptime_raises _ _ E) as [msg ->]. intros H. now inversion H.
Qed.

Lemma Record_init_phones (nm : pystr) (bday : option pystr) (r : Record_) :
  Record_init nm bday = Ok r -> name r = Name nm /\ phones r = [].
Proof.
  unfold Record_init, mbind, res_bind.
  destruct bday as [v|]; [destruct (truthy v); [destruct (Birthday v) |] |];
    intros H; inversion H; auto.
Qed.

Lemma Record_init_raises (nm : pystr) (bday : option pystr) (e : exn) :
  Record_init nm bday = Raise e ->
  e = ValueError "Invalid birthday format. Use 'DD-MM-YYYY'.".
Proof.
  unfold Record_init, mbind, res_bind.
  destruct bday as [v|]; [destruct (truthy v); [destruct (Birthday v) eqn:E |] |];
    intros H; inversion H; subst. eapply Birthday_raises; eauto.
Qed.

Lemma Record_init_invalid_birthday (nm v : pystr) (e : exn) :
  v <> [] -> Birthday v = Raise e -> Record_init nm (Some v) = Raise e.
Proof.
  intros Hne Hb. unfold Record_init, mbind, res_bind.
  destruct v; [congruence |]. cbn [truthy]. now rewrite Hb.
Qed.

(** C5, amended. [add_record] with a phone that [Phone] refuses, or with a
    non-empty birthday string that [Birthday] refuses, raises [ValueError];
    the dictionary of the book is the one before the call and every object
    of the store is as it was. *)
Theorem add_record_invalid_leaves_book
    (w : World) (nm phone : pystr) (bday : option pystr) :
  (exists e, Phone phone = Raise e)
  \/ (exists v e, bday = Some v /\ v <> [] /\ Birthday v = Raise e) ->
  exists msg w',
    add_record nm phone bday w = (Raise (ValueError msg), w')
    /\ data w' = data w
    /\ forall l r, store w !! l = Some r -> store w' !! l = Some r.
Proof.
  intros Hbad. unfold add_record, new_record. run_m.
  destruct (Record_init nm bday) as [r|e] eqn:Hinit.
  - assert (Hphone : exists e, Phone phone = Raise e).
    { destruct Hbad as [H | (v & e & -> & Hne & Hb)]; [exact H |].
      rewrite (Record_init_invalid_birthday _ _ _ Hne Hb) in Hinit. discriminate. }
    destruct Hphone as [e He]. pose proof (Phone_raises _ _ He) as ->.
    unfold alloc, call. cbn [store data].
    rewrite lookup_app_r, Nat.sub_diag by lia. cbn [lookup list_lookup].
    rewrite (add_phone_raise _ _ _ He).
    eexists _, _. split; [reflexivity |]. cbn [store data]. split; [reflexivity |].
    intros l r' Hl. pose proof (lookup_lt_Some _ _ _ Hl).
    rewrite list_lookup_insert_ne by lia. now rewrite lookup_app_l.
  - pose proof (Record_init_raises _ _ _ Hinit) as ->.
    eexists _, w. repeat split; auto.
Qed.

(** A phone of five digits is refused and the example book keeps its
    dictionary. *)
Lemma add_record_invalid_leaves_book_witness :
  exists msg w',
    add_record (py "Zoe") (py "12345") None example_book = (Raise (ValueError msg), w')
    /\ data w' = data example_book
    /\ forall l r, store example_book !! l = Some r -> store w' !! l = Some r.
Proof.
  apply (add_record_invalid_leaves_book example_book (py "Zoe") (py "12345") None).
  left. eexists. vm_compute. reflexivity.
Defined.

(** C5 as stated fails for the empty birthday string: [Birthday] refuses it,
    yet [add_record] returns and the record is in the book. *)
Lemma add_record_empty_birthday_is_stored :
  (exists e, Birthday [] = Raise e)
  /\ add_record (py "Ann") (py "0501234567") (Some []) empty_world
     = (Ok tt, mkWorld [ann] [(py "Ann", 0%nat)]).
Proof. split; [eexists |]; vm_compute; reflexivity. Qed.

Lemma dict_get_set_eq {V : Type} (k : pystr) (v : V) (d : dict V) :
  dict_get k (dict_set k v d) = Some v.
Proof.
  induction d as [|[k' v'] d IH]; simpl.
  - now rewrite str_eqb_refl.
  - destruct (str_eqb k' k) eqn:E; simpl; now rewrite E.
Qed.

Lemma dict_get_set_ne {V : Type} (k k0 : pystr) (v : V) (d : dict V) :
  k0 <> k -> dict_get k0 (dict_set k v d) = dict_get k0 d.
Proof.
  intros Hne. induction d as [|[k' v'] d IH]; simpl.
  - destruct (str_eqb k k0) eqn:E; [| reflexivity].
    apply str_eqb_eq in E. congruence.
  - destruct (str_eqb k' k) eqn:E; simpl.
    + apply str_eqb_eq in E. subst k'.
      destruct (str_eqb k k0) eqn:E'; [| reflexivity].
      apply str_eqb_eq in E'. congruence.
    + now rewrite IH.
Qed.

(** Assigning to a key that is present keeps the keys and their order. *)
Lemma keys_dict_set_mem {V : Type} (k : pystr) (v : V) (d : dict V) :
  dict_mem k d = true -> keys (dict_set k v d) = keys d.
Proof.
  unfold dict_mem, keys. induction d as [|[k' v'] d IH]; simpl; [discriminate |].
  destruct (str_eqb k' k) eqn:E; simpl; [reflexivity |].
  intros H. now rewrite IH.
Qed.

(** C8. [update_record] on an absent name raises [KeyError] and leaves the
    state as it was; on a present name it returns, the name maps to the new
    record, and the other names, the order of the names and the objects are
    unchanged. *)
Theorem update_record_spec (w : World) (nm : pystr) (new_record : loc) :
  if dict_mem nm (data w)
  then exists w',
         update_record nm new_record w = (Ok tt, w')
         /\ find nm w' = Some new_record
         /\ (forall nm', nm' <> nm -> find nm' w' = find nm' w)
         /\ keys (data w') = keys (data w)
         /\ store w' = store w
  else exists msg, update_record nm new_record w = (Raise (KeyError msg nm), w).
Proof.
  unfold update_record. run_m.
  destruct (dict_mem nm (data w)) eqn:Hmem.
  - eexists. split; [reflexivity |]. unfold find, set_data. cbn [data store].
    split; [apply dict_get_set_eq |]. split; [| split; [| reflexivity]].
    + intros nm' Hne. now apply dict_get_set_ne.
    + now apply keys_dict_set_mem.
  - eexists. reflexivity.
Qed.

(** ** The leap day *)

Lemma leap_day_not_in_common_year (y : Z) (bd : date) :
  month bd = 2 -> day bd = 29 -> is_leap y = false ->
  exists e, replace_year bd y = Raise e.
Proof.
  intros Hm Hd Hleap. unfold replace_year, date_new. rewrite Hm, Hd.
  destruct (negb ((MINYEAR <=? y) && (y <=? MAXYEAR))); [eauto |].
  unfold days_in_month. rewrite Hleap. simpl. eauto.
Qed.

(** C9. With a record born on 29 February in the book and today in a year
    that is not a leap year, [get_birthdays_per_week] raises. *)
Theorem leap_day_birthday_raises
    (today : date) (w : World) (nm : pystr) (r : Record_) (b : Field) (bd : date) :
  In (nm, r) (items w) ->
  birthday r = Some b ->
  strptime (value b) = Ok bd ->
  month bd = 2 -> day bd = 29 ->
  is_leap (year today) = false ->
  exists e, get_birthdays_per_week today w = Raise e.
Proof.
  intros Hin Hb Hbd Hm Hd Hleap.
  destruct (leap_day_not_in_common_year (year today) bd Hm Hd Hleap) as [e He].
  unfold get_birthdays_per_week. apply loop_raises with (nm := nm) (r := r) (e := e).
  - assumption.
  - unfold filed. rewrite Hb. unfold delta_days.
    rewrite Hbd, (strptime_truthy _ _ Hbd). unfold mbind, res_bind. now rewrite He.
Qed.

(** Leo was born on 29 February 2000 and 2026 is not a leap year. *)
Lemma leap_day_birthday_raises_witness :
  exists e, get_birthdays_per_week (mkdate 2026 11 3) leap_book = Raise e.
Proof.
  apply (leap_day_birthday_raises (mkdate 2026 11 3) leap_book (py "Leo")
           (mkRecord (Name (py "Leo")) [mkField (py "0631234567")]
                     (Some (mkField (py "29-02-2000"))))
           (mkField (py "29-02-2000")) (mkdate 2000 2 29)).
  - vm_compute. right; left; reflexivity.
  - reflexivity.
  - vm_compute; reflexivity.
  - reflexivity.
  - reflexivity.
  - vm_compute; reflexivity.
Defined.

(** ** Reachable states *)

Lemma phones_ok_add_phone (phone : pystr) (self : Record_) :
  phones_ok self -> phones_ok (snd (add_phone phone self)).
Proof.
  intros Hok. unfold add_phone. run_m.
  destruct (Phone phone) as [p|e] eqn:Hp; simpl; [| assumption].
  unfold phones_ok, set_phones. cbn [phones]. apply Forall_app. split; [assumption |].
  apply Forall_cons. split; [| apply Forall_nil; exact I].
  apply Phone_inv in Hp as [-> Hv]. now apply Phone_ok.
Qed.

Lemma phones_ok_remove_phone (phone : pystr) (self : Record_) :
  phones_ok self -> phones_ok (snd (remove_phone phone self)).
Proof.
  intros Hok. unfold remove_phone, modify, phones_ok, set_phones. cbn [snd phones].
  apply Forall_forall. intros p Hp. apply list_elem_of_In, filter_In in Hp as [Hp _].
  unfold phones_ok in Hok. rewrite Forall_forall in Hok. now apply Hok, list_elem_of_In.
Qed.

Lemma phones_ok_edit_phone (old_phone new_phone : pystr) (self : Record_) :
  phones_ok self -> phones_ok (snd (edit_phone old_phone new_phone self)).
Proof.
  intros Hok. unfold edit_phone. unfold mbind, M_bind.
  pose proof (phones_ok_remove_phone old_phone self Hok) as H1.
  destruct (remove_phone old_phone self) as [[[]|e] self1]; simpl in *; [| assumption].
  now apply phones_ok_add_phone.
Qed.

Lemma phones_ok_add_birthday (arg : pyarg) (self : Record_) :
  phones_ok self -> phones_ok (snd (add_birthday arg self)).
Proof. intros Hok. destruct arg; simpl; assumption. Qed.

(** A method that keeps the phones of its record valid keeps the store
    valid. *)
Lemma store_ok_call {A : Type} (l : loc) (m : M Record_ A) (w : World) :
  (forall r, phones_ok r -> phones_ok (snd (m r))) ->
  store_ok w -> store_ok (snd (call l m w)).
Proof.
  intros Hm Hok. unfold call. destruct (store w !! l) as [r|] eqn:Hl; [| assumption].
  pose proof (Hm r) as Hr. destruct (m r) as [a r']. simpl in *.
  unfold store_ok. cbn [store]. apply Forall_insert; [assumption |].
  apply Hr. unfold store_ok in Hok. rewrite Forall_forall in Hok.
  apply Hok. eapply list_elem_of_lookup_2; eauto.
Qed.

Lemma store_ok_new_record (nm : pystr) (bday : option pystr) (w : World) :
  store_ok w -> store_ok (snd (new_record nm bday w)).
Proof.
  intros Hok. unfold new_record. run_m.
  destruct (Record_init nm bday) as [r|e] eqn:Hinit; simpl; [| assumption].
  unfold store_ok. cbn [store]. apply Forall_app. split; [assumption |].
  apply Forall_cons. split; [| apply Forall_nil; exact I].
  unfold phones_ok. apply Record_init_phones in Hinit as [_ ->]. apply Forall_nil. exact I.
Qed.

Lemma store_ok_add_record (nm phone : pystr) (bday : option pystr) (w : World) :
  store_ok w -> store_ok (snd (add_record nm phone bday w)).
Proof.
  intros Hok. unfold add_record. unfold mbind at 1, M_bind.
  pose proof (store_ok_new_record nm bday w Hok) as H1.
  destruct (new_record nm bday w) as [[l|e] w1]; simpl in *; [| assumption].
  unfold mbind, M_bind.
  pose proof (store_ok_call l (add_phone phone) w1 (phones_ok_add_phone phone) H1) as H2.
  destruct (call l (add_phone phone) w1) as [[[]|e] w2]; simpl in *; assumption.
Qed.

Lemma store_ok_run_op (o : op) (w : World) :
  store_ok w -> store_ok (snd (run_op o w)).
Proof.
  intros Hok. destruct o; simpl.
  - now apply store_ok_add_record.
  - unfold mbind, M_bind. pose proof (store_ok_new_record nm bday w Hok) as H1.
    destruct (new_record nm bday w) as [[l|e] w1]; simpl in *; assumption.
  - apply store_ok_call; [apply phones_ok_add_phone | assumption].
  - apply store_ok_call; [apply phones_ok_remove_phone | assumption].
  - apply store_ok_call; [apply phones_ok_edit_phone | assumption].
  - run_m. destruct (Birthday v) as [b|e]; simpl; [| assumption].
    apply store_ok_call; [apply (phones_ok_add_birthday (ArgBirthday b)) | assumption].
  - run_m. destruct (bool_decide _); simpl; [| assumption].
    unfold update_record. run_m. destruct (dict_mem nm (data w)); simpl; assumption.
  - unfold delete. run_m. destruct (dict_mem nm (data w)); simpl; assumption.
Qed.

Lemma store_ok_exec (ops : list op) : forall w, store_ok w -> store_ok (exec ops w).
Proof.
  unfold exec. induction ops as [|o ops IH]; intros w Hok; simpl; [assumption |].
  apply IH. now apply store_ok_run_op.
Qed.

(** C10. After any sequence of operations from the empty book, every phone
    of every object of the store, and so of every record of the book, is
    one the [Phone] constructor returns for its value. *)
Theorem stored_phones_are_validated (ops : list op) :
  store_ok (exec ops empty_world)
  /\ Forall (fun kr => phones_ok (snd kr)) (items (exec ops empty_world)).
Proof.
  assert (Hok : store_ok (exec ops empty_world)).
  { apply store_ok_exec. apply Forall_nil. exact I. }
  split; [exact Hok |].
  apply Forall_forall. intros [nm r] Hin. simpl.
  apply list_elem_of_In, In_items in Hin as (l & _ & Hl).
  unfold store_ok in Hok. rewrite Forall_forall in Hok.
  apply Hok. eapply list_elem_of_lookup_2; eauto.
Qed.

(** ** The birthday format *)

Ltac char_facts :=
  repeat match goal with
         | H : _ && _ = true |- _ => apply andb_true_iff in H as [? ?]
         | H : in_range _ _ _ = true |- _ =>
             unfold in_range, ch in H; simpl N_of_ascii in H
         | H : is_char _ _ = true |- _ =>
             unfold is_char, ch in H; simpl N_of_ascii in H; apply N.eqb_eq in H
         | H : (_ <=? _)%N = true |- _ => apply N.leb_le in H
         end.

Lemma alt1_spec (p : N -> bool) (s t r : pystr) :
  (t, r) ∈ alt1 p s <-> exists a, t = [a] /\ s = a :: r /\ p a = true.
Proof.
  unfold alt1. destruct s as [|a s].
  - rewrite elem_of_nil. split; [intros [] | intros (a & _ & H & _); discriminate].
  - destruct (p a) eqn:E.
    + rewrite list_elem_of_singleton. split.
      * intros H. inversion H; subst. eauto.
      * intros (a' & -> & H & _). now inversion H.
    + rewrite elem_of_nil. split; [intros [] |].
      intros (a' & _ & H & Hp). inversion H; subst. congruence.
Qed.

Lemma alt2_spec (p q : N -> bool) (s t r : pystr) :
  (t, r) ∈ alt2 p q s <->
  exists a b, t = [a; b] /\ s = a :: b :: r /\ p a = true /\ q b = true.
Proof.
  unfold alt2. destruct s as [|a [|b s]].
  - rewrite elem_of_nil. split; [intros [] | intros (a & b & _ & H & _); discriminate].
  - rewrite elem_of_nil. split; [intros [] | intros (a' & b & _ & H & _); discriminate].
  - destruct (p a && q b) eqn:E.
    + apply andb_true_iff in E as [Ep Eq]. rewrite list_elem_of_singleton. split.
      * intros H. inversion H; subst. eauto 6.
      * intros (a' & b' & -> & H & _). now inversion H.
    + rewrite elem_of_nil. split; [intros [] |].
      intros (a' & b' & _ & H & Hp & Hq). inversion H; subst.
      rewrite Hp, Hq in E. discriminate.
Qed.

Lemma re_d_spec (s t r : pystr) :
  (t, r) ∈ re_d s <-> s = t ++ r /\ day_token t = true.
Proof.
  unfold re_d. rewrite !elem_of_app, !alt2_spec, alt1_spec. split.
  - intros [H | [H | [H | [H | H]]]];
      [destruct H as (a & b & -> & -> & Hp & Hq) ..
      | destruct H as (a & -> & -> & Hp)
      | destruct H as (a & b & -> & -> & Hp & Hq)];
      (split; [reflexivity |]); simpl; rewrite ?Hp, ?Hq, ?orb_true_r; reflexivity.
  - intros [-> Ht]. destruct t as [|a [|b [|c t]]]; simpl in Ht; try discriminate.
    + right; right; right; left. eauto.
    + repeat (apply orb_true_iff in Ht as [Ht | Ht]);
        apply andb_true_iff in Ht as [Hp Hq].
      * left. eauto 6.
      * right; left. eauto 6.
      * right; right; left. eauto 6.
      * right; right; right; right. eauto 6.
Qed.

Lemma re_m_spec (s t r : pystr) :
  (t, r) ∈ re_m s <-> s = t ++ r /\ month_token t = true.
Proof.
  unfold re_m. rewrite !elem_of_app, !alt2_spec, alt1_spec. split.
  - intros [H | [H | H]];
      [destruct H as (a & b & -> & -> & Hp & Hq) ..
      | destruct H as (a & -> & -> & Hp)];
      (split; [reflexivity |]); simpl; rewrite ?Hp, ?Hq, ?orb_true_r; reflexivity.
  - intros [-> Ht]. destruct t as [|a [|b [|c t]]]; simpl in Ht; try discriminate.
    + right; right. eauto.
    + apply orb_true_iff in Ht as [Ht | Ht]; apply andb_true_iff in Ht as [Hp Hq].
      * left. eauto 6.
      * right; left. eauto 6.
Qed.

Lemma re_Y_spec (s t r : pystr) :
  (t, r) ∈ re_Y s <-> s = t ++ r /\ year_token t = true.
Proof.
  unfold re_Y. split.
  - destruct s as [|a [|b [|c [|d s]]]]; try (rewrite elem_of_nil; intros []).
    destruct (is_decimal a && is_decimal b && is_decimal c && is_decimal d) eqn:E;
      [| rewrite elem_of_nil; intros []].
    rewrite list_elem_of_singleton. intros H. inversion H; subst. auto.
  - intros [-> Ht]. destruct t as [|a [|b [|c [|d [|e t]]]]]; simpl in Ht; try discriminate.
    simpl. rewrite Ht. now apply list_elem_of_singleton.
Qed.

Lemma re_lit_spec (a : ascii) (s r : pystr) : r ∈ re_lit a s <-> s = ch a :: r.
Proof.
  unfold re_lit. destruct s as [|c s].
  - rewrite elem_of_nil. split; [intros [] | discriminate].
  - unfold is_char. destruct (c =? ch a)%N eqn:E.
    + apply N.eqb_eq in E. subst c. rewrite list_elem_of_singleton. split; congruence.
    + apply N.eqb_neq in E. rewrite elem_of_nil. split; [intros [] | congruence].
Qed.

Lemma format_regex_matches_spec (s d m y rest : pystr) :
  (d, m, y, rest) ∈ format_regex_matches s <->
  s = d ++ ch "-" :: m ++ ch "-" :: y ++ rest
  /\ day_token d = true /\ month_token m = true /\ year_token y = true.
Proof.
  unfold format_regex_matches. rewrite list_elem_of_bind. split.
  - intros ([d' s1] & H & Hd). apply re_d_spec in Hd as [-> Hd].
    apply list_elem_of_bind in H as (s2 & H & Hl1). apply re_lit_spec in Hl1 as ->.
    apply list_elem_of_bind in H as ([m' s3] & H & Hm). apply re_m_spec in Hm as [-> Hm].
    apply list_elem_of_bind in H as (s4 & H & Hl2). apply re_lit_spec in Hl2 as ->.
    apply list_elem_of_bind in H as ([y' s5] & H & Hy). apply re_Y_spec in Hy as [-> Hy].
    apply list_elem_of_singleton in H. inversion H; subst. auto.
  - intros (-> & Hd & Hm & Hy).
    exists (d, ch "-" :: m ++ ch "-" :: y ++ rest). split; [| now apply re_d_spec].
    apply list_elem_of_bind. exists (m ++ ch "-" :: y ++ rest).
    split; [| now apply re_lit_spec].
    apply list_elem_of_bind. exists (m, ch "-" :: y ++ rest). split; [| now apply re_m_spec].
    apply list_elem_of_bind. exists (y ++ rest). split; [| now apply re_lit_spec].
    apply list_elem_of_bind. exists (y, rest). split; [| now apply re_Y_spec].
    now apply list_elem_of_singleton.
Qed.

Lemma is_decimal_not_dash (c : N) : is_decimal c = true -> c <> ch "-".
Proof. intros H ->. vm_compute in H. discriminate. Qed.

Lemma day_token_no_dash (t : pystr) : day_token t = true -> ch "-" ∉ t.
Proof.
  intros Ht Hin. destruct t as [|a [|b [|c t]]]; simpl in Ht; try discriminate.
  - apply list_elem_of_singleton in Hin. char_facts. unfold ch in Hin. simpl in Hin. lia.
  - assert (Hab : a = ch "-" \/ b = ch "-").
    { apply elem_of_cons in Hin as [-> | Hin]; [now left |].
      apply list_elem_of_singleton in Hin. now right. }
    repeat (apply orb_true_iff in Ht as [Ht | Ht]);
      apply andb_true_iff in Ht as [Hp Hq];
      try (pose proof (is_decimal_not_dash _ Hq));
      char_facts; unfold ch in *; simpl N_of_ascii in *; lia.
Qed.

Lemma month_token_no_dash (t : pystr) : month_token t = true -> ch "-" ∉ t.
Proof.
  intros Ht Hin. destruct t as [|a [|b [|c t]]]; simpl in Ht; try discriminate.
  - apply list_elem_of_singleton in Hin. char_facts. unfold ch in Hin. simpl in Hin. lia.
  - assert (Hab : a = ch "-" \/ b = ch "-").
    { apply elem_of_cons in Hin as [-> | Hin]; [now left |].
      apply list_elem_of_singleton in Hin. now right. }
    apply orb_true_iff in Ht as [Ht | Ht];
      apply andb_true_iff in Ht as [Hp Hq];
      char_facts; unfold ch in *; simpl N_of_ascii in *; lia.
Qed.

Lemma year_token_length (t : pystr) : year_token t = true -> length t = 4%nat.
Proof. destruct t as [|a [|b [|c [|d [|e t]]]]]; simpl; try discriminate. reflexivity. Qed.

(** A text is cut at its first separator in one way only. *)
Lemma split_unique (c : N) (t1 t2 r1 r2 : pystr) :
  c ∉ t1 -> c ∉ t2 -> t1 ++ c :: r1 = t2 ++ c :: r2 -> t1 = t2 /\ r1 = r2.
Proof.
  revert t2. induction t1 as [|a t1 IH]; intros [|b t2] H1 H2 Heq; simpl in Heq.
  - inversion Heq. auto.
  - inversion Heq; subst. exfalso. apply H2. now left.
  - inversion Heq; subst. exfalso. apply H1. now left.
  - inversion Heq; subst. apply not_elem_of_cons in H1 as [_ H1], H2 as [_ H2].
    destruct (IH t2 H1 H2) as [-> ->]; auto.
Qed.

(** The expression matches a string in at most one way. *)
Lemma format_regex_matches_unique (s : pystr) (x x' : pystr * pystr * pystr * pystr) :
  x ∈ format_regex_matches s -> x' ∈ format_regex_matches s -> x = x'.
Proof.
  destruct x as [[[d m] y] rest], x' as [[[d' m'] y'] rest'].
  intros H H'.
  apply format_regex_matches_spec in H as (-> & Hd & Hm & Hy).
  apply format_regex_matches_spec in H' as (Heq & Hd' & Hm' & Hy').
  apply split_unique in Heq as [-> Heq]; try now apply day_token_no_dash.
  apply split_unique in Heq as [-> Heq]; try now apply month_token_no_dash.
  apply app_inj_1 in Heq as [-> ->]; [reflexivity |].
  now rewrite (year_token_length _ Hy), (year_token_length _ Hy').
Qed.

Lemma format_regex_match_spec (s d m y rest : pystr) :
  format_regex_match s = Some (d, m, y, rest) <->
  s = d ++ ch "-" :: m ++ ch "-" :: y ++ rest
  /\ day_token d = true /\ month_token m = true /\ year_token y = true.
Proof.
  rewrite <- format_regex_matches_spec. unfold format_regex_match. split.
  - intros H. destruct (format_regex_matches s) as [|x l]; [discriminate |].
    simpl in H. inversion H. now left.
  - intros H. destruct (format_regex_matches s) as [|x l] eqn:E.
    + now apply elem_of_nil in H.
    + simpl. f_equal. apply (format_regex_matches_unique s); rewrite E; [now left | assumption].
Qed.

(** [strptime] returns a date exactly on the strings day-month-year of the
    grammar whose three numbers make a date. *)
Lemma strptime_spec (v : pystr) (dt : date) :
  strptime v = Ok dt <->
  exists d m y dv mv yv,
    v = d ++ ch "-" :: m ++ ch "-" :: y
    /\ day_token d = true /\ month_token m = true /\ year_token y = true
    /\ py_int d = Ok dv /\ py_int m = Ok mv /\ py_int y = Ok yv
    /\ real_date yv mv dv /\ dt = mkdate yv mv dv.
Proof.
  unfold strptime. split.
  - destruct (format_regex_match v) as [[[[d m] y] rest]|] eqn:E; [| discriminate].
    apply format_regex_match_spec in E as (-> & Hd & Hm & Hy).
    destruct rest; [| discriminate]. cbn [truthy]. unfold mbind, res_bind.
    destruct (py_int y) as [yv|] eqn:Ey; [| discriminate].
    destruct (py_int m) as [mv|] eqn:Em; [| discriminate].
    destruct (py_int d) as [dv|] eqn:Ed; [| discriminate].
    intros H. apply date_new_ok in H as (-> & H).
    exists d, m, y, dv, mv, yv. rewrite app_nil_r. unfold real_date. tauto.
  - intros (d & m & y & dv & mv & yv & -> & Hd & Hm & Hy & Ed & Em & Ey & Hreal & ->).
    assert (E : format_regex_match (d ++ ch "-" :: m ++ ch "-" :: y) = Some (d, m, y, [])).
    { apply format_regex_match_spec. rewrite app_nil_r. auto. }
    rewrite E. cbn [truthy]. unfold mbind, res_bind. rewrite Ey, Em, Ed.
    unfold date_new, MINYEAR, MAXYEAR. destruct Hreal as (H1 & H2 & H3).
    replace ((1 <=? yv) && (yv <=? 9999)) with true by lia.
    replace ((1 <=? mv) && (mv <=? 12)) with true by lia.
    replace ((1 <=? dv) && (dv <=? days_in_month yv mv)) with true by lia.
    reflexivity.
Qed.

Lemma Birthday_spec (v : pystr) :
  (exists b, Birthday v = Ok b) <-> (exists dt, strptime v = Ok dt).
Proof.
  unfold Birthday. destruct (strptime v) as [dt|[]]; split; intros [x H];
    try discriminate; eauto.
Qed.

Lemma Z_range_forallb (P : Z -> bool) (lo n : Z) :
  forallb P (Z_range lo n) = true ->
  forall z, lo <= z < lo + n -> P z = true.
Proof.
  intros H z Hz. rewrite forallb_forall in H. apply H. unfold Z_range.
  apply in_map_iff. exists (Z.to_nat (z - lo)). split; [lia |].
  apply in_seq. lia.
Qed.

Lemma int_is_eq (s : pystr) (z : Z) : int_is s z = true -> py_int s = Ok z.
Proof.
  unfold int_is. destruct (py_int s) as [v|e]; [| discriminate].
  intros H. apply Z.eqb_eq in H. now subst.
Qed.

Lemma DD_day (d : Z) :
  1 <= d <= 31 -> day_token (DD d) = true /\ py_int (DD d) = Ok d.
Proof.
  intros H.
  assert (Hall : forallb (fun z => day_token (DD z) && int_is (DD z) z) (Z_range 1 31) = true)
    by (vm_compute; reflexivity).
  assert (E := Z_range_forallb _ _ _ Hall d). cbv beta in E.
  specialize (E ltac:(lia)).
  apply andb_true_iff in E as [E1 E2]. split; [assumption | now apply int_is_eq].
Qed.

Lemma DD_month (m : Z) :
  1 <= m <= 12 -> month_token (DD m) = true /\ py_int (DD m) = Ok m.
Proof.
  intros H.
  assert (Hall : forallb (fun z => month_token (DD z) && int_is (DD z) z) (Z_range 1 12) = true)
    by (vm_compute; reflexivity).
  assert (E := Z_range_forallb _ _ _ Hall m). cbv beta in E.
  specialize (E ltac:(lia)).
  apply andb_true_iff in E as [E1 E2]. split; [assumption | now apply int_is_eq].
Qed.

Lemma YYYY_year (y : Z) :
  1 <= y <= 9999 -> year_token (YYYY y) = true /\ py_int (YYYY y) = Ok y.
Proof.
  intros H.
  assert (Hall : forallb (fun z => year_token (YYYY z) && int_is (YYYY z) z) (Z_range 1 9999) = true)
    by (vm_compute; reflexivity).
  assert (E := Z_range_forallb _ _ _ Hall y). cbv beta in E.
  specialize (E ltac:(lia)).
  apply andb_true_iff in E as [E1 E2]. split; [assumption | now apply int_is_eq].
Qed.

Lemma days_in_month_le_31 (y m : Z) : days_in_month y m <= 31.
Proof.
  unfold days_in_month. destruct ((m =? 2) && is_leap y); [lia |].
  unfold DAYS_IN_MONTH. destruct m as [|p|p]; try lia.
  do 4 (destruct p as [p|p|]; try lia).
Qed.

(** Every zero-padded DD-MM-YYYY of a real date is in the grammar. *)
Lemma DD_MM_YYYY_birthday_text (d m y : Z) :
  real_date y m d -> birthday_text (DD_MM_YYYY d m y).
Proof.
  intros Hreal. pose proof Hreal as (Hy & Hm & Hd).
  pose proof (days_in_month_le_31 y m).
  destruct (DD_day d) as [? ?]; [lia |].
  destruct (DD_month m Hm) as [? ?]. destruct (YYYY_year y Hy) as [? ?].
  exists (DD d), (DD m), (YYYY y), d, m, y. unfold DD_MM_YYYY. repeat split; tauto.
Qed.

(** C7, amended. [Birthday] accepts exactly the strings day-month-year of
    the grammar (a leading zero of the day and of the month is optional)
    whose numbers make a real date of the years 1 to 9999, and keeps the
    string; every zero-padded DD-MM-YYYY of a real date is accepted, and
    31-02-2000 is refused. *)
Theorem Birthday_accepts :
  (forall v, (exists b, Birthday v = Ok b) <-> birthday_text v)
  /\ (forall v b, Birthday v = Ok b -> value b = v)
  /\ (forall d m y, real_date y m d ->
        Birthday (DD_MM_YYYY d m y) = Ok (mkField (DD_MM_YYYY d m y)))
  /\ Birthday (py "31-02-2000")
     = Raise (ValueError "Invalid birthday format. Use 'DD-MM-YYYY'.").
Proof.
  assert (Hiff : forall v, (exists b, Birthday v = Ok b) <-> birthday_text v).
  { intros v. rewrite Birthday_spec. unfold birthday_text. split.
    - intros (dt & H). apply strptime_spec in H
        as (d & m & y & dv & mv & yv & H1 & H2 & H3 & H4 & H5 & H6 & H7 & H8 & _).
      exists d, m, y, dv, mv, yv. tauto.
    - intros (d & m & y & dv & mv & yv & H1 & H2 & H3 & H4 & H5 & H6 & H7 & H8).
      exists (mkdate yv mv dv). apply strptime_spec.
      exists d, m, y, dv, mv, yv. tauto. }
  assert (Hval : forall v b, Birthday v = Ok b -> value b = v).
  { intros v b. unfold Birthday. destruct (strptime v) as [dt|[]]; try discriminate.
    intros H. now inversion H. }
  split; [exact Hiff |]. split; [exact Hval |]. split; [| vm_compute; reflexivity].
  intros d m y Hreal.
  destruct (proj2 (Hiff (DD_MM_YYYY d m y)) (DD_MM_YYYY_birthday_text d m y Hreal)) as [[v] Hb].
  rewrite Hb. f_equal. f_equal. exact (Hval _ _ Hb).
Qed.

(** C7 as stated fails: 1-1-2000 has no zero padding, it is no DD-MM-YYYY
    string, and [Birthday] accepts it. *)
Lemma Birthday_accepts_unpadded :
  Birthday (py "1-1-2000") = Ok (mkField (py "1-1-2000"))
  /\ ~ (exists d m y, py "1-1-2000" = DD_MM_YYYY d m y).
Proof.
  split; [vm_compute; reflexivity |].
  intros (d & m & y & H). apply (f_equal (@length N)) in H. discriminate H.
Qed.

(** ** The phone format *)

Lemma match_digits_spec (n : nat) : forall s rest,
  match_digits n s = Some rest <->
  exists ds, s = ds ++ rest /\ length ds = n /\ forallb is_decimal ds = true.
Proof.
  induction n as [|n IH]; intros s rest; simpl.
  - split.
    + intros H. inversion H. exists []. auto.
    + intros ([|c ds] & -> & Hlen & _); [reflexivity | discriminate].
  - destruct s as [|c s].
    + split; [discriminate |]. intros ([|c ds] & H & Hlen & _); discriminate.
    + destruct (is_decimal c) eqn:E.
      * rewrite IH. split.
        -- intros (ds & -> & Hlen & Hall). exists (c :: ds). simpl. rewrite E. auto.
        -- intros ([|c' ds] & H & Hlen & Hall); [discriminate |].
           simpl in *. inversion H; subst. apply andb_true_iff in Hall as [_ Hall].
           exists ds. auto.
      * split; [discriminate |].
        intros ([|c' ds] & H & Hlen & Hall); [discriminate |].
        simpl in *. inversion H; subst. rewrite E in Hall. discriminate.
Qed.

(** What the pattern accepts: ten decimal characters of any script, with or
    without one newline after them. *)
Lemma re_match_phone_spec (v : pystr) :
  re_match_phone v = true <->
  exists ds, length ds = 10%nat /\ forallb is_decimal ds = true
             /\ (v = ds \/ v = ds ++ [ch "010"]).
Proof.
  unfold re_match_phone. split.
  - destruct (match_digits 10 v) as [rest|] eqn:E; [| discriminate].
    apply match_digits_spec in E as (ds & -> & Hlen & Hall).
    intros Hd. exists ds. split; [assumption |]. split; [assumption |].
    destruct rest as [|c [|c' rest]]; simpl in Hd; try discriminate.
    + left. now rewrite app_nil_r.
    + right. apply N.eqb_eq in Hd. now subst.
  - intros (ds & Hlen & Hall & [-> | ->]).
    + assert (E : match_digits 10 ds = Some []).
      { apply match_digits_spec. exists ds. rewrite app_nil_r. auto. }
      now rewrite E.
    + assert (E : match_digits 10 (ds ++ [ch "010"]) = Some [ch "010"]).
      { apply match_digits_spec. exists ds. auto. }
      rewrite E. reflexivity.
Qed.

Lemma ascii_digit_is_decimal (c : N) : in_range "0" "9" c = true -> is_decimal c = true.
Proof.
  intros H. char_facts. unfold is_decimal, decimal_blocks. cbn [existsb].
  apply orb_true_iff. left. unfold in_block. apply andb_true_iff.
  split; [apply N.leb_le | apply N.ltb_lt]; lia.
Qed.

(** Ten ASCII digits are accepted and kept as they are. *)
Lemma Phone_ten_digits (v : pystr) :
  length v = 10%nat -> forallb (in_range "0" "9") v = true -> Phone v = Ok (mkField v).
Proof.
  intros Hlen Hall. apply Phone_ok, re_match_phone_spec. exists v.
  split; [assumption |]. split; [| now left].
  rewrite forallb_forall in *. intros c Hc. apply ascii_digit_is_decimal. auto.
Qed.

(** C6, the code on the failing inputs: a ten-digit number followed by a
    newline, and ten Arabic-Indic digits, are accepted as phones. *)
Theorem Phone_accepts_newline_and_other_scripts :
  Phone (py "0501234567" ++ [ch "010"]) = Ok (mkField (py "0501234567" ++ [ch "010"]))
  /\ Phone (repeat 1633%N 10) = Ok (mkField (repeat 1633%N 10)).
Proof. split; vm_compute; reflexivity. Qed.

(** ** When the report returns *)

Lemma days_before_year_nonneg (y : Z) : 1 <= y -> 0 <= days_before_year y.
Proof. intros H. unfold days_before_year. Z.div_mod_to_equations. lia. Qed.

Lemma days_in_year_bound (y m d : Z) :
  1 <= m <= 12 -> 1 <= d <= days_in_month y m ->
  1 <= days_before_month y m + d <= (if is_leap y then 366 else 365).
Proof.
  intros Hm Hd. unfold days_before_month, days_in_month in *.
  apply month_cases in Hm.
  destruct (is_leap y);
    repeat (destruct Hm as [Hm | Hm]; [subst m |]); try subst m;
    simpl in *; lia.
Qed.

Lemma year_end_bound (y : Z) :
  1 <= y <= 9999 -> days_before_year y + (if is_leap y then 366 else 365) <= MAXORDINAL.
Proof.
  intros H.
  assert (Hall : forallb (fun z => days_before_year z + (if is_leap z then 366 else 365)
                                   <=? MAXORDINAL) (Z_range 1 9999) = true)
    by (vm_compute; reflexivity).
  assert (E := Z_range_forallb _ _ _ Hall y). cbv beta in E.
  specialize (E ltac:(lia)). lia.
Qed.

(** The ordinal of a real date is one [date] can hold. *)
Lemma toordinal_bounds (dt : date) :
  real_date (year dt) (month dt) (day dt) -> 1 <= toordinal dt <= MAXORDINAL.
Proof.
  intros (Hy & Hm & Hd). unfold toordinal, ymd2ord.
  pose proof (days_before_year_nonneg (year dt) ltac:(lia)).
  pose proof (days_in_year_bound _ _ _ Hm Hd).
  pose proof (year_end_bound _ Hy). lia.
Qed.

Lemma date_new_real (y m d : Z) : real_date y m d -> date_new y m d = Ok (mkdate y m d).
Proof.
  intros (Hy & Hm & Hd). unfold date_new, MINYEAR, MAXYEAR.
  replace ((1 <=? y) && (y <=? 9999)) with true by lia.
  replace ((1 <=? m) && (m <=? 12)) with true by lia.
  replace ((1 <=? d) && (d <=? days_in_month y m)) with true by lia.
  reflexivity.
Qed.

(** A day other than 29 February exists in every year. *)
Lemma real_date_other_year (y y' m d : Z) :
  real_date y m d -> ~ (m = 2 /\ d = 29) -> 1 <= y' <= 9999 -> real_date y' m d.
Proof.
  intros (Hy & Hm & Hd) Hnot Hy'. unfold real_date. split; [assumption |].
  split; [assumption |]. unfold days_in_month in *.
  destruct (Z.eqb_spec m 2) as [-> | Hne]; simpl in *; [| lia].
  destruct (is_leap y), (is_leap y'); simpl in *; lia.
Qed.

Lemma celebration_returns (today : date) (td : pystr) (delta : Z) :
  1 <= toordinal today + delta <= MAXORDINAL ->
  exists x, celebration today td delta = Ok x.
Proof.
  intros Hord. unfold celebration, add_days.
  replace ((0 <? toordinal today + delta) && (toordinal today + delta <=? MAXORDINAL))
    with true by lia.
  unfold mbind, res_bind.
  repeat match goal with
         | |- context [if ?c then _ else _] => destruct c
         end; eauto.
Qed.

Lemma filed_returns (today : date) (td : pystr) (r : Record_) :
  is_date today -> year today < 9999 -> plain_birthday r ->
  exists x, filed today td r = Ok x.
Proof.
  intros Htoday Hyear Hplain. unfold filed, plain_birthday in *.
  destruct (birthday r) as [b|]; [| eauto].
  destruct Hplain as (bd & Hbd & Hnot).
  pose proof (proj1 (strptime_spec _ _) Hbd)
    as (_ & _ & _ & dv & mv & yv & _ & _ & _ & _ & _ & _ & _ & Hreal & ->).
  simpl in Hnot.
  apply date_new_ok in Htoday as (_ & Hy & Hm & Hd).
  assert (Hthis : real_date (year today) mv dv)
    by (eapply real_date_other_year; eauto; lia).
  assert (Hnext : real_date (year today + 1) mv dv)
    by (eapply real_date_other_year; eauto; lia).
  unfold delta_days. rewrite Hbd, (strptime_truthy _ _ Hbd).
  unfold mbind, res_bind, replace_year. cbn [year month day].
  rewrite (date_new_real _ _ _ Hthis). cbn [year month day].
  match goal with
  | |- context [if ?c then if ?c' then _ else _ else _] => destruct c; [destruct c' |]
  end; rewrite ?(date_new_real _ _ _ Hnext);
    apply celebration_returns; unfold sub_days;
    match goal with
    | |- _ <= toordinal today + (toordinal ?d - toordinal today) <= _ =>
        pose proof (toordinal_bounds d) as Hord
    end; cbn [year month day] in Hord;
    first [specialize (Hord Hthis) | specialize (Hord Hnext)]; lia.
Qed.

(** The report returns when today is a date before the year 9999 and no
    birthday of the book is 29 February. *)
Lemma get_birthdays_per_week_returns (today : date) (w : World) :
  is_date today -> year today < 9999 ->
  Forall (fun kr => plain_birthday (snd kr)) (items w) ->
  exists m, get_birthdays_per_week today w = Ok m.
Proof.
  intros Htoday Hyear Hall. unfold get_birthdays_per_week.
  generalize (@nil (pystr * list pystr)). induction (items w) as [|[nm r] its IH]; intros acc.
  - simpl. eauto.
  - apply Forall_cons in Hall as [Hr Hall]. rewrite loop_unfold.
    destruct (filed_returns today (strftime_A today) r Htoday Hyear Hr) as [[k|] ->];
      apply IH; assumption.
Qed.

(** ** The names of a reachable book are distinct *)

Lemma keys_dict_set {V : Type} (k : pystr) (v : V) (d : dict V) :
  keys (dict_set k v d) = if dict_mem k d then keys d else keys d ++ [k].
Proof.
  unfold dict_mem, keys. induction d as [|[k' v'] d IH]; simpl; [reflexivity |].
  destruct (str_eqb k' k) eqn:E; simpl; [reflexivity |].
  rewrite IH. now destruct (dict_get k d).
Qed.

Lemma dict_get_None_keys {V : Type} (k : pystr) (d : dict V) :
  dict_get k d = None -> k ∉ keys d.
Proof.
  unfold keys. induction d as [|[k' v'] d IH]; simpl; intros H.
  - apply not_elem_of_nil.
  - destruct (str_eqb k' k) eqn:E; [discriminate |].
    apply str_eqb_neq in E. apply not_elem_of_cons. split; [congruence | auto].
Qed.

Lemma NoDup_dict_set {V : Type} (k : pystr) (v : V) (d : dict V) :
  NoDup (keys d) -> NoDup (keys (dict_set k v d)).
Proof.
  intros Hnd. rewrite keys_dict_set. unfold dict_mem.
  destruct (dict_get k d) eqn:E; [assumption |].
  apply NoDup_app. split; [assumption |]. split.
  - intros x Hx Hk. apply list_elem_of_singleton in Hk. subst x.
    now apply (dict_get_None_keys _ _ E).
  - apply NoDup_singleton.
Qed.

Lemma NoDup_dict_del {V : Type} (k : pystr) (d : dict V) :
  NoDup (keys d) -> NoDup (keys (dict_del k d)).
Proof.
  unfold keys, dict_del. induction d as [|[k' v'] d IH]; simpl; intros Hnd; [assumption |].
  apply NoDup_cons in Hnd as [Hnotin Hnd].
  destruct (negb (str_eqb k' k)); simpl; [| auto].
  apply NoDup_cons. split; [| auto].
  intros Hin. apply Hnotin. apply list_elem_of_In, in_map_iff in Hin as ([k0 v0] & <- & Hin).
  apply filter_In in Hin as [Hin _]. apply list_elem_of_In, in_map_iff. now exists (k0, v0).
Qed.

Lemma data_call {A : Type} (l : loc) (m : M Record_ A) (w : World) :
  data (snd (call l m w)) = data w.
Proof. unfold call. destruct (store w !! l); [destruct (m r) |]; reflexivity. Qed.

Lemma data_new_record (nm : pystr) (bday : option pystr) (w : World) :
  data (snd (new_record nm bday w)) = data w.
Proof. unfold new_record. run_m. destruct (Record_init nm bday); reflexivity. Qed.

Lemma NoDup_run_op (o : op) (w : World) :
  NoDup (keys (data w)) -> NoDup (keys (data (snd (run_op o w)))).
Proof.
  intros Hnd. destruct o; simpl.
  - unfold add_record. unfold mbind at 1, M_bind.
    pose proof (data_new_record nm bday w) as H1.
    destruct (new_record nm bday w) as [[l|e] w1]; simpl in *; [| now rewrite H1].
    unfold mbind, M_bind. pose proof (data_call l (add_phone phone) w1) as H2.
    destruct (call l (add_phone phone) w1) as [[[]|e] w2]; simpl in *.
    + apply NoDup_dict_set. now rewrite H2, H1.
    + now rewrite H2, H1.
  - unfold mbind, M_bind. pose proof (data_new_record nm bday w) as H1.
    destruct (new_record nm bday w) as [[l|e] w1]; simpl in *; now rewrite H1.
  - now rewrite data_call.
  - now rewrite data_call.
  - now rewrite data_call.
  - run_m. destruct (Birthday v) as [b|e]; simpl; [| assumption]. now rewrite data_call.
  - run_m. destruct (bool_decide _); simpl; [| assumption].
    unfold update_record. run_m. destruct (dict_mem nm (data w)); simpl; [| assumption].
    now apply NoDup_dict_set.
  - unfold delete. run_m. destruct (dict_mem nm (data w)); simpl; [| assumption].
    now apply NoDup_dict_del.
Qed.

Lemma NoDup_exec (ops : list op) : forall w,
  NoDup (keys (data w)) -> NoDup (keys (data (exec ops w))).
Proof.
  unfold exec. induction ops as [|o ops IH]; intros w Hnd; simpl; [assumption |].
  apply IH. now apply NoDup_run_op.
Qed.

(** Every book built from the empty one has distinct names. *)
Lemma reachable_keys_NoDup (ops : list op) : NoDup (keys (data (exec ops empty_world))).
Proof. apply NoDup_exec. apply NoDup_nil. exact I. Qed.

(** * Further properties of the code *)

(** ** The validators *)

(** X1. [Phone] returns exactly on ten decimal characters, of any script,
    with or without one newline after them, and keeps the string it was
    given. *)
Theorem Phone_accepts_exactly (v : pystr) :
  ((exists p, Phone v = Ok p) <->
   exists ds, ten_decimals ds /\ (v = ds \/ v = ds ++ [ch "010"]))
  /\ forall p, Phone v = Ok p -> Field_str p = v /\ Phone (Field_str p) = Ok p.
Proof.
  split.
  - split.
    + intros [p Hp]. apply Phone_inv in Hp as [_ Hv].
      apply re_match_phone_spec in Hv as (ds & H1 & H2 & H3).
      exists ds. unfold ten_decimals. auto.
    + intros (ds & [H1 H2] & H3). exists (mkField v).
      apply Phone_ok, re_match_phone_spec. exists ds. auto.
  - intros p Hp. pose proof Hp as Hp'. apply Phone_inv in Hp' as [-> Hv].
    split; [reflexivity | exact Hp].
Qed.

Lemma format_regex_match_DD_MM_YYYY (d m y : Z) :
  1 <= d <= 31 -> 1 <= m <= 12 -> 1 <= y <= 9999 ->
  format_regex_match (DD_MM_YYYY d m y) = Some (DD d, DD m, YYYY y, []).
Proof.
  intros Hd Hm Hy. apply format_regex_match_spec. rewrite app_nil_r.
  destruct (DD_day d Hd) as [? _], (DD_month m Hm) as [? _], (YYYY_year y Hy) as [? _].
  unfold DD_MM_YYYY. auto.
Qed.

(** X2. Reading the zero-padded text of a day, a month and a year gives
    what the date constructor gives for the three numbers: the date with
    these fields, or [ValueError] when there is no such day. *)
Theorem strptime_of_DD_MM_YYYY (d m y : Z) :
  1 <= d <= 31 -> 1 <= m <= 12 -> 1 <= y <= 9999 ->
  strptime (DD_MM_YYYY d m y) = date_new y m d.
Proof.
  intros Hd Hm Hy. unfold strptime.
  rewrite (format_regex_match_DD_MM_YYYY d m y Hd Hm Hy). cbn [truthy].
  destruct (DD_day d Hd) as [_ Ed], (DD_month m Hm) as [_ Em], (YYYY_year y Hy) as [_ Ey].
  unfold mbind, res_bind. now rewrite Ey, Em, Ed.
Qed.

(** 24-03-1990 reads as the date of 24 March 1990. *)
Lemma strptime_of_DD_MM_YYYY_witness :
  strptime (DD_MM_YYYY 24 3 1990) = date_new 1990 3 24
  /\ date_new 1990 3 24 = Ok (mkdate 1990 3 24).
Proof.
  split; [| reflexivity].
  apply (strptime_of_DD_MM_YYYY 24 3 1990); lia.
Defined.

(** X3. A birthday on 29 February is accepted exactly for the leap years. *)
Theorem Birthday_leap_day (y : Z) :
  1 <= y <= 9999 ->
  ((exists b, Birthday (DD_MM_YYYY 29 2 y) = Ok b) <-> is_leap y = true).
Proof.
  intros Hy. rewrite Birthday_spec. unfold strptime.
  rewrite (format_regex_match_DD_MM_YYYY 29 2 y ltac:(lia) ltac:(lia) Hy). cbn [truthy].
  destruct (DD_day 29 ltac:(lia)) as [_ Ed], (DD_month 2 ltac:(lia)) as [_ Em],
    (YYYY_year y Hy) as [_ Ey].
  unfold mbind, res_bind. rewrite Ey, Em, Ed. split.
  - intros [dt H]. apply date_new_ok in H as (_ & _ & _ & H).
    unfold days_in_month in H. destruct (is_leap y); [reflexivity | simpl in H; lia].
  - intros Hleap. exists (mkdate y 2 29). apply date_new_real.
    unfold real_date, days_in_month. rewrite Hleap. simpl. lia.
Qed.

(** 2000 is a leap year, and 29-02-2000 is accepted. *)
Lemma Birthday_leap_day_witness :
  (exists b, Birthday (DD_MM_YYYY 29 2 2000) = Ok b) <-> is_leap 2000 = true.
Proof. apply (Birthday_leap_day 2000). lia. Defined.

(** ** The methods of [Record] *)

Lemma set_phones_same (self : Record_) : set_phones (phones self) self = self.
Proof. now destruct self. Qed.

Lemma filter_all {A : Type} (f : A -> bool) (l : list A) :
  (forall x, In x l -> f x = true) -> List.filter f l = l.
Proof.
  induction l as [|a l IH]; simpl; intros H; [reflexivity |].
  rewrite (H a) by now left. f_equal. apply IH. intros x Hx. apply H. now right.
Qed.

Lemma find_other_after_filter (ph ph' : pystr) (ps : list Field) :
  ph' <> ph ->
  List.find (fun p => str_eqb (Field_str p) ph')
            (List.filter (fun p => negb (str_eqb (Field_str p) ph)) ps)
  = List.find (fun p => str_eqb (Field_str p) ph') ps.
Proof.
  intros Hne. induction ps as [|p ps IH]; simpl; [reflexivity |].
  destruct (str_eqb (Field_str p) ph) eqn:E; simpl.
  - apply str_eqb_eq in E.
    destruct (str_eqb (Field_str p) ph') eqn:E'; [| exact IH].
    apply str_eqb_eq in E'. congruence.
  - destruct (str_eqb (Field_str p) ph'); [reflexivity | exact IH].
Qed.

(** X4. [remove_phone] never raises; afterwards the number is not found,
    every other number is found as before, [name] and [birthday] are
    untouched, and a record that did not have the number is unchanged. *)
Theorem remove_phone_spec (phone : pystr) (self : Record_) :
  exists self',
    remove_phone phone self = (Ok tt, self')
    /\ find_phone phone self' = None
    /\ (forall phone', phone' <> phone -> find_phone phone' self' = find_phone phone' self)
    /\ name self' = name self /\ birthday self' = birthday self
    /\ (find_phone phone self = None -> self' = self).
Proof.
  eexists. split; [reflexivity |]. unfold find_phone, set_phones. cbn [phones name birthday].
  split; [apply find_removed |]. split; [intros; now apply find_other_after_filter |].
  split; [reflexivity |]. split; [reflexivity |].
  intros Hnone. rewrite filter_all; [apply set_phones_same |].
  intros p Hp. apply (find_none _ _ Hnone) in Hp. now rewrite Hp.
Qed.

(** X5. [edit_phone] with a new number that [Phone] refuses raises
    [ValueError] after the old number is gone: it is no longer found, and
    the other numbers are as before. *)
Theorem edit_phone_invalid_loses_old (self : Record_) (old_phone new_phone : pystr) :
  re_match_phone new_phone = false ->
  exists self',
    edit_phone old_phone new_phone self
    = (Raise (ValueError "Invalid phone number format"), self')
    /\ find_phone old_phone self' = None
    /\ forall phone', phone' <> old_phone ->
         find_phone phone' self' = find_phone phone' self.
Proof.
  intros Hbad. unfold edit_phone, remove_phone.
  unfold mbind at 1, M_bind, modify. cbn beta iota.
  assert (Hp : Phone new_phone = Raise (ValueError "Invalid phone number format")).
  { unfold Phone. now rewrite Hbad. }
  rewrite (add_phone_raise _ _ _ Hp). eexists. split; [reflexivity |].
  unfold find_phone, set_phones. cbn [phones].
  split; [apply find_removed | intros; now apply find_other_after_filter].
Qed.

(** Ann's only number is lost to a five-digit replacement. *)
Lemma edit_phone_invalid_loses_old_witness :
  exists self',
    edit_phone (py "0501234567") (py "12345") ann
    = (Raise (ValueError "Invalid phone number format"), self')
    /\ find_phone (py "0501234567") self' = None
    /\ forall phone', phone' <> py "0501234567" ->
         find_phone phone' self' = find_phone phone' ann.
Proof.
  apply (edit_phone_invalid_loses_old ann (py "0501234567") (py "12345")).
  vm_compute; reflexivity.
Defined.

(** X6. [find_phone] finds a number exactly when a phone of the list has
    it, and the phone it returns has the number asked for. *)
Theorem find_phone_spec (phone : pystr) (self : Record_) :
  ((exists p, find_phone phone self = Some p) <-> In phone (List.map Field_str (phones self)))
  /\ forall p, find_phone phone self = Some p -> Field_str p = phone /\ In p (phones self).
Proof.
  unfold find_phone.
  assert (Hsome : forall p,
    List.find (fun p => str_eqb (Field_str p) phone) (phones self) = Some p ->
    Field_str p = phone /\ In p (phones self)).
  { intros p Hp. apply find_some in Hp as [Hin Heq]. apply str_eqb_eq in Heq. auto. }
  split; [| exact Hsome]. split.
  - intros [p Hp]. apply Hsome in Hp as [<- Hin]. now apply in_map.
  - intros Hin. apply in_map_iff in Hin as (p & Hv & Hin).
    destruct (List.find _ (phones self)) as [q|] eqn:E; [eauto |].
    apply (find_none _ _ E) in Hin. apply str_eqb_neq in Hin. contradiction.
Qed.

(** X7. Adding a valid number that the record does not have and removing
    it again gives the record back; a number added twice is removed
    whole. *)
Theorem add_then_remove_phone (phone : pystr) (self : Record_) :
  re_match_phone phone = true ->
  find_phone phone self = None ->
  (add_phone phone;; remove_phone phone) self = (Ok tt, self)
  /\ (add_phone phone;; add_phone phone;; remove_phone phone) self = (Ok tt, self).
Proof.
  intros Hvalid Hnone.
  assert (Hkeep : List.filter (fun p => negb (str_eqb (Field_str p) phone)) (phones self)
                  = phones self).
  { apply filter_all. intros p Hp. unfold find_phone in Hnone.
    apply (find_none _ _ Hnone) in Hp. now rewrite Hp. }
  split.
  - unfold mbind, M_bind. rewrite (add_phone_ok _ _ Hvalid).
    unfold remove_phone, modify, set_phones. cbn [phones name birthday].
    rewrite List.filter_app, Hkeep. simpl. unfold Field_str. simpl.
    rewrite str_eqb_refl. simpl. rewrite app_nil_r. f_equal. now destruct self.
  - unfold mbind, M_bind. rewrite (add_phone_ok _ _ Hvalid).
    rewrite (add_phone_ok _ _ Hvalid).
    unfold remove_phone, modify, set_phones. cbn [phones name birthday].
    rewrite !List.filter_app, Hkeep. simpl. unfold Field_str. simpl.
    rewrite str_eqb_refl. simpl. rewrite !app_nil_r. f_equal. now destruct self.
Qed.

(** Ann gets a second number and loses it again. *)
Lemma add_then_remove_phone_witness :
  (add_phone (py "0671234567");; remove_phone (py "0671234567")) ann = (Ok tt, ann)
  /\ (add_phone (py "0671234567");; add_phone (py "0671234567");;
      remove_phone (py "0671234567")) ann = (Ok tt, ann).
Proof.
  apply (add_then_remove_phone (py "0671234567") ann); vm_compute; reflexivity.
Defined.

(** ** The methods of [AddressBook] *)

Lemma dict_get_del_eq {V : Type} (k : pystr) (d : dict V) :
  dict_get k (dict_del k d) = None.
Proof.
  unfold dict_del. induction d as [|[k' v'] d IH]; simpl; [reflexivity |].
  destruct (str_eqb k' k) eqn:E; simpl; [exact IH | now rewrite E].
Qed.

Lemma dict_get_del_ne {V : Type} (k k0 : pystr) (d : dict V) :
  k0 <> k -> dict_get k0 (dict_del k d) = dict_get k0 d.
Proof.
  intros Hne. unfold dict_del. induction d as [|[k' v'] d IH]; simpl; [reflexivity |].
  destruct (str_eqb k' k) eqn:E; simpl.
  - apply str_eqb_eq in E. subst k'.
    destruct (str_eqb k k0) eqn:E'; [| exact IH].
    apply str_eqb_eq in E'. congruence.
  - destruct (str_eqb k' k0); [reflexivity | exact IH].
Qed.

Lemma keys_dict_del {V : Type} (k : pystr) (d : dict V) :
  keys (dict_del k d) = List.filter (fun k' => negb (str_eqb k' k)) (keys d).
Proof.
  unfold keys, dict_del. induction d as [|[k' v'] d IH]; simpl; [reflexivity |].
  destruct (str_eqb k' k); simpl; now rewrite IH.
Qed.

Lemma dict_del_absent {V : Type} (k : pystr) (d : dict V) :
  dict_get k d = None -> dict_del k d = d.
Proof.
  unfold dict_del. induction d as [|[k' v'] d IH]; simpl; [reflexivity |].
  destruct (str_eqb k' k); [discriminate |]. simpl. intros H. now rewrite IH.
Qed.

(** X8. [add_record] with a valid phone and an acceptable birthday returns;
    the name then maps to a new record with this name, this one phone and
    the birthday; the other names map as before, the objects already in
    the store are untouched, and the name keeps its place in the order of
    the book or, when new, goes to the end. *)
Theorem add_record_then_find
    (w : World) (nm phone : pystr) (bday : option pystr) (r0 : Record_) :
  re_match_phone phone = true ->
  Record_init nm bday = Ok r0 ->
  exists w',
    add_record nm phone bday w = (Ok tt, w')
    /\ find_record nm w'
       = Some (length (store w), mkRecord (Name nm) [mkField phone] (birthday r0))
    /\ (forall nm', nm' <> nm -> find nm' w' = find nm' w)
    /\ (forall l r, store w !! l = Some r -> store w' !! l = Some r)
    /\ keys (data w')
       = (if dict_mem nm (data w) then keys (data w) else keys (data w) ++ [nm]).
Proof.
  intros Hvalid Hinit. unfold add_record, new_record. run_m. rewrite Hinit.
  unfold alloc, call. cbn [store data].
  rewrite lookup_app_r, Nat.sub_diag by lia. cbn [lookup list_lookup].
  rewrite (add_phone_ok _ _ Hvalid). unfold set_data. cbn [store data].
  eexists. split; [reflexivity |].
  destruct (Record_init_phones _ _ _ Hinit) as [Hname Hphones].
  unfold find_record, find. cbn [store data]. split; [| split; [| split]].
  - rewrite dict_get_set_eq.
    rewrite list_lookup_insert_eq by (rewrite length_app; simpl; lia).
    unfold set_phones. now rewrite Hname, Hphones.
  - intros nm' Hne. now apply dict_get_set_ne.
  - intros l r Hl. pose proof (lookup_lt_Some _ _ _ Hl).
    rewrite list_lookup_insert_ne by lia. now rewrite lookup_app_l.
  - apply keys_dict_set.
Qed.

(** Zoe is added to the example book, after its four names. *)
Lemma add_record_then_find_witness :
  exists w',
    add_record (py "Zoe") (py "0441234567") None example_book = (Ok tt, w')
    /\ find_record (py "Zoe") w'
       = Some (length (store example_book),
               mkRecord (Name (py "Zoe")) [mkField (py "0441234567")] None)
    /\ (forall nm', nm' <> py "Zoe" -> find nm' w' = find nm' example_book)
    /\ (forall l r, store example_book !! l = Some r -> store w' !! l = Some r)
    /\ keys (data w')
       = (if dict_mem (py "Zoe") (data example_book) then keys (data example_book)
          else keys (data example_book) ++ [py "Zoe"]).
Proof.
  apply (add_record_then_find example_book (py "Zoe") (py "0441234567") None
           (mkRecord (Name (py "Zoe")) [] None)).
  - vm_compute; reflexivity.
  - reflexivity.
Defined.

(** X9. [delete] never raises; afterwards the name is not found, the other
    names map as before and keep their order, no object of the store is
    touched, and deleting a name that is not in the book changes nothing. *)
Theorem delete_spec (w : World) (nm : pystr) :
  exists w',
    delete nm w = (Ok tt, w')
    /\ find nm w' = None
    /\ (forall nm', nm' <> nm -> find nm' w' = find nm' w)
    /\ keys (data w') = List.filter (fun k => negb (str_eqb k nm)) (keys (data w))
    /\ store w' = store w
    /\ (find nm w = None -> w' = w).
Proof.
  unfold delete, find. run_m. unfold dict_mem.
  destruct (dict_get nm (data w)) as [l|] eqn:Hget.
  - eexists. split; [reflexivity |]. unfold set_data. cbn [data store].
    split; [apply dict_get_del_eq |]. split; [intros; now apply dict_get_del_ne |].
    split; [apply keys_dict_del |]. split; [reflexivity | discriminate].
  - exists w. split; [reflexivity |]. split; [assumption |]. split; [reflexivity |].
    split; [| split; reflexivity].
    rewrite <- keys_dict_del. now rewrite dict_del_absent.
Qed.

(** *** What every reachable state keeps *)

Lemma Forall_store_call {A : Type} (P : Record_ -> Prop) (l : loc) (m : M Record_ A)
    (w : World) :
  (forall r, P r -> P (snd (m r))) ->
  Forall P (store w) -> Forall P (store (snd (call l m w))).
Proof.
  intros Hm Hok. unfold call. destruct (store w !! l) as [r|] eqn:Hl; [| assumption].
  pose proof (Hm r) as Hr. destruct (m r) as [a r']. simpl in *.
  apply Forall_insert; [assumption |].
  apply Hr. rewrite Forall_forall in Hok. apply Hok. eapply list_elem_of_lookup_2; eauto.
Qed.

Lemma Record_init_birthday_ok (nm : pystr) (bday : option pystr) (r : Record_) :
  Record_init nm bday = Ok r -> birthday_ok r.
Proof.
  unfold Record_init, mbind, res_bind, birthday_ok.
  destruct bday as [v|]; [destruct (truthy v); [destruct (Birthday v) as [b|] eqn:Hb |] |];
    intros H; inversion H; subst; simpl; try exact I.
  unfold Birthday in Hb. destruct (strptime v) as [dt|[]] eqn:Hs; try discriminate.
  inversion Hb; subst. simpl. eauto.
Qed.

Lemma birthday_ok_new_record (nm : pystr) (bday : option pystr) (w : World) :
  Forall birthday_ok (store w) -> Forall birthday_ok (store (snd (new_record nm bday w))).
Proof.
  intros Hok. unfold new_record. run_m.
  destruct (Record_init nm bday) as [r|e] eqn:Hinit; simpl; [| assumption].
  apply Forall_app. split; [assumption |].
  apply Forall_cons. split; [| apply Forall_nil; exact I].
  eapply Record_init_birthday_ok; eauto.
Qed.

Lemma birthday_add_phone (phone : pystr) (self : Record_) :
  birthday (snd (add_phone phone self)) = birthday self.
Proof. unfold add_phone. run_m. now destruct (Phone phone). Qed.

Lemma birthday_edit_phone (old_phone new_phone : pystr) (self : Record_) :
  birthday (snd (edit_phone old_phone new_phone self)) = birthday self.
Proof.
  unfold edit_phone, remove_phone. unfold mbind at 1, M_bind, modify. cbn beta iota.
  now rewrite birthday_add_phone.
Qed.

Lemma birthday_ok_run_op (o : op) (w : World) :
  Forall birthday_ok (store w) -> Forall birthday_ok (store (snd (run_op o w))).
Proof.
  intros Hok. destruct o; simpl.
  - unfold add_record. unfold mbind at 1, M_bind.
    pose proof (birthday_ok_new_record nm bday w Hok) as H1.
    destruct (new_record nm bday w) as [[l|e] w1]; simpl in *; [| assumption].
    unfold mbind, M_bind.
    assert (H2 : Forall birthday_ok (store (snd (call l (add_phone phone) w1)))).
    { apply Forall_store_call; [| assumption]. intros r Hr.
      unfold birthday_ok. now rewrite birthday_add_phone. }
    destruct (call l (add_phone phone) w1) as [[[]|e] w2]; simpl in *; assumption.
  - unfold mbind, M_bind. pose proof (birthday_ok_new_record nm bday w Hok) as H1.
    destruct (new_record nm bday w) as [[l|e] w1]; simpl in *; assumption.
  - apply Forall_store_call; [| assumption]. intros r Hr.
    unfold birthday_ok. now rewrite birthday_add_phone.
  - apply Forall_store_call; [| assumption]. intros r Hr. exact Hr.
  - apply Forall_store_call; [| assumption]. intros r Hr.
    unfold birthday_ok. now rewrite birthday_edit_phone.
  - run_m. destruct (Birthday v) as [b|e] eqn:Hb; simpl; [| assumption].
    apply Forall_store_call; [| assumption]. intros r _. simpl. unfold birthday_ok. simpl.
    unfold Birthday in Hb. destruct (strptime v) as [dt|[]] eqn:Hs; try discriminate.
    inversion Hb; subst. simpl. eauto.
  - run_m. destruct (bool_decide _); simpl; [| assumption].
    unfold update_record. run_m. destruct (dict_mem nm (data w)); simpl; assumption.
  - unfold delete. run_m. destruct (dict_mem nm (data w)); simpl; assumption.
Qed.

Lemma length_store_call {A : Type} (l : loc) (m : M Record_ A) (w : World) :
  length (store (snd (call l m w))) = length (store w).
Proof.
  unfold call. destruct (store w !! l); [destruct (m r); simpl; apply length_insert |].
  reflexivity.
Qed.

Lemma refs_ok_grow (d : dict loc) (n n' : nat) :
  (n <= n')%nat ->
  Forall (fun kl => (snd kl < n)%nat) d -> Forall (fun kl => (snd kl < n')%nat) d.
Proof.
  intros Hle H. eapply Forall_impl; [exact H |]. intros kl Hk. simpl in *. lia.
Qed.

Lemma refs_ok_dict_set (k : pystr) (l n : nat) (d : dict loc) :
  (l < n)%nat ->
  Forall (fun kl => (snd kl < n)%nat) d ->
  Forall (fun kl => (snd kl < n)%nat) (dict_set k l d).
Proof.
  intros Hl. induction d as [|[k' v'] d IH]; simpl; intros H.
  - apply Forall_cons. split; [assumption | apply Forall_nil; exact I].
  - apply Forall_cons in H as [H1 H2].
    destruct (str_eqb k' k); apply Forall_cons; split; auto.
Qed.

Lemma refs_ok_run_op (o : op) (w : World) : refs_ok w -> refs_ok (snd (run_op o w)).
Proof.
  unfold refs_ok. intros Hok. destruct o; simpl.
  - unfold add_record, new_record. run_m.
    destruct (Record_init nm bday) as [r|e]; simpl; [| assumption].
    unfold alloc, call. cbn [store data].
    rewrite lookup_app_r, Nat.sub_diag by lia. cbn [lookup list_lookup].
    destruct (add_phone phone r) as [[[]|e] r']; simpl.
    + rewrite length_insert, length_app. simpl.
      apply refs_ok_dict_set; [lia |]. eapply refs_ok_grow; [| eassumption]. lia.
    + rewrite length_insert, length_app. simpl.
      eapply refs_ok_grow; [| eassumption]. lia.
  - unfold new_record. run_m. destruct (Record_init nm bday) as [r|e]; simpl; [| assumption].
    rewrite length_app. eapply refs_ok_grow; [| eassumption]. lia.
  - now rewrite data_call, length_store_call.
  - now rewrite data_call, length_store_call.
  - now rewrite data_call, length_store_call.
  - run_m. destruct (Birthday v) as [b|e]; simpl; [| assumption].
    now rewrite data_call, length_store_call.
  - run_m. destruct (bool_decide_reflect (l < length (store w))%nat); simpl; [| assumption].
    unfold update_record. run_m. destruct (dict_mem nm (data w)); simpl; [| assumption].
    now apply refs_ok_dict_set.
  - unfold delete. run_m. destruct (dict_mem nm (data w)); simpl; [| assumption].
    unfold dict_del. apply Forall_forall. intros kl Hin.
    apply list_elem_of_In, filter_In in Hin as [Hin _].
    rewrite Forall_forall in Hok. now apply Hok, list_elem_of_In.
Qed.

Lemma refs_ok_exec (ops : list op) : forall w, refs_ok w -> refs_ok (exec ops w).
Proof.
  unfold exec. induction ops as [|o ops IH]; intros w Hok; simpl; [assumption |].
  apply IH. now apply refs_ok_run_op.
Qed.

Lemma birthday_ok_exec (ops : list op) : forall w,
  Forall birthday_ok (store w) -> Forall birthday_ok (store (exec ops w)).
Proof.
  unfold exec. induction ops as [|o ops IH]; intros w Hok; simpl; [assumption |].
  apply IH. now apply birthday_ok_run_op.
Qed.

(** X10. After any sequence of operations from the empty book the names
    of the book are distinct, every name refers to an object of the store,
    and every birthday stored is a string [strptime] reads, so that the
    report never fails to parse one. *)
Theorem reachable_book_is_well_formed (ops : list op) :
  NoDup (keys (data (exec ops empty_world)))
  /\ refs_ok (exec ops empty_world)
  /\ Forall (fun kr => birthday_ok (snd kr)) (items (exec ops empty_world)).
Proof.
  split; [apply NoDup_exec, NoDup_nil; exact I |].
  split; [apply refs_ok_exec, Forall_nil; exact I |].
  assert (Hok : Forall birthday_ok (store (exec ops empty_world)))
    by (apply birthday_ok_exec, Forall_nil; exact I).
  apply Forall_forall. intros [nm r] Hin. simpl.
  apply list_elem_of_In, In_items in Hin as (l & _ & Hl).
  rewrite Forall_forall in Hok. apply Hok. eapply list_elem_of_lookup_2; eauto.
Qed.

(** ** The weekly report, further *)

Lemma strftime_A_day_name (d : date) : In (strftime_A d) day_names.
Proof.
  unfold strftime_A, day_names.
  repeat match goal with
         | |- context [match ?x with _ => _ end] => destruct x
         end; simpl; auto 10.
Qed.

Lemma celebration_day_name (today : date) (td : pystr) (delta : Z) (k : pystr) :
  celebration today td delta = Ok (Some k) -> In k day_names.
Proof.
  unfold celebration.
  destruct ((delta <? 7) && (-2 <=? delta)); [| discriminate].
  destruct (add_days today delta) as [d|e]; [| discriminate].
  unfold mbind, res_bind. intros H.
  repeat match type of H with
         | (if ?c then _ else _) = _ => destruct c
         end; inversion H; subst;
    first [apply strftime_A_day_name | unfold day_names; simpl; auto 10].
Qed.

Lemma filed_day_name (today : date) (td : pystr) (r : Record_) (k : pystr) :
  filed today td r = Ok (Some k) -> In k day_names.
Proof.
  unfold filed. destruct (birthday r) as [b|]; [| discriminate].
  unfold mbind, res_bind. destruct (delta_days today td b) as [delta|e]; [| discriminate].
  apply celebration_day_name.
Qed.

Lemma bucket_append_keys (P : pystr -> Prop) (k nm : pystr) (d : dict (list pystr)) :
  P k ->
  Forall (fun kv => P (fst kv) /\ snd kv <> []) d ->
  Forall (fun kv => P (fst kv) /\ snd kv <> []) (bucket_append k nm d).
Proof.
  intros Hk. induction d as [|[k' names] d IH]; simpl; intros H.
  - apply Forall_cons. split; [split; [assumption | discriminate] | apply Forall_nil; exact I].
  - apply Forall_cons in H as [[H1 H2] H3].
    destruct (str_eqb k' k); apply Forall_cons; split; auto.
    split; [assumption |]. simpl. now destruct names.
Qed.

(** X11. Every key of the mapping is one of the seven day names, and
    every bucket has a name in it. *)
Theorem buckets_are_named_days (today : date) (w : World) (m : dict (list pystr)) :
  get_birthdays_per_week today w = Ok m ->
  Forall (fun kv => In (fst kv) day_names /\ snd kv <> []) m.
Proof.
  unfold get_birthdays_per_week.
  assert (H : forall its acc,
    Forall (fun kv => In (fst kv) day_names /\ snd kv <> []) acc ->
    birthdays_loop today (strftime_A today) its acc = Ok m ->
    Forall (fun kv => In (fst kv) day_names /\ snd kv <> []) m).
  { induction its as [|[nm r] its IH]; intros acc Hacc Hrun.
    - simpl in Hrun. now inversion Hrun; subst.
    - rewrite loop_unfold in Hrun.
      destruct (filed today (strftime_A today) r) as [[k|]|e] eqn:Hf; [| | discriminate].
      + apply (IH (bucket_append k nm acc)); [| exact Hrun].
        apply (bucket_append_keys (fun k => In k day_names)); [| exact Hacc].
        eapply filed_day_name; eauto.
      + apply (IH _ Hacc Hrun). }
  apply H. apply Forall_nil. exact I.
Qed.

(** The report of Wednesday 4 November 2026 on the example book. *)
Lemma buckets_are_named_days_witness :
  Forall (fun kv => In (fst kv) day_names /\ snd kv <> [])
         [(py "Monday", [py "Ann"; py "Eve"])].
Proof.
  apply (buckets_are_named_days (mkdate 2026 11 4) example_book).
  vm_compute; reflexivity.
Defined.

(** X12. On a Monday a record whose day count is -2, -1 or 0, a birthday
    of the weekend before or of the day itself, is filed under Monday. *)
Theorem Monday_collects_the_weekend
    (today : date) (w : World) (m : dict (list pystr))
    (nm : pystr) (r : Record_) (b : Field) (delta : Z) :
  get_birthdays_per_week today w = Ok m ->
  In (nm, r) (items w) ->
  birthday r = Some b ->
  strftime_A today = py "Monday" ->
  delta_days today (strftime_A today) b = Ok delta ->
  -2 <= delta <= 0 ->
  in_bucket (py "Monday") nm m.
Proof.
  intros Hrun Hin Hb Htd Hdelta Hrange. unfold get_birthdays_per_week in Hrun.
  destruct (loop_ok_each _ _ _ _ _ Hrun _ _ Hin) as [x Hx].
  apply (loop_spec _ _ _ _ _ Hrun). right. exists r. split; [assumption |].
  rewrite Hx. f_equal. unfold filed in Hx. rewrite Hb in Hx.
  unfold mbind, res_bind in Hx. rewrite Hdelta in Hx. unfold celebration in Hx.
  rewrite Htd in Hx.
  replace (delta <? 7) with true in Hx by lia.
  replace (-2 <=? delta) with true in Hx by lia.
  replace (5 <? delta) with false in Hx by lia.
  replace (delta <=? 0) with true in Hx by lia.
  cbn [andb] in Hx.
  destruct (add_days today delta) as [d|e]; [| discriminate].
  unfold mbind, res_bind in Hx.
  replace (str_in (py "Monday") [py "Monday"; py "Sunday"; py "Saturday"]) with true in Hx
    by (vm_compute; reflexivity).
  rewrite andb_false_r in Hx. rewrite str_eqb_refl in Hx. cbn [andb negb] in Hx.
  now inversion Hx.
Qed.

(** On Monday 9 November 2026 Ann's birthday, Saturday 7 November, is two
    days past and Eve's, Sunday 8 November, one: both are under Monday. *)
Lemma Monday_collects_the_weekend_witness :
  exists m, get_birthdays_per_week (mkdate 2026 11 9) example_book = Ok m
            /\ in_bucket (py "Monday") (py "Ann") m.
Proof.
  eexists. split; [vm_compute; reflexivity |].
  apply (Monday_collects_the_weekend (mkdate 2026 11 9) example_book _
           (py "Ann")
           (mkRecord (Name (py "Ann")) [mkField (py "0501234567")]
                     (Some (mkField (py "07-11-1990"))))
           (mkField (py "07-11-1990")) (-2)).
  - vm_compute; reflexivity.
  - vm_compute. left; reflexivity.
  - reflexivity.
  - vm_compute; reflexivity.
  - vm_compute; reflexivity.
  - lia.
Defined.

Lemma days_before_year_succ (y : Z) :
  days_before_year (y + 1) = days_before_year y + (if is_leap y then 366 else 365).
Proof.
  unfold days_before_year, is_leap. replace (y + 1 - 1) with y by lia.
  destruct (Z.eqb_spec (y mod 4) 0), (Z.eqb_spec (y mod 100) 0),
    (Z.eqb_spec (y mod 400) 0); simpl; Z.div_mod_to_equations; lia.
Qed.

(** A day of the next year comes after every day of this year. *)
Lemma next_year_later (y m d m' d' : Z) :
  real_date (y + 1) m d -> real_date y m' d' ->
  ymd2ord y m' d' < ymd2ord (y + 1) m d.
Proof.
  intros (_ & Hm & Hd) (_ & Hm' & Hd'). unfold ymd2ord.
  rewrite days_before_year_succ.
  pose proof (days_in_year_bound _ _ _ Hm Hd).
  pose proof (days_in_year_bound _ _ _ Hm' Hd'). lia.
Qed.

Lemma same_year_not_lt_ord (a b : date) :
  year a = year b ->
  real_date (year a) (month a) (day a) -> real_date (year b) (month b) (day b) ->
  date_lt a b = false -> toordinal b <= toordinal a.
Proof.
  intros Hy (_ & Hma & Hda) (_ & Hmb & Hdb) Hlt.
  destruct (date_lt b a) eqn:Hba.
  - apply same_year_lt_ord in Hba; lia.
  - unfold date_lt in Hlt, Hba. rewrite Hy in *.
    rewrite Z.ltb_irrefl, Z.eqb_refl in Hlt, Hba. simpl in Hlt, Hba.
    assert (month a = month b /\ day a = day b) as [Hm Hd].
    { destruct (Z.ltb_spec (month a) (month b)), (Z.ltb_spec (month b) (month a)),
        (Z.eqb_spec (month a) (month b)), (Z.eqb_spec (month b) (month a)),
        (Z.ltb_spec (day a) (day b)), (Z.ltb_spec (day b) (day a));
        simpl in *; try discriminate; lia. }
    unfold toordinal. rewrite Hy, Hm, Hd. lia.
Qed.

(** From Tuesday to Friday the day count is never -2 or -1: a birthday just
    past is counted to its day of next year. *)
Lemma delta_days_midweek (today : date) (td : pystr) (b : Field) (delta : Z) :
  is_date today ->
  str_in td [py "Monday"; py "Sunday"; py "Saturday"] = false ->
  delta_days today td b = Ok delta ->
  0 <= delta \/ delta <= -3.
Proof.
  intros Htoday Htd. unfold delta_days.
  destruct (strptime (value b)) as [bd|e] eqn:Hbd; [| discriminate].
  rewrite (strptime_truthy _ _ Hbd). unfold mbind, res_bind, replace_year.
  destruct (date_new (year today) (month bd) (day bd)) as [bty|e] eqn:Hbty; [| discriminate].
  apply date_new_ok in Hbty as (-> & Hreal).
  apply date_new_ok in Htoday as (_ & Hrt).
  rewrite Htd. cbn [negb year month day]. rewrite andb_true_r.
  destruct (date_lt _ today) eqn:Hlt.
  - destruct (-3 <? sub_days _ today) eqn:Hsub.
    + destruct (date_new (year today + 1) (month bd) (day bd)) as [bty'|e] eqn:Hbty';
        [| discriminate].
      apply date_new_ok in Hbty' as (-> & Hreal').
      intros H. inversion H; subst. left. unfold sub_days, toordinal. cbn [year month day].
      pose proof (next_year_later (year today) (month bd) (day bd) (month today) (day today)
                    Hreal' Hrt). lia.
    + intros H. inversion H; subst. right. lia.
  - intros H. inversion H; subst. left.
    apply same_year_not_lt_ord in Hlt; cbn [year month day]; auto.
    unfold sub_days. lia.
Qed.

(** X13. From Tuesday to Friday nothing is filed under Saturday or
    Sunday: a birthday of the coming weekend goes to Monday and one just
    past is not in the report. *)
Theorem midweek_report_has_no_weekend_bucket
    (today : date) (w : World) (m : dict (list pystr)) :
  is_date today ->
  ~ In (strftime_A today) [py "Monday"; py "Saturday"; py "Sunday"] ->
  get_birthdays_per_week today w = Ok m ->
  forall nm, ~ in_bucket (py "Saturday") nm m /\ ~ in_bucket (py "Sunday") nm m.
Proof.
  intros Htoday Htd Hrun. unfold get_birthdays_per_week in Hrun.
  assert (Hnot : str_in (strftime_A today) [py "Monday"; py "Sunday"; py "Saturday"] = false).
  { apply not_in_str_in. intros H. apply Htd. simpl in *. tauto. }
  assert (Hk : forall k nm, in_bucket k nm m ->
                 str_in k [py "Sunday"; py "Saturday"] = false).
  { intros k nm Hin. apply (loop_spec _ _ _ _ _ Hrun) in Hin.
    destruct Hin as [(names & [] & _) | (r & _ & Hf)].
    unfold filed in Hf. destruct (birthday r) as [b|]; [| discriminate].
    unfold mbind, res_bind in Hf.
    destruct (delta_days today (strftime_A today) b) as [delta|e] eqn:Hd; [| discriminate].
    pose proof (celebration_range _ _ _ _ Hf) as Hrange.
    destruct (delta_days_midweek _ _ _ _ Htoday Hnot Hd) as [Hge | Hle]; [| lia].
    unfold celebration in Hf. rewrite Hnot in Hf.
    replace (delta <? 7) with true in Hf by lia.
    replace (-2 <=? delta) with true in Hf by lia.
    replace (0 <=? delta) with true in Hf by lia.
    cbn [andb negb] in Hf.
    destruct (add_days today delta) as [d|e]; [| discriminate].
    unfold mbind, res_bind in Hf.
    destruct (str_in (strftime_A d) [py "Sunday"; py "Saturday"]) eqn:Hwd;
      inversion Hf; subst; [vm_compute; reflexivity | exact Hwd]. }
  intros nm. split; intros Hin; apply Hk in Hin; vm_compute in Hin; discriminate.
Qed.

(** Wednesday 4 November 2026: Ann's Saturday and Eve's Sunday are under
    Monday. *)
Lemma midweek_report_has_no_weekend_bucket_witness :
  exists m, get_birthdays_per_week (mkdate 2026 11 4) example_book = Ok m
            /\ forall nm, ~ in_bucket (py "Saturday") nm m /\ ~ in_bucket (py "Sunday") nm m.
Proof.
  eexists. split; [vm_compute; reflexivity |].
  apply (midweek_report_has_no_weekend_bucket (mkdate 2026 11 4) example_book).
  - reflexivity.
  - vm_compute. intros [H | [H | [H | []]]]; discriminate H.
  - vm_compute; reflexivity.
Defined.

Lemma occurrences_append (nm k nm' : pystr) (d : dict (list pystr)) :
  occurrences nm (bucket_append k nm' d)
  = (occurrences nm d + (if str_eqb nm nm' then 1 else 0))%nat.
Proof.
  induction d as [|[k' names] d IH]; simpl.
  - destruct (str_eqb nm nm'); reflexivity.
  - destruct (str_eqb k' k); simpl.
    + rewrite List.filter_app, length_app. simpl.
      destruct (str_eqb nm nm'); simpl; lia.
    + rewrite IH. lia.
Qed.

(** The loop adds a name only for a record of that name. *)
Lemma loop_occurrences_other (today : date) (td nm : pystr) (its : list (pystr * Record_)) :
  forall acc m,
    ~ In nm (List.map fst its) ->
    birthdays_loop today td its acc = Ok m ->
    occurrences nm m = occurrences nm acc.
Proof.
  induction its as [|[nm0 r0] its IH]; intros acc m Hnotin Hrun.
  - simpl in Hrun. now inversion Hrun.
  - rewrite loop_unfold in Hrun. simpl in Hnotin.
    assert (Hne : str_eqb nm nm0 = false) by (apply str_eqb_neq; intros ->; tauto).
    destruct (filed today td r0) as [[k|]|e]; [| | discriminate].
    + rewrite (IH _ _ ltac:(tauto) Hrun), occurrences_append, Hne. lia.
    + apply (IH _ _ ltac:(tauto) Hrun).
Qed.

Lemma loop_occurrences (today : date) (td nm : pystr) (its : list (pystr * Record_)) :
  forall acc m,
    NoDup (List.map fst its) ->
    birthdays_loop today td its acc = Ok m ->
    (occurrences nm m <= occurrences nm acc + 1)%nat.
Proof.
  induction its as [|[nm0 r0] its IH]; intros acc m Hnd Hrun.
  - simpl in Hrun. inversion Hrun. lia.
  - rewrite loop_unfold in Hrun. simpl in Hnd. apply NoDup_cons in Hnd as [Hnotin Hnd].
    rewrite list_elem_of_In in Hnotin.
    destruct (filed today td r0) as [[k|]|e]; [| | discriminate].
    + destruct (str_eqb nm nm0) eqn:E.
      * apply str_eqb_eq in E. subst nm0.
        rewrite (loop_occurrences_other _ _ _ _ _ _ Hnotin Hrun), occurrences_append.
        rewrite str_eqb_refl. lia.
      * pose proof (IH _ _ Hnd Hrun) as H. rewrite occurrences_append, E in H. lia.
    + apply (IH _ _ Hnd Hrun).
Qed.

Lemma items_keys_NoDup (w : World) :
  NoDup (keys (data w)) -> NoDup (List.map fst (items w)).
Proof.
  unfold items, keys. induction (data w) as [|[k l] d IH]; simpl; intros Hnd.
  - apply NoDup_nil. exact I.
  - apply NoDup_cons in Hnd as [Hnotin Hnd]. specialize (IH Hnd).
    destruct (store w !! l) as [r|]; simpl; [| exact IH].
    apply NoDup_cons. split; [| exact IH].
    intros Hin. apply Hnotin.
    apply list_elem_of_In, in_map_iff in Hin as ([k' r'] & Hk & Hin). simpl in Hk. subst k'.
    apply list_elem_of_In, list_elem_of_omap in Hin as ([k0 l0] & Hin0 & Hf).
    simpl in Hf. destruct (store w !! l0); [| discriminate]. inversion Hf; subst.
    apply list_elem_of_In, in_map_iff. exists (k, l0). split; [reflexivity |].
    now apply list_elem_of_In.
Qed.

(** X14. No name is in the report twice: over all the buckets a name
    occurs at most once. *)
Theorem report_names_once (today : date) (w : World) (m : dict (list pystr)) :
  NoDup (keys (data w)) ->
  get_birthdays_per_week today w = Ok m ->
  forall nm, (occurrences nm m <= 1)%nat.
Proof.
  intros Hnd Hrun nm. unfold get_birthdays_per_week in Hrun.
  apply (loop_occurrences today (strftime_A today) nm (items w) [] m
           (items_keys_NoDup w Hnd) Hrun).
Qed.

(** The report of Wednesday 4 November 2026 names Ann once. *)
Lemma report_names_once_witness :
  (occurrences (py "Ann") [(py "Monday", [py "Ann"; py "Eve"])] <= 1)%nat.
Proof.
  refine (report_names_once (mkdate 2026 11 4) example_book _ _ _ (py "Ann")).
  - apply (bool_decide_unpack _). vm_compute. exact I.
  - vm_compute; reflexivity.
Defined.

(** X15. On a book reached from the empty one the report returns its
    mapping whenever today is a date before the year 9999 and no birthday
    of the book is 29 February. *)
Theorem report_returns_on_reachable_books (ops : list op) (today : date) :
  is_date today ->
  year today < 9999 ->
  (forall nm r b bd,
     In (nm, r) (items (exec ops empty_world)) -> birthday r = Some b ->
     strptime (value b) = Ok bd -> ~ (month bd = 2 /\ day bd = 29)) ->
  exists m, get_birthdays_per_week today (exec ops empty_world) = Ok m.
Proof.
  intros Htoday Hyear Hplain. apply get_birthdays_per_week_returns; try assumption.
  assert (Hok : Forall birthday_ok (store (exec ops empty_world)))
    by (apply birthday_ok_exec, Forall_nil; exact I).
  apply Forall_forall. intros [nm r] Hin. simpl. apply list_elem_of_In in Hin.
  pose proof Hin as Hin'. apply In_items in Hin' as (l & _ & Hl).
  rewrite Forall_forall in Hok.
  assert (Hr : birthday_ok r) by (apply Hok; eapply list_elem_of_lookup_2; eauto).
  unfold plain_birthday, birthday_ok in *.
  destruct (birthday r) as [b|] eqn:Hb; [| exact I].
  destruct Hr as [bd Hbd]. exists bd. split; [assumption |]. eapply Hplain; eauto.
Qed.

(** The example book, built by four calls of [add_record], on 4 November
    2026. *)
Lemma report_returns_on_reachable_books_witness :
  exists m,
    get_birthdays_per_week (mkdate 2026 11 4)
      (exec [OpAddRecord (py "Ann") (py "0501234567") (Some (py "07-11-1990"));
             OpAddRecord (py "Bob") (py "0671234567") (Some (py "02-01-1985"));
             OpAddRecord (py "Dan") (py "0931234567") (Some (py "14-11-2001"));
             OpAddRecord (py "Eve") (py "0991234567") (Some (py "08-11-1979"))]
            empty_world) = Ok m.
Proof.
  apply (report_returns_on_reachable_books _ (mkdate 2026 11 4)).
  - reflexivity.
  - reflexivity.
  - intros nm r b bd Hin Hb Hbd [Hm Hd].
    vm_compute in Hin.
    destruct Hin as [H | [H | [H | [H | []]]]]; inversion H; subst;
      simpl in Hb; inversion Hb; subst; vm_compute in Hbd; inversion Hbd; subst;
      discriminate Hm.
Defined.

(** ** The command handlers *)

Lemma call_eq {A : Type} (l : loc) (m : M Record_ A) (w : World) (r : Record_) :
  store w !! l = Some r ->
  call l m w = (fst (m r), mkWorld (<[l := snd (m r)]> (store w)) (data w)).
Proof. intros Hl. unfold call. rewrite Hl. now destruct (m r). Qed.

Lemma find_record_Some (nm : pystr) (w : World) (l : loc) (r : Record_) :
  find_record nm w = Some (l, r) <-> find nm w = Some l /\ store w !! l = Some r.
Proof.
  unfold find_record. destruct (find nm w) as [l'|]; [| split; [discriminate | intros []; discriminate]].
  destruct (store w !! l') as [r'|] eqn:E; split.
  - intros H. inversion H; subst. auto.
  - intros [H1 H2]. inversion H1; subst. congruence.
  - discriminate.
  - intros [H1 H2]. inversion H1; subst. congruence.
Qed.

(** The record of a name after its object is replaced in the store. *)
Lemma find_record_after_insert (nm : pystr) (w : World) (l : loc) (r r' : Record_) :
  find_record nm w = Some (l, r) ->
  find_record nm (mkWorld (<[l := r']> (store w)) (data w)) = Some (l, r').
Proof.
  intros H. apply find_record_Some in H as [Hf Hl]. apply find_record_Some.
  split; [exact Hf |]. cbn [store].
  apply list_lookup_insert_eq. eapply lookup_lt_Some; eauto.
Qed.

Lemma Record_init_None (nm : pystr) : Record_init nm None = Ok (mkRecord (Name nm) [] None).
Proof. reflexivity. Qed.

(** X16. [add_contact] answers every call with a string: with other than
    two arguments the usage line, and the book is as it was; with a phone
    that [Phone] refuses the text of the [ValueError], and the dictionary
    of the book and its objects are as they were; otherwise the success
    line, and the name then has a record with this one phone and no
    birthday. *)
Theorem add_contact_spec (args : list pystr) (w : World) :
  match args with
  | [nm; phone] =>
      if re_match_phone phone
      then exists w',
             add_contact args w
             = (Ok (Some (py "Contact " ++ nm ++ py " with phone " ++ phone
                          ++ py " added successfully.")), w')
             /\ find_record nm w'
                = Some (length (store w), mkRecord (Name nm) [mkField phone] None)
      else exists w',
             add_contact args w = (Ok (Some (py "Invalid phone number format")), w')
             /\ data w' = data w
             /\ forall l r, store w !! l = Some r -> store w' !! l = Some r
  | _ =>
      add_contact args w
      = (Ok (Some (py "Invalid command. Please provide a name and a phone number.")), w)
  end.
Proof.
  destruct args as [|nm [|phone [|x rest]]]; try reflexivity.
  unfold add_contact, input_error, add_contact_body, core, returns.
  unfold add_record, new_record. run_m. rewrite Record_init_None.
  unfold alloc, call. cbn [store data].
  rewrite lookup_app_r, Nat.sub_diag by lia. cbn [lookup list_lookup].
  destruct (re_match_phone phone) eqn:Hvalid.
  - rewrite (add_phone_ok _ _ Hvalid). unfold set_data. cbn [store data].
    eexists. split; [reflexivity |]. apply find_record_Some. unfold find. cbn [store data].
    split; [apply dict_get_set_eq |].
    apply list_lookup_insert_eq. rewrite length_app. simpl. lia.
  - assert (Hp : Phone phone = Raise (ValueError "Invalid phone number format")).
    { unfold Phone. now rewrite Hvalid. }
    rewrite (add_phone_raise _ _ _ Hp). eexists. split; [reflexivity |].
    cbn [store data]. split; [reflexivity |].
    intros l r Hl. pose proof (lookup_lt_Some _ _ _ Hl).
    rewrite list_lookup_insert_ne by lia. now rewrite lookup_app_l.
Qed.

(** X17. [change_contact] on a contact with at least one number removes
    every phone equal to the first one and then adds the new number: a
    valid number ends up last in the list; a number that [Phone] refuses
    is answered with the text of the [ValueError] and the first number is
    gone all the same. *)
Theorem change_contact_replaces_first
    (w : World) (nm new_phone : pystr) (l : loc) (r : Record_) (p0 : Field)
    (ps : list Field) :
  find_record nm w = Some (l, r) ->
  phones r = p0 :: ps ->
  exists msg r',
    change_contact [nm; new_phone] w
    = (Ok (Some msg), mkWorld (<[l := r']> (store w)) (data w))
    /\ find_record nm (mkWorld (<[l := r']> (store w)) (data w)) = Some (l, r')
    /\ if re_match_phone new_phone
       then msg = py "Contact updated."
            /\ r' = set_phones
                      (List.filter (fun p => negb (str_eqb (Field_str p) (value p0))) ps
                       ++ [mkField new_phone]) r
       else msg = py "Invalid phone number format"
            /\ r' = set_phones
                      (List.filter (fun p => negb (str_eqb (Field_str p) (value p0))) ps) r.
Proof.
  intros Hfind Hphones.
  pose proof Hfind as Hfind'. apply find_record_Some in Hfind' as [Hf Hl].
  pose proof (lookup_lt_Some _ _ _ Hl) as Hlt.
  unfold change_contact, input_error, change_contact_body. rewrite Hfind, Hphones.
  unfold core, returns. rewrite (call_eq _ _ _ _ Hl).
  unfold remove_phone at 1 2, modify. cbn [fst snd]. rewrite Hphones.
  cbn [List.filter]. unfold Field_str at 1 3. rewrite str_eqb_refl. cbn [negb].
  erewrite call_eq by (cbn [store]; now apply list_lookup_insert_eq).
  cbn [store data]. rewrite list_insert_insert_eq.
  destruct (re_match_phone new_phone) eqn:Hvalid.
  - rewrite (add_phone_ok _ _ Hvalid). cbn [fst snd].
    eexists _, _. split; [reflexivity |].
    split; [now apply (find_record_after_insert _ _ _ r) |].
    split; [reflexivity | now destruct r].
  - assert (Hp : Phone new_phone = Raise (ValueError "Invalid phone number format")).
    { unfold Phone. now rewrite Hvalid. }
    rewrite (add_phone_raise _ _ _ Hp). cbn [fst snd].
    eexists _, _. split; [reflexivity |].
    split; [now apply (find_record_after_insert _ _ _ r) |].
    split; [reflexivity | now destruct r].
Qed.

(** Ann's number in the example book is replaced by a five-digit string:
    the answer is the error text and Ann has no number left. *)
Lemma change_contact_replaces_first_witness :
  exists msg r',
    change_contact [py "Ann"; py "12345"] example_book
    = (Ok (Some msg), mkWorld (<[0%nat := r']> (store example_book)) (data example_book))
    /\ find_record (py "Ann") (mkWorld (<[0%nat := r']> (store example_book))
                                       (data example_book)) = Some (0%nat, r')
    /\ if re_match_phone (py "12345")
       then msg = py "Contact updated."
            /\ r' = set_phones
                      (List.filter
                         (fun p => negb (str_eqb (Field_str p)
                                           (value (mkField (py "0501234567"))))) []
                       ++ [mkField (py "12345")])
                      (mkRecord (Name (py "Ann")) [mkField (py "0501234567")]
                                (Some (mkField (py "07-11-1990"))))
       else msg = py "Invalid phone number format"
            /\ r' = set_phones
                      (List.filter
                         (fun p => negb (str_eqb (Field_str p)
                                           (value (mkField (py "0501234567"))))) [])
                      (mkRecord (Name (py "Ann")) [mkField (py "0501234567")]
                                (Some (mkField (py "07-11-1990")))).
Proof.
  apply (change_contact_replaces_first example_book (py "Ann") (py "12345") 0%nat
           (mkRecord (Name (py "Ann")) [mkField (py "0501234567")]
                     (Some (mkField (py "07-11-1990"))))
           (mkField (py "0501234567")) []).
  - vm_compute; reflexivity.
  - reflexivity.
Defined.

(** X18. [change_contact] on a contact without a number gives the line of
    the [IndexError] and changes nothing, whatever the new number: a
    contact that lost its only number to a refused change gets none back
    through [change_contact]. *)
Theorem change_contact_without_phone
    (w : World) (nm new_phone : pystr) (l : loc) (r : Record_) :
  find_record nm w = Some (l, r) ->
  phones r = [] ->
  change_contact [nm; new_phone] w
  = (Ok (Some (py "Invalid command. Please provide the required arguments.")), w).
Proof.
  intros Hfind Hphones.
  unfold change_contact, input_error, change_contact_body.
  rewrite Hfind, Hphones. reflexivity.
Qed.

(** After the refused change Ann has no number, and a valid one is
    refused as well. *)
Lemma change_contact_without_phone_witness :
  let w := snd (change_contact [py "Ann"; py "12345"] example_book) in
  change_contact [py "Ann"; py "0671234567"] w
  = (Ok (Some (py "Invalid command. Please provide the required arguments.")), w).
Proof.
  apply (change_contact_without_phone
           (snd (change_contact [py "Ann"; py "12345"] example_book))
           (py "Ann") (py "0671234567") 0%nat
           (mkRecord (Name (py "Ann")) [] (Some (mkField (py "07-11-1990"))))).
  - vm_compute; reflexivity.
  - reflexivity.
Defined.

(** X19. [add_birthday] for a contact of the book: a string [Birthday]
    accepts becomes the birthday, the phones stay, and [show_birthday]
    then shows that string; a string it refuses is answered with the text
    of the [ValueError] and nothing changes. *)
Theorem add_birthday_then_show
    (w : World) (nm bday : pystr) (l : loc) (r : Record_) :
  find_record nm w = Some (l, r) ->
  match Birthday bday with
  | Ok b =>
      let w' := mkWorld (<[l := set_birthday (Some b) r]> (store w)) (data w) in
      add_birthday_handler [nm; bday] w
      = (Ok (Some (py "Birthday added for " ++ nm ++ py ".")), w')
      /\ show_birthday [nm] w' = (Ok (Some (nm ++ py "'s birthday: " ++ bday)), w')
  | Raise _ =>
      add_birthday_handler [nm; bday] w
      = (Ok (Some (py "Invalid birthday format. Use 'DD-MM-YYYY'.")), w)
  end.
Proof.
  intros Hfind. pose proof Hfind as Hfind'. apply find_record_Some in Hfind' as [Hf Hl].
  unfold add_birthday_handler, input_error, add_birthday_handler_body. rewrite Hfind.
  unfold core, returns, lift.
  destruct (Birthday bday) as [b|e] eqn:Hb.
  - rewrite (call_eq _ _ _ _ Hl). simpl. split; [reflexivity |].
    unfold show_birthday, input_error, show_birthday_body.
    rewrite (find_record_after_insert _ _ _ _ (set_birthday (Some b) r) Hfind).
    simpl. unfold returns. do 3 f_equal. unfold Field_str.
    unfold Birthday in Hb. destruct (strptime bday) as [dt|[]]; try discriminate.
    now inversion Hb.
  - now rewrite (Birthday_raises _ _ Hb).
Qed.

(** Ann of the example book gets the birthday 1-2-1991. *)
Lemma add_birthday_then_show_witness :
  exists w',
    add_birthday_handler [py "Ann"; py "1-2-1991"] example_book
    = (Ok (Some (py "Birthday added for Ann.")), w')
    /\ show_birthday [py "Ann"] w' = (Ok (Some (py "Ann's birthday: 1-2-1991")), w').
Proof.
  eexists.
  exact (add_birthday_then_show example_book (py "Ann") (py "1-2-1991") 0%nat
           (mkRecord (Name (py "Ann")) [mkField (py "0501234567")]
                     (Some (mkField (py "07-11-1990"))))
           eq_refl).
Defined.

(** X20. After [add_contact] with a valid phone, [show_phone] for the
    name gives the name, a colon and that phone alone, also when the name
    had a record with other phones before. *)
Theorem add_contact_then_show_phone (w : World) (nm phone : pystr) :
  re_match_phone phone = true ->
  exists msg w',
    add_contact [nm; phone] w = (Ok (Some msg), w')
    /\ show_phone [nm] w' = (Ok (Some (nm ++ py ": " ++ phone)), w').
Proof.
  intros Hvalid.
  unfold add_contact, input_error, add_contact_body, core, returns.
  unfold add_record, new_record. run_m. rewrite Record_init_None.
  unfold alloc, call. cbn [store data].
  rewrite lookup_app_r, Nat.sub_diag by lia. cbn [lookup list_lookup].
  rewrite (add_phone_ok _ _ Hvalid). unfold set_data. cbn [store data].
  eexists _, _. split; [reflexivity |].
  unfold show_phone, input_error, show_phone_body.
  match goal with
  | |- context [find_record nm ?w'] =>
      assert (Hfind : find_record nm w'
                      = Some (length (store w), mkRecord (Name nm) [mkField phone] None))
  end.
  { apply find_record_Some. unfold find. cbn [store data].
    split; [apply dict_get_set_eq |].
    apply list_lookup_insert_eq. rewrite length_app. simpl. lia. }
  rewrite Hfind. reflexivity.
Qed.

(** Zoe is added to the example book and shown. *)
Lemma add_contact_then_show_phone_witness :
  exists msg w',
    add_contact [py "Zoe"; py "0441234567"] example_book = (Ok (Some msg), w')
    /\ show_phone [py "Zoe"] w' = (Ok (Some (py "Zoe" ++ py ": " ++ py "0441234567")), w').
Proof.
  apply (add_contact_then_show_phone example_book (py "Zoe") (py "0441234567")).
  vm_compute; reflexivity.
Defined.

Lemma loop_raise_source (today : date) (td : pystr) (its : list (pystr * Record_)) :
  forall acc e,
    birthdays_loop today td its acc = Raise e ->
    exists nm r, In (nm, r) its /\ filed today td r = Raise e.
Proof.
  induction its as [|[nm0 r0] its IH]; intros acc e Hrun; [discriminate |].
  rewrite loop_unfold in Hrun.
  destruct (filed today td r0) as [[k|]|e0] eqn:Hf.
  - destruct (IH _ _ Hrun) as (nm & r & Hin & Hr). exists nm, r. split; [now right | assumption].
  - destruct (IH _ _ Hrun) as (nm & r & Hin & Hr). exists nm, r. split; [now right | assumption].
  - inversion Hrun; subst. exists nm0, r0. split; [now left | assumption].
Qed.

Lemma date_new_raise_day (y m d : Z) (e : exn) :
  1 <= y <= 9999 -> 1 <= m <= 12 ->
  date_new y m d = Raise e -> e = ValueError "day is out of range for month".
Proof.
  intros Hy Hm. unfold date_new, MINYEAR, MAXYEAR.
  replace ((1 <=? y) && (y <=? 9999)) with true by lia.
  replace ((1 <=? m) && (m <=? 12)) with true by lia. cbn [negb].
  destruct (negb _); intros H; now inversion H.
Qed.

(** Before the year 9999 the only exception of the loop body on a stored
    birthday is the one of a day that the year does not have. *)
Lemma filed_raise_message (today : date) (td : pystr) (r : Record_) (e : exn) :
  is_date today -> year today < 9999 -> birthday_ok r ->
  filed today td r = Raise e -> e = ValueError "day is out of range for month".
Proof.
  intros Htoday Hyear Hok. unfold filed, birthday_ok in *.
  destruct (birthday r) as [b|]; [| discriminate].
  destruct Hok as [bd Hbd].
  pose proof (proj1 (strptime_spec _ _) Hbd)
    as (_ & _ & _ & dv & mv & yv & _ & _ & _ & _ & _ & _ & _ & (Hy & Hm & Hd) & ->).
  apply date_new_ok in Htoday as (_ & Hyt & Hrt).
  unfold delta_days. rewrite Hbd, (strptime_truthy _ _ Hbd).
  unfold mbind, res_bind, replace_year. cbn [year month day].
  destruct (date_new (year today) mv dv) as [bty|e1] eqn:Hbty;
    [| intros H; inversion H; subst;
       apply (date_new_raise_day (year today) mv dv); [lia | lia | assumption]].
  apply date_new_ok in Hbty as (-> & Hreal). cbn [year month day].
  assert (Hcel : forall bty', real_date (year bty') (month bty') (day bty') ->
            celebration today td (sub_days bty' today) = Raise e -> False).
  { intros bty' Hb' Hc. pose proof (toordinal_bounds _ Hb').
    destruct (celebration_returns today td (sub_days bty' today)) as [x Hx];
      [unfold sub_days; lia | congruence]. }
  match goal with
  | |- context [if ?c then if ?c' then _ else _ else _] => destruct c; [destruct c' |]
  end.
  - destruct (date_new (year today + 1) mv dv) as [bty'|e2] eqn:Hbty';
      [| intros H; inversion H; subst;
         apply (date_new_raise_day (year today + 1) mv dv); [lia | lia | assumption]].
    apply date_new_ok in Hbty' as (-> & Hreal'). intros H.
    destruct (Hcel (mkdate (year today + 1) mv dv) Hreal' H).
  - intros H. destruct (Hcel (mkdate (year today) mv dv) Hreal H).
  - intros H. destruct (Hcel (mkdate (year today) mv dv) Hreal H).
Qed.

(** X21. With a birthday on 29 February in the book and today in a year
    before 9999 that is no leap year, [show_birthdays] returns the text of
    the [ValueError] and prints nothing; [main] drops what it returns, so
    the command shows nothing at all, also for the other contacts. *)
Theorem show_birthdays_is_silent_on_leap_day
    (today : date) (ss : Session) (nm : pystr) (r : Record_) (b : Field) (bd : date) :
  is_date today -> year today < 9999 -> is_leap (year today) = false ->
  Forall (fun kr => birthday_ok (snd kr)) (items (book ss)) ->
  In (nm, r) (items (book ss)) ->
  birthday r = Some b -> strptime (value b) = Ok bd ->
  month bd = 2 -> day bd = 29 ->
  show_birthdays today [] ss = (Ok (Some (py "day is out of range for month")), ss)
  /\ drop_result (show_birthdays today []) ss = (Ok true, ss).
Proof.
  intros Htoday Hyear Hleap Hall Hin Hb Hbd Hm Hd.
  assert (Hrun : get_birthdays_per_week today (book ss)
                 = Raise (ValueError "day is out of range for month")).
  { destruct (leap_day_not_in_common_year (year today) bd Hm Hd Hleap) as [e0 He0].
    assert (Hf : filed today (strftime_A today) r = Raise e0).
    { unfold filed. rewrite Hb. unfold delta_days.
      rewrite Hbd, (strptime_truthy _ _ Hbd). unfold mbind, res_bind. now rewrite He0. }
    unfold get_birthdays_per_week.
    destruct (loop_raises today (strftime_A today) (items (book ss)) [] nm r e0 Hin Hf)
      as [e He].
    rewrite He. f_equal.
    destruct (loop_raise_source _ _ _ _ _ He) as (nm' & r' & Hin' & Hf').
    eapply filed_raise_message; eauto.
    rewrite Forall_forall in Hall. apply (Hall (nm', r')). now apply list_elem_of_In. }
  assert (Hshow : show_birthdays today [] ss
                  = (Ok (Some (py "day is out of range for month")), ss)).
  { unfold show_birthdays, input_error, show_birthdays_body. now rewrite Hrun. }
  split; [exact Hshow |]. unfold drop_result. now rewrite Hshow.
Qed.

(** Bob was born on 29 February 2000; on 3 November 2026 the command
    prints nothing. *)
Lemma show_birthdays_is_silent_on_leap_day_witness :
  show_birthdays (mkdate 2026 11 3) [] (mkSession bob_world [])
  = (Ok (Some (py "day is out of range for month")), mkSession bob_world [])
  /\ drop_result (show_birthdays (mkdate 2026 11 3) []) (mkSession bob_world [])
     = (Ok true, mkSession bob_world []).
Proof.
  apply (show_birthdays_is_silent_on_leap_day (mkdate 2026 11 3)
           (mkSession bob_world []) (py "Bob")
           (mkRecord (Name (py "Bob")) [mkField (py "0671234567")]
                     (Some (mkField (py "29-02-2000"))))
           (mkField (py "29-02-2000")) (mkdate 2000 2 29)).
  - reflexivity.
  - reflexivity.
  - vm_compute; reflexivity.
  - apply Forall_forall. intros [nm r] Hin. apply list_elem_of_In in Hin.
    vm_compute in Hin. destruct Hin as [H | []]. inversion H; subst.
    exists (mkdate 2000 2 29). vm_compute. reflexivity.
  - vm_compute. left; reflexivity.
  - reflexivity.
  - vm_compute; reflexivity.
  - reflexivity.
  - reflexivity.
Defined.

(** ** [parse_input] and [main] *)

Lemma split_from_spec (s : pystr) : forall cur,
  no_blank cur ->
  Forall (fun t => t <> [] /\ no_blank t) (split_from cur s)
  /\ (split_from cur s = [] -> cur = [] /\ Forall (fun c => isspace c = true) s).
Proof.
  induction s as [|c s IH]; intros cur Hcur; simpl.
  - destruct cur as [|a cur]; simpl; split.
    + apply Forall_nil. exact I.
    + intros _. split; [reflexivity | apply Forall_nil; exact I].
    + apply Forall_cons. split; [split; [discriminate | assumption] | apply Forall_nil; exact I].
    + discriminate.
  - destruct (isspace c) eqn:Ec.
    + destruct (IH [] ltac:(apply Forall_nil; exact I)) as [H1 H2].
      destruct cur as [|a cur]; simpl; split.
      * exact H1.
      * intros H. destruct (H2 H) as [_ Hs]. split; [reflexivity |].
        apply Forall_cons. auto.
      * apply Forall_cons. split; [split; [discriminate | assumption] | exact H1].
      * discriminate.
    + assert (Hcur' : no_blank (cur ++ [c])).
      { apply Forall_app. split; [assumption |].
        apply Forall_cons. split; [assumption | apply Forall_nil; exact I]. }
      destruct (IH _ Hcur') as [H1 H2]. split; [exact H1 |].
      intros H. destruct (H2 H) as [Hnil _]. now destruct cur.
Qed.

(** X22. [parse_input] gives a command and arguments exactly when the line
    has a character that is no blank; the arguments are then non-empty and
    without blanks, so no newline and no space reaches a handler.  A line of
    blanks only gives the text of the [ValueError] of the unpacking. *)
Theorem parse_input_spec (lower : pystr -> pystr) (user_input : pystr) :
  match parse_input lower user_input with
  | Tuple cmd args => Forall (fun a => a <> [] /\ no_blank a) args
  | Message s =>
      s = py "not enough values to unpack (expected at least 1, got 0)"
      /\ Forall (fun c => isspace c = true) user_input
  end.
Proof.
  unfold parse_input, split.
  destruct (split_from_spec user_input [] ltac:(apply Forall_nil; exact I)) as [H1 H2].
  destruct (split_from [] user_input) as [|cmd args].
  - split; [reflexivity | now apply H2].
  - now apply Forall_cons in H1 as [_ H1].
Qed.

Lemma exec_app (ops1 ops2 : list op) (w : World) :
  exec (ops1 ++ ops2) w = exec ops2 (exec ops1 w).
Proof. unfold exec. apply fold_left_app. Qed.

Lemma snd_input_error {S : Type} (func : handler S) (s : S) :
  snd (input_error func s) = snd (func s).
Proof.
  unfold input_error. destruct (func s) as [[v|[[]|]] s']; reflexivity.
Qed.

Lemma add_contact_ops (args : list pystr) (w : World) :
  Forall no_blank args ->
  exists ops, Forall typed_op ops /\ snd (add_contact args w) = exec ops w.
Proof.
  intros Hargs. unfold add_contact. rewrite snd_input_error.
  destruct args as [|nm [|phone [|x rest]]];
    try (exists []; split; [apply Forall_nil; exact I | reflexivity]).
  exists [OpAddRecord nm phone None]. split.
  - apply Forall_cons. split; [| apply Forall_nil; exact I]. simpl.
    apply Forall_cons in Hargs as [_ Hargs]. now apply Forall_cons in Hargs as [Hp _].
  - unfold add_contact_body, core, exec. simpl.
    destruct (add_record nm phone None w) as [[[]|e] w']; reflexivity.
Qed.

Lemma change_contact_ops (args : list pystr) (w : World) :
  Forall no_blank args ->
  exists ops, Forall typed_op ops /\ snd (change_contact args w) = exec ops w.
Proof.
  intros Hargs. unfold change_contact. rewrite snd_input_error.
  destruct args as [|nm [|new_phone [|x rest]]];
    try (exists []; split; [apply Forall_nil; exact I | reflexivity]).
  unfold change_contact_body.
  destruct (find_record nm w) as [[l r]|] eqn:Hfind;
    [| exists []; split; [apply Forall_nil; exact I | reflexivity]].
  destruct (phones r) as [|p0 ps] eqn:Hphones;
    [exists []; split; [apply Forall_nil; exact I | reflexivity] |].
  exists [OpRemovePhone l (value p0); OpAddPhone l new_phone]. split.
  - apply Forall_cons. split; [exact I |].
    apply Forall_cons. split; [| apply Forall_nil; exact I]. simpl.
    apply Forall_cons in Hargs as [_ Hargs]. now apply Forall_cons in Hargs as [Hp _].
  - apply find_record_Some in Hfind as [_ Hl].
    unfold core, exec. simpl. rewrite (call_eq _ _ _ _ Hl). simpl.
    destruct (call l (add_phone new_phone) _) as [[[]|e] w']; reflexivity.
Qed.

Lemma add_birthday_handler_ops (args : list pystr) (w : World) :
  exists ops, Forall typed_op ops /\ snd (add_birthday_handler args w) = exec ops w.
Proof.
  unfold add_birthday_handler. rewrite snd_input_error.
  destruct args as [|nm [|bday [|x rest]]];
    try (exists []; split; [apply Forall_nil; exact I | reflexivity]).
  unfold add_birthday_handler_body.
  destruct (find_record nm w) as [[l r]|] eqn:Hfind;
    [| exists []; split; [apply Forall_nil; exact I | reflexivity]].
  exists [OpAddBirthday l bday]. split.
  - apply Forall_cons. split; [exact I | apply Forall_nil; exact I].
  - unfold exec. cbn [fold_left run_op]. unfold core, lift, returns. run_m.
    destruct (Birthday bday) as [b|e]; [| reflexivity].
    destruct (call l (add_birthday (ArgBirthday b)) w) as [[[]|e] w']; reflexivity.
Qed.

Lemma show_phone_keeps (args : list pystr) (w : World) : snd (show_phone args w) = w.
Proof.
  unfold show_phone. rewrite snd_input_error. unfold show_phone_body.
  destruct args as [|nm [|x rest]]; try reflexivity.
  now destruct (find_record nm w) as [[l r]|].
Qed.

Lemma show_birthday_keeps (args : list pystr) (w : World) : snd (show_birthday args w) = w.
Proof.
  unfold show_birthday. rewrite snd_input_error. unfold show_birthday_body.
  destruct args as [|nm [|x rest]]; try reflexivity.
  destruct (find_record nm w) as [[l r]|]; [| reflexivity].
  now destruct (birthday r).
Qed.

Lemma show_all_keeps (args : list pystr) (ss : Session) :
  book (snd (show_all args ss)) = book ss.
Proof.
  unfold show_all. rewrite snd_input_error. unfold show_all_body.
  destruct args; [| reflexivity]. now destruct (data (book ss)).
Qed.

Lemma show_birthdays_keeps (today : date) (args : list pystr) (ss : Session) :
  book (snd (show_birthdays today args ss)) = book ss.
Proof.
  unfold show_birthdays. rewrite snd_input_error. unfold show_birthdays_body.
  destruct args; [| reflexivity]. now destruct (get_birthdays_per_week today (book ss)).
Qed.

Lemma book_print_result (m : M World (option pystr)) (ss : Session) :
  book (snd (print_result m ss)) = snd (m (book ss)).
Proof.
  unfold print_result. destruct (m (book ss)) as [[[v|]|e] w]; reflexivity.
Qed.

Lemma book_drop_result (m : M Session (option pystr)) (ss : Session) :
  book (snd (drop_result m ss)) = book (snd (m ss)).
Proof. unfold drop_result. destruct (m ss) as [[v|e] ss']; reflexivity. Qed.

(** One turn of [main] does to the book what some operations of the
    handlers do. *)
Lemma main_step_ops (lower : pystr -> pystr) (today : date) (user_input : pystr)
    (ss : Session) :
  exists ops,
    Forall typed_op ops
    /\ book (snd (main_step lower today user_input ss)) = exec ops (book ss).
Proof.
  assert (Hnone : exists ops, Forall typed_op ops /\ book ss = exec ops (book ss))
    by (exists []; split; [apply Forall_nil; exact I | reflexivity]).
  unfold main_step.
  pose proof (parse_input_spec lower user_input) as Hparse.
  destruct (parse_input lower user_input) as [cmd args|s].
  - assert (Hargs : Forall no_blank args).
    { eapply Forall_impl; [exact Hparse |]. intros a [_ Ha]. exact Ha. }
    cbn [unpack].
    repeat match goal with
           | |- context [if ?c then _ else _] => destruct c
           end; cbn [snd book print_line];
      rewrite ?book_print_result, ?book_drop_result, ?show_all_keeps,
        ?show_birthdays_keeps, ?show_phone_keeps, ?show_birthday_keeps;
      try exact Hnone.
    + now apply add_contact_ops.
    + now apply change_contact_ops.
    + apply add_birthday_handler_ops.
  - destruct Hparse as [-> _]. exact Hnone.
Qed.

Lemma main_loop_ops (lower : pystr -> pystr) (lines : list (date * pystr)) :
  forall ss,
    exists ops,
      Forall typed_op ops /\ book (main_loop lower lines ss) = exec ops (book ss).
Proof.
  induction lines as [|[today user_input] lines IH]; intros ss; simpl.
  - exists []. split; [apply Forall_nil; exact I | reflexivity].
  - destruct (main_step_ops lower today user_input ss) as (ops1 & H1 & E1).
    destruct (main_step lower today user_input ss) as [[[|]|e] ss'] eqn:Hstep;
      simpl in E1; try (exists ops1; split; assumption).
    destruct (IH ss') as (ops2 & H2 & E2).
    exists (ops1 ++ ops2). split; [apply Forall_app; auto |].
    now rewrite exec_app, <- E1.
Qed.

Lemma ten_add_phone (phone : pystr) (r : Record_) :
  no_blank phone -> ten_decimal_phones r -> ten_decimal_phones (snd (add_phone phone r)).
Proof.
  intros Hnb Hr. unfold add_phone. run_m.
  destruct (Phone phone) as [p|e] eqn:Hp; simpl; [| assumption].
  unfold ten_decimal_phones, set_phones. cbn [phones].
  apply Forall_app. split; [assumption |].
  apply Forall_cons. split; [| apply Forall_nil; exact I].
  apply Phone_inv in Hp as [-> Hv]. simpl.
  apply re_match_phone_spec in Hv as (ds & Hlen & Hall & [-> | ->]).
  - split; assumption.
  - exfalso. apply Forall_app in Hnb as [_ Hnb]. apply Forall_cons in Hnb as [Hnl _].
    vm_compute in Hnl. discriminate Hnl.
Qed.

Lemma ten_remove_phone (phone : pystr) (r : Record_) :
  ten_decimal_phones r -> ten_decimal_phones (snd (remove_phone phone r)).
Proof.
  intros Hr. unfold remove_phone, modify, ten_decimal_phones, set_phones. cbn [snd phones].
  apply Forall_forall. intros p Hp. apply list_elem_of_In, filter_In in Hp as [Hp _].
  unfold ten_decimal_phones in Hr. rewrite Forall_forall in Hr.
  now apply Hr, list_elem_of_In.
Qed.

Lemma ten_run_op (o : op) (w : World) :
  typed_op o ->
  Forall ten_decimal_phones (store w) ->
  Forall ten_decimal_phones (store (snd (run_op o w))).
Proof.
  intros Ht Hok. destruct o as [nm phone [v|]| | | | | | |]; simpl in Ht; try contradiction.
  - simpl. unfold add_record, new_record. unfold mbind at 1, M_bind.
    unfold mbind at 2, M_bind, lift. rewrite Record_init_None. unfold alloc.
    unfold mbind, M_bind.
    set (w1 := mkWorld (store w ++ [mkRecord (Name nm) [] None]) (data w)).
    assert (H1 : Forall ten_decimal_phones (store w1)).
    { unfold w1. cbn [store]. apply Forall_app. split; [assumption |].
      apply Forall_cons. split; [apply Forall_nil; exact I | apply Forall_nil; exact I]. }
    pose proof (Forall_store_call ten_decimal_phones (length (store w)) (add_phone phone) w1
                  (fun r => ten_add_phone phone r Ht) H1) as H2.
    destruct (call (length (store w)) (add_phone phone) w1) as [[[]|e] w2]; simpl in *;
      assumption.
  - simpl. apply Forall_store_call; [intros r; now apply ten_add_phone | assumption].
  - simpl. apply Forall_store_call; [apply ten_remove_phone | assumption].
  - simpl. run_m. destruct (Birthday v) as [b|e]; simpl; [| assumption].
    apply Forall_store_call; [| assumption]. intros r Hr. exact Hr.
Qed.

Lemma keys_run_op_typed (o : op) (w : World) (nm : pystr) :
  typed_op o ->
  In nm (keys (data w)) -> In nm (keys (data (snd (run_op o w)))).
Proof.
  intros Ht Hin. destruct o as [nm0 phone [v|]| | | | | | |]; simpl in Ht; try contradiction.
  - simpl. unfold add_record. unfold mbind at 1, M_bind.
    pose proof (data_new_record nm0 None w) as H1.
    destruct (new_record nm0 None w) as [[l|e] w1]; simpl in *; [| now rewrite H1].
    unfold mbind, M_bind. pose proof (data_call l (add_phone phone) w1) as H2.
    destruct (call l (add_phone phone) w1) as [[[]|e] w2]; simpl in *.
    + rewrite keys_dict_set, H2, H1.
      destruct (dict_mem nm0 (data w)); [assumption |]. apply in_or_app. now left.
    + now rewrite H2, H1.
  - simpl. now rewrite data_call.
  - simpl. now rewrite data_call.
  - simpl. run_m. destruct (Birthday v) as [b|e]; simpl; [| assumption].
    now rewrite data_call.
Qed.

(** X23. Whatever is typed, the book of [main] is a state that operations
    of the classes reach from the empty book, with a record added without
    a birthday, phones added and removed, and birthdays set, on strings
    without blanks; so its stored phones passed [Phone] and its names are
    distinct. *)
Theorem main_book_is_reachable (lower : pystr -> pystr) (lines : list (date * pystr)) :
  (exists ops,
     Forall typed_op ops
     /\ book (main_loop lower lines main_start) = exec ops empty_world)
  /\ store_ok (book (main_loop lower lines main_start))
  /\ NoDup (keys (data (book (main_loop lower lines main_start)))).
Proof.
  destruct (main_loop_ops lower lines main_start) as (ops & Hops & E).
  change (book main_start) with empty_world in E.
  split; [exists ops; auto |]. rewrite E. split.
  - apply store_ok_exec. apply Forall_nil. exact I.
  - apply NoDup_exec. apply NoDup_nil. exact I.
Qed.

(** X24. Every phone stored in a session of [main] is ten decimal
    characters and nothing else: a newline cannot follow the digits,
    because the arguments of a command have no blanks. *)
Theorem main_phones_are_ten_decimals (lower : pystr -> pystr) (lines : list (date * pystr)) :
  Forall ten_decimal_phones (store (book (main_loop lower lines main_start))).
Proof.
  destruct (main_loop_ops lower lines main_start) as (ops & Hops & E).
  change (book main_start) with empty_world in E. rewrite E. clear E.
  assert (H : forall w, Forall ten_decimal_phones (store w) ->
                        Forall ten_decimal_phones (store (exec ops w))).
  { unfold exec. induction ops as [|o ops IH]; intros w Hw; simpl; [assumption |].
    apply Forall_cons in Hops as [Ho Hops]. apply (IH Hops). now apply ten_run_op. }
  apply H. apply Forall_nil. exact I.
Qed.

(** X25. No command of [main] removes a contact: a name of the book stays
    in the book, whatever is typed afterwards. *)
Theorem main_never_removes_a_name
    (lower : pystr -> pystr) (lines : list (date * pystr)) (ss : Session) (nm : pystr) :
  In nm (keys (data (book ss))) ->
  In nm (keys (data (book (main_loop lower lines ss)))).
Proof.
  intros Hin. destruct (main_loop_ops lower lines ss) as (ops & Hops & E).
  rewrite E. clear E. revert Hops Hin. generalize (book ss). unfold exec.
  induction ops as [|o ops IH]; intros w Hops Hin; simpl; [assumption |].
  apply Forall_cons in Hops as [Ho Hops]. apply (IH _ Hops).
  now apply keys_run_op_typed.
Qed.

(** Ann stays in the example book through a change, a second add and an
    unknown command. *)
Lemma main_never_removes_a_name_witness :
  In (py "Ann")
     (keys (data (book (main_loop ascii_lower
                          [(mkdate 2026 11 4, py "change Ann 12345");
                           (mkdate 2026 11 4, py "ADD Ann 0671234567");
                           (mkdate 2026 11 4, py "delete Ann")]
                          (mkSession example_book []))))).
Proof.
  apply (main_never_removes_a_name ascii_lower _ (mkSession example_book []) (py "Ann")).
  vm_compute. left; reflexivity.
Defined.

(** X26. On a Saturday or a Sunday nothing is moved to Monday but a
    birthday that falls on the Sunday itself: every other record in the
    range is filed under the weekday of its own day, the weekend days
    included. *)
Theorem weekend_report_is_not_shifted
    (today : date) (w : World) (m : dict (list pystr))
    (nm : pystr) (r : Record_) (b : Field) (delta : Z) (dt : date) :
  get_birthdays_per_week today w = Ok m ->
  In (nm, r) (items w) ->
  birthday r = Some b ->
  In (strftime_A today) [py "Saturday"; py "Sunday"] ->
  delta_days today (strftime_A today) b = Ok delta ->
  -2 <= delta < 7 ->
  ~ (strftime_A today = py "Sunday" /\ delta = 0) ->
  add_days today delta = Ok dt ->
  in_bucket (strftime_A dt) nm m.
Proof.
  intros Hrun Hin Hb Htd Hdelta Hrange Hnot Hadd. unfold get_birthdays_per_week in Hrun.
  apply (loop_spec _ _ _ _ _ Hrun). right. exists r. split; [assumption |].
  unfold filed. rewrite Hb. unfold mbind, res_bind. rewrite Hdelta.
  unfold celebration. rewrite Hadd. unfold mbind, res_bind.
  replace (delta <? 7) with true by lia.
  replace (-2 <=? delta) with true by lia. cbn [andb].
  assert (Hin3 : str_in (strftime_A today) [py "Monday"; py "Sunday"; py "Saturday"] = true).
  { apply str_in_In. simpl in *. tauto. }
  assert (Hmon : str_eqb (strftime_A today) (py "Monday") = false).
  { apply str_eqb_neq. intros E. rewrite E in Htd.
    destruct Htd as [H | [H | []]]; vm_compute in H; discriminate H. }
  rewrite Hin3, Hmon. cbn [negb]. rewrite !andb_false_r.
  destruct ((delta =? 0) && str_eqb (strftime_A today) (py "Sunday")) eqn:E.
  - apply andb_true_iff in E as [E1 E2]. apply Z.eqb_eq in E1. apply str_eqb_eq in E2.
    exfalso. apply Hnot. auto.
  - destruct ((-1 <=? delta) && (delta =? 0) && str_eqb (strftime_A today) (py "Sunday"))
      eqn:E'; [| reflexivity].
    apply andb_true_iff in E' as [E1 E2]. apply andb_true_iff in E1 as [_ E1].
    rewrite E1, E2 in E. discriminate E.
Qed.

(** On Saturday 7 November 2026 Ann's birthday is today and stays under
    Saturday. *)
Lemma weekend_report_is_not_shifted_witness :
  exists m, get_birthdays_per_week (mkdate 2026 11 7) example_book = Ok m
            /\ in_bucket (strftime_A (mkdate 2026 11 7)) (py "Ann") m.
Proof.
  eexists. split; [vm_compute; reflexivity |].
  apply (weekend_report_is_not_shifted (mkdate 2026 11 7) example_book _
           (py "Ann")
           (mkRecord (Name (py "Ann")) [mkField (py "0501234567")]
                     (Some (mkField (py "07-11-1990"))))
           (mkField (py "07-11-1990")) 0 (mkdate 2026 11 7)).
  - vm_compute; reflexivity.
  - vm_compute. left; reflexivity.
  - reflexivity.
  - vm_compute. left; reflexivity.
  - vm_compute; reflexivity.
  - lia.
  - intros [H _]. vm_compute in H. discriminate H.
  - vm_compute; reflexivity.
Defined.
